(** * openebdmini: control loop of the EBD-MINI programmable load

    A shallow embedding of [openebdmini.c] (sampling, measurement, fan
    control, low voltage cutoff, bang-bang load regulation, telemetry,
    buttons, display) and of [state.c] (validated mode changes), followed
    by the properties of the sensing and regulation loop.

    Integers are [Z]; every place where C narrows a value to 8, 16 or 32
    bits is written out with [u8], [u16] or [u32].  All operands of [/] and
    [%] in the firmware are unsigned, so [Z.div] and [Z.modulo] coincide
    with the C operators. *)

From Stdlib Require Import ZArith Lia Ascii String.
From stdpp Require Import base list.

Local Open Scope Z_scope.

(** ** Machine integers *)

Definition u8 (x : Z) : Z := x mod 256.
Definition u16 (x : Z) : Z := x mod 65536.
Definition u32 (x : Z) : Z := x mod 4294967296.

#[global] Arguments u8 : simpl never.
#[global] Arguments u16 : simpl never.
#[global] Arguments u32 : simpl never.

Definition is_u16 (x : Z) : Prop := 0 <= x < 65536.
Definition is_code10 (x : Z) : Prop := 0 <= x < 1024.

(** ** Constants of [openebdmini.c] *)

Definition FANWATTTHRESHOLD : Z := 2500.
Definition MILLIVOLTSPERSTEP : Z := 20.
Definition MILLIVOLTSPERSTEP_HIGHGAIN : Z := 65.
Definition HIGHOFFSET : Z := 20.
Definition MICROVOLTSPERSTEP_SHUNT : Z := 68.
Definition SAMPLES : nat := 12.

(** [typedef enum { OPMODE_OFF, OPMODE_SET, OPMODE_ON, OPMODE_LVC } operationmode] *)
Inductive operationmode : Type :=
  | OPMODE_OFF
  | OPMODE_SET
  | OPMODE_ON
  | OPMODE_LVC.

Definition operationmode_eqb (a b : operationmode) : bool :=
  match a, b with
  | OPMODE_OFF, OPMODE_OFF | OPMODE_SET, OPMODE_SET
  | OPMODE_ON, OPMODE_ON | OPMODE_LVC, OPMODE_LVC => true
  | _, _ => false
  end.

(** [typedef enum { VOLTS, AMPS, AMPHOURS, WATTS, DISPMODE_END } displaymode].
    The variable is incremented with [dm++], so it is kept as the integer
    value of the enumerator. *)
Definition displaymode : Type := Z.
Definition VOLTS : displaymode := 0.
Definition AMPS : displaymode := 1.
Definition AMPHOURS : displaymode := 2.
Definition WATTS : displaymode := 3.
Definition DISPMODE_END : displaymode := 4.

(** [typedef enum { ZERO, ..., NINE, CHAR_A, CHAR_V, CHAR_LITTLEV, CHAR_SPACE } character],
    again as the enumerator's value: the display code casts digits to it. *)
Definition character : Type := Z.
Definition EIGHT : character := 8.
Definition CHAR_A : character := 10.
Definition CHAR_V : character := 11.
Definition CHAR_LITTLEV : character := 12.
Definition CHAR_SPACE : character := 13.

(** The [pbbits] column of the table [cbits]; port B carries one display
    segment (bit 0) next to the LED (bit 1) and the fan (bit 2). *)
Definition cbits_pbbits : list Z := [1; 1; 1; 0; 0; 0; 1; 0; 1; 0; 1; 1; 1; 0].

(** ** The state of the firmware

    The static variables of [openebdmini.c] that the loop reads or writes
    ([systick], [amphours] and [volttrim] are never accessed), and the
    peripherals the properties are about: output register B, the compare
    register of timer 1 together with the values latched by the update
    events that [setloadduty] generates, and the bytes handed to the UART.
    Ports C, D and E only drive display segments and are left out. *)
Record state : Type := mkState {
  om : operationmode;
  dm : displaymode;
  highgain : bool;
  lvc : Z;
  targetamps : Z;
  volts : Z;
  amps : Z;
  watts : Z;
  loadduty : Z;
  voltsamples : list Z;
  shuntsamples : list Z;
  volthighgainsamples : list Z;
  sample : Z;
  PB_ODR : Z;
  TIM1_CCR1H : Z;
  TIM1_CCR1L : Z;
  tim1_latched : list Z;
  uart_tx : list ascii
}.

Definition set_om (v : operationmode) (s : state) : state :=
  mkState v (dm s) (highgain s) (lvc s) (targetamps s) (volts s) (amps s)
    (watts s) (loadduty s) (voltsamples s) (shuntsamples s)
    (volthighgainsamples s) (sample s) (PB_ODR s) (TIM1_CCR1H s)
    (TIM1_CCR1L s) (tim1_latched s) (uart_tx s).

Definition set_dm (v : displaymode) (s : state) : state :=
  mkState (om s) v (highgain s) (lvc s) (targetamps s) (volts s) (amps s)
    (watts s) (loadduty s) (voltsamples s) (shuntsamples s)
    (volthighgainsamples s) (sample s) (PB_ODR s) (TIM1_CCR1H s)
    (TIM1_CCR1L s) (tim1_latched s) (uart_tx s).

Definition set_loadduty (v : Z) (s : state) : state :=
  mkState (om s) (dm s) (highgain s) (lvc s) (targetamps s) (volts s) (amps s)
    (watts s) v (voltsamples s) (shuntsamples s)
    (volthighgainsamples s) (sample s) (PB_ODR s) (TIM1_CCR1H s)
    (TIM1_CCR1L s) (tim1_latched s) (uart_tx s).

Definition set_windows (sh vo hi : list Z) (cursor : Z) (s : state) : state :=
  mkState (om s) (dm s) (highgain s) (lvc s) (targetamps s) (volts s) (amps s)
    (watts s) (loadduty s) vo sh hi cursor (PB_ODR s) (TIM1_CCR1H s)
    (TIM1_CCR1L s) (tim1_latched s) (uart_tx s).

Definition set_measurement (a v w : Z) (hg : bool) (s : state) : state :=
  mkState (om s) (dm s) hg (lvc s) (targetamps s) v a w (loadduty s)
    (voltsamples s) (shuntsamples s) (volthighgainsamples s) (sample s)
    (PB_ODR s) (TIM1_CCR1H s) (TIM1_CCR1L s) (tim1_latched s) (uart_tx s).

Definition set_PB_ODR (v : Z) (s : state) : state :=
  mkState (om s) (dm s) (highgain s) (lvc s) (targetamps s) (volts s) (amps s)
    (watts s) (loadduty s) (voltsamples s) (shuntsamples s)
    (volthighgainsamples s) (sample s) v (TIM1_CCR1H s)
    (TIM1_CCR1L s) (tim1_latched s) (uart_tx s).

Definition set_TIM1 (h l : Z) (latched : list Z) (s : state) : state :=
  mkState (om s) (dm s) (highgain s) (lvc s) (targetamps s) (volts s) (amps s)
    (watts s) (loadduty s) (voltsamples s) (shuntsamples s)
    (volthighgainsamples s) (sample s) (PB_ODR s) h l latched (uart_tx s).

Definition set_uart_tx (v : list ascii) (s : state) : state :=
  mkState (om s) (dm s) (highgain s) (lvc s) (targetamps s) (volts s) (amps s)
    (watts s) (loadduty s) (voltsamples s) (shuntsamples s)
    (volthighgainsamples s) (sample s) (PB_ODR s) (TIM1_CCR1H s)
    (TIM1_CCR1L s) (tim1_latched s) v.

(** What the hardware presents during one pass of the main loop: the data
    registers of the converter at the end of each of the three conversions
    (the busy wait of [readadc] has then finished), and the input register
    of port D that carries the two buttons. *)
Record adc_regs : Type := mkAdc { ADC_DRH : Z; ADC_DRL : Z }.

Record adc_inputs : Type := mkAdcInputs {
  conv_shunt : adc_regs;
  conv_vin : adc_regs;
  conv_vin_highgain : adc_regs
}.

Record inputs : Type := mkInputs { adc : adc_inputs; PD_IDR : Z }.

(** ** Load drive (timer 1, channel 1) *)

(** [setloadduty]: the duty is split over the two halves of the compare
    register and an update event is generated, which latches the value. *)
Definition setloadduty (duty : Z) (s : state) : state :=
  let h := u8 (Z.land (Z.shiftr duty 8) 255) in
  let l := u8 (Z.land duty 255) in
  set_TIM1 h l (tim1_latched s ++ [h * 256 + l]) s.

(** [initload]: the reload value of the timer is 1024 and the compare
    register starts at that value. *)
Definition reloadvalue : Z := 1024.

Definition initload (s : state) : state := setloadduty reloadvalue s.

(** [turnoffload] *)
Definition turnoffload (s : state) : state :=
  let s := set_loadduty 1025 s in
  setloadduty (loadduty s) s.

(** ** LED and fan on port B *)

Definition turnonled (s : state) : state :=
  set_PB_ODR (u8 (Z.lor (PB_ODR s) (Z.shiftl 1 1))) s.

Definition turnonfan (s : state) : state :=
  set_PB_ODR (u8 (Z.lor (PB_ODR s) (Z.shiftl 1 2))) s.

Definition turnofffan (s : state) : state :=
  set_PB_ODR (u8 (Z.land (PB_ODR s) (Z.lnot (Z.shiftl 1 2)))) s.

(** The level of the fan pin. *)
Definition fan_on (s : state) : bool := Z.testbit (PB_ODR s) 2.

(** ** [split]: decimal digits of a value, most significant first

    The first loop peels digits off the value from the right and leaves
    early once nothing remains; the second loop zero-fills the positions
    that are left.  [buffer] has at least [digits] cells at both call
    sites, so every write is in range. *)
Fixpoint split_peel (value : Z) (buffer : list Z) (digits : nat) : list Z * nat :=
  match digits with
  | O => (buffer, O)
  | S d =>
      let tmp := u16 (value mod 10) in
      let buffer := <[d := tmp]> buffer in
      let value := u16 (value - tmp) in
      if value =? 0 then (buffer, d)
      else split_peel (u16 (value / 10)) buffer d
  end.

Fixpoint split_fill (buffer : list Z) (digits : nat) : list Z :=
  match digits with
  | O => buffer
  | S d => split_fill (<[d := 0]> buffer) d
  end.

Definition split (value : Z) (buffer : list Z) (digits : nat) : list Z :=
  let '(buffer, digits) := split_peel value buffer digits in
  split_fill buffer digits.

(** ** Analog sampling *)

(** [readadc]: the ten bit result is assembled from the two data registers. *)
Definition readadc (r : adc_regs) : Z :=
  u16 (Z.lor (Z.shiftl (u16 (u8 (ADC_DRH r))) 2) (u8 (ADC_DRL r))).

(** The accumulation loop [for (i = 0; i < SAMPLES; i++) sum += w[i]] over
    one window, in 32 bits. *)
Definition window_sum (w : list Z) : Z :=
  fold_left (fun sum i => u32 (sum + nth i w 0)) (seq 0 SAMPLES) 0.

(** ** [checkstate], first half: sampling, measurement and fan *)
Definition checkstate_measure (s : state) (i : adc_inputs) : state :=
  let shuntsamples' := <[Z.to_nat (sample s) := readadc (conv_shunt i)]> (shuntsamples s) in
  let voltsamples' := <[Z.to_nat (sample s) := readadc (conv_vin i)]> (voltsamples s) in
  let volthighgainsamples' :=
    <[Z.to_nat (sample s) := readadc (conv_vin_highgain i)]> (volthighgainsamples s) in
  let sample' := u8 ((sample s + 1) mod Z.of_nat SAMPLES) in
  let shuntsum := window_sum shuntsamples' in
  let voltsum := window_sum voltsamples' in
  let volthighgainsum := window_sum volthighgainsamples' in
  let amps' :=
    u16 (u32 (u32 (shuntsum / Z.of_nat SAMPLES) * MICROVOLTSPERSTEP_SHUNT) / 20) in
  let highgainvolts :=
    u16 (u32 (u32 (u32 (volthighgainsum / Z.of_nat SAMPLES) * MILLIVOLTSPERSTEP_HIGHGAIN)
                / 10 - HIGHOFFSET)) in
  let lowgainvolts := u16 (u32 (u32 (voltsum / Z.of_nat SAMPLES) * MILLIVOLTSPERSTEP)) in
  let highgain' := lowgainvolts <=? 6000 in
  let volts' := if highgain' then highgainvolts else lowgainvolts in
  let wattstemp := u32 (u32 amps' * u32 volts') / 1000 in
  let watts' := u16 wattstemp in
  let s := set_windows shuntsamples' voltsamples' volthighgainsamples' sample' s in
  let s := set_measurement amps' volts' watts' highgain' s in
  if watts' >? FANWATTTHRESHOLD then turnonfan s else turnofffan s.

(** ** [checkstate], second half: the [switch (om)] *)
Definition checkstate_regulate (s : state) : state :=
  match om s with
  | OPMODE_ON =>
      if volts s <? lvc s then
        turnoffload (set_om OPMODE_LVC s)
      else if amps s <? targetamps s then
        if loadduty s >? 300 then
          let s := set_loadduty (u16 (loadduty s - 1)) s in
          setloadduty (loadduty s) s
        else s
      else if amps s >? targetamps s then
        if loadduty s <? 1000 then
          let s := set_loadduty (u16 (loadduty s + 1)) s in
          setloadduty (loadduty s) s
        else s
      else s
  | _ => s
  end.

Definition checkstate (s : state) (i : adc_inputs) : state :=
  checkstate_regulate (checkstate_measure s i).

(** ** Telemetry over the UART *)

(** Modelled from the spec: [uart.h] is not among the sources.  It is the
    byte-level transport used to emit telemetry text: [uart_putch] hands one
    character to the transmitter and [uart_puts] every character of a
    string, in order. *)
Definition uart_putch (c : Z) (s : state) : state :=
  set_uart_tx (uart_tx s ++ [ascii_of_N (Z.to_N (u8 c))]) s.

Definition uart_puts (str : string) (s : state) : state :=
  set_uart_tx (uart_tx s ++ list_ascii_of_string str) s.

Definition CR : ascii := ascii_of_N 13.
Definition LF : ascii := ascii_of_N 10.

Definition sep (s : state) : state := uart_puts "," s.

(** [splitandprintvalue]: every cell of the local buffer is written by
    [split] before it is read, so its initial content does not matter. *)
Definition splitandprintvalue (value : Z) (s : state) : state :=
  let splittmp := split value (replicate 6 0) 6 in
  fold_left (fun s i => uart_putch (nth i splittmp 0 + 48) s) (seq 0 6) s.

Definition sendstate (s : state) : state :=
  let s :=
    match om s with
    | OPMODE_OFF => uart_puts "off" s
    | OPMODE_SET => uart_puts "set" s
    | OPMODE_ON => uart_puts "on" s
    | OPMODE_LVC => uart_puts "lvc" s
    end in
  let s := sep s in
  let s := splitandprintvalue (volts s) s in
  let s := sep s in
  let s := splitandprintvalue (amps s) s in
  let s := sep s in
  let s := splitandprintvalue (watts s) s in
  let s := sep s in
  let s := splitandprintvalue (targetamps s) s in
  let s := sep s in
  let s := splitandprintvalue (lvc s) s in
  let s := sep s in
  let s := splitandprintvalue (loadduty s) s in
  set_uart_tx (uart_tx s ++ [CR; LF]) s.

(** ** Buttons: start on bit 3 and mode on bit 7 of port D, active low *)
Definition checkbuttons (s : state) (pd_idr : Z) : state :=
  let portbits := u8 pd_idr in
  let s :=
    if Z.land portbits (Z.shiftl 1 3) =? 0 then
      match om s with
      | OPMODE_OFF => set_om OPMODE_ON s
      | OPMODE_ON => turnoffload (set_om OPMODE_OFF s)
      | _ => s
      end
    else s in
  if Z.land portbits (Z.shiftl 1 7) =? 0 then
    match om s with
    | OPMODE_OFF =>
        let s := set_dm (dm s + 1) s in
        if dm s =? DISPMODE_END then set_dm 0 s else s
    | OPMODE_LVC => set_om OPMODE_OFF s
    | _ => s
    end
  else s.

(** ** Display, as far as it touches port B *)

(** [setdigit]: the segment bits are cleared and the ones of the character
    set.  The digit select lines and the decimal point are on ports C and
    D. *)
Definition setdigit (which : Z) (c : character) (dot : bool) (s : state) : state :=
  let s := set_PB_ODR (u8 (Z.land (PB_ODR s)
                             (Z.lnot (nth (Z.to_nat EIGHT) cbits_pbbits 0)))) s in
  set_PB_ODR (u8 (Z.lor (PB_ODR s) (nth (Z.to_nat c) cbits_pbbits 0))) s.

(** [updatedisplay]: [dm] is always one of the four display modes; the
    two without a value show the initial [value = 1] and a blank unit. *)
Definition updatedisplay (s : state) : state :=
  let '(unit, value) :=
    if dm s =? VOLTS then (if highgain s then CHAR_LITTLEV else CHAR_V, volts s)
    else if dm s =? AMPS then (CHAR_A, amps s)
    else (CHAR_SPACE, 1) in
  let millis := u16 (value mod 1000) in
  let units := u16 (u16 (value - millis) / 1000) in
  let splittmp := split units (replicate 3 0) 3 in
  let '(digit, s) :=
    fold_left
      (fun (acc : Z * state) (pos : nat) =>
         let '(digit, s) := acc in
         if negb (nth pos splittmp 0 =? 0) || Nat.eqb pos 2
         then (digit + 1, setdigit digit (nth pos splittmp 0) (Nat.eqb pos 2) s)
         else acc)
      (seq 0 3) (0, s) in
  let splittmp := split millis splittmp 3 in
  let '(digit, s) :=
    fold_left
      (fun (acc : Z * state) (pos : nat) =>
         let '(digit, s) := acc in
         if digit <? 3
         then (digit + 1, setdigit digit (nth pos splittmp 0) false s)
         else acc)
      (seq 0 3) (digit, s) in
  setdigit digit unit false s.

(** ** [main] *)

(** The static initialisers, with the peripheral registers at their reset
    value. *)
Definition initial_state : state :=
  {| om := OPMODE_OFF; dm := VOLTS; highgain := false;
     lvc := 2000; targetamps := 1000;
     volts := 0; amps := 0; watts := 0; loadduty := 800;
     voltsamples := replicate SAMPLES 0;
     shuntsamples := replicate SAMPLES 0;
     volthighgainsamples := replicate SAMPLES 0;
     sample := 0;
     PB_ODR := 0; TIM1_CCR1H := 0; TIM1_CCR1L := 0; tim1_latched := [];
     uart_tx := [] |}.

(** The state on entry to [while (1)]: of the initialisation calls only
    [initload], [turnonled] and [turnonfan] touch what is modelled. *)
Definition boot_state : state := turnonfan (turnonled (initload initial_state)).

(** One pass of the body of [while (1)]. *)
Definition mainloop (s : state) (i : inputs) : state :=
  updatedisplay (checkbuttons (sendstate (checkstate s (adc i))) (PD_IDR i)).

Definition run (s : state) (ins : list inputs) : state := fold_left mainloop ins s.

(** The states the firmware can be in at the top of the loop. *)
Inductive reachable : state -> Prop :=
  | reachable_boot : reachable boot_state
  | reachable_step s i : reachable s -> reachable (mainloop s i).

(** ** [state.c] *)
Module StateC.

(** The globals of [state.c]. *)
Record globals : Type := mkGlobals {
  highgain : bool;
  lvc : Z;
  targetamps : Z;
  volts : Z;
  amps : Z;
  amphours : Z;
  watts : Z;
  loadduty : Z;
  digitbeingset : Z;
  time : Z;
  dm : displaymode;
  om : operationmode;
  sequence : Z
}.

Definition initial : globals :=
  {| highgain := false; lvc := 2000; targetamps := 1000; volts := 0;
     amps := 0; amphours := 0; watts := 0; loadduty := 800;
     digitbeingset := 0; time := 0; dm := VOLTS; om := OPMODE_OFF;
     sequence := 0 |}.

Definition set_om (v : operationmode) (g : globals) : globals :=
  mkGlobals (highgain g) (lvc g) (targetamps g) (volts g) (amps g)
    (amphours g) (watts g) (loadduty g) (digitbeingset g) (time g) (dm g)
    v (sequence g).

(** [state_changeopmode]: the new globals and the returned flag. *)
Definition state_changeopmode (g : globals) (newmode : operationmode)
  : globals * bool :=
  let changeok := false in
  let changeok :=
    match om g with
    | OPMODE_ON => if operationmode_eqb newmode OPMODE_OFF then true else changeok
    | OPMODE_OFF => if operationmode_eqb newmode OPMODE_ON then true else changeok
    | OPMODE_LVC => if operationmode_eqb newmode OPMODE_OFF then true else changeok
    | OPMODE_SET => changeok
    end in
  let g := if changeok then set_om newmode g else g in
  (g, changeok).

End StateC.

(** * Definitions used by the properties *)

(** Every ten bit code is the result of some conversion. *)
Definition adc_of_code (c : Z) : adc_regs := mkAdc (c / 4) (c mod 4).

(** The exact sum of a window and its truncating mean. *)
Definition sum_list (w : list Z) : Z := foldr Z.add 0 w.

Definition window_mean (w : list Z) : Z := window_sum w / Z.of_nat SAMPLES.

(** A window has twelve slots, each holding a ten bit code. *)
Definition window_ok (w : list Z) : Prop :=
  length w = SAMPLES /\ Forall is_code10 w.

Record state_ok (s : state) : Prop := mkStateOk {
  ok_lvc : is_u16 (lvc s);
  ok_targetamps : is_u16 (targetamps s);
  ok_volts : is_u16 (volts s);
  ok_amps : is_u16 (amps s);
  ok_watts : is_u16 (watts s);
  ok_loadduty : is_u16 (loadduty s);
  ok_voltsamples : window_ok (voltsamples s);
  ok_shuntsamples : window_ok (shuntsamples s);
  ok_volthighgainsamples : window_ok (volthighgainsamples s);
  ok_sample : 0 <= sample s < Z.of_nat SAMPLES
}.

(** Reduce the projections of an updated state, and nothing else. *)
Ltac state_simpl :=
  cbn [om dm highgain lvc targetamps volts amps watts loadduty voltsamples
       shuntsamples volthighgainsamples sample PB_ODR TIM1_CCR1H TIM1_CCR1L
       tim1_latched uart_tx set_om set_dm set_loadduty set_windows
       set_measurement set_PB_ODR set_TIM1 set_uart_tx turnonfan turnofffan
       turnonled turnoffload setloadduty].

(** The last [d] decimal digits of [v], most significant first. *)
Fixpoint digits_of (v : Z) (d : nat) : list Z :=
  match d with
  | O => []
  | S d => digits_of (v / 10) d ++ [v mod 10]
  end.

(** The character of a decimal digit, as [splitandprintvalue] forms it. *)
Definition digit_char (d : Z) : ascii := ascii_of_N (Z.to_N (u8 (d + 48))).

(** The six character, zero padded decimal rendering of a value, most
    significant digit first. *)
Definition decimal6 (v : Z) : list ascii :=
  map digit_char
    [ (v / 100000) mod 10; (v / 10000) mod 10; (v / 1000) mod 10;
      (v / 100) mod 10; (v / 10) mod 10; v mod 10 ].

Definition mode_name (m : operationmode) : string :=
  match m with
  | OPMODE_OFF => "off"
  | OPMODE_SET => "set"
  | OPMODE_ON => "on"
  | OPMODE_LVC => "lvc"
  end.

Definition comma : list ascii := list_ascii_of_string ",".

(** [<mode>,<volts>,<amps>,<watts>,<targetamps>,<lvc>,<loadduty>] and CRLF. *)
Definition telemetry_line (s : state) : list ascii :=
  list_ascii_of_string (mode_name (om s)) ++ comma ++
  decimal6 (volts s) ++ comma ++
  decimal6 (amps s) ++ comma ++
  decimal6 (watts s) ++ comma ++
  decimal6 (targetamps s) ++ comma ++
  decimal6 (lvc s) ++ comma ++
  decimal6 (loadduty s) ++ [CR; LF].

(** Handing a run of characters to the transmitter changes nothing else. *)
Definition emit (cs : list ascii) (s : state) : state :=
  set_uart_tx (uart_tx s ++ cs) s.

(** [s'] is [s] with another value in output register B, the fan pin kept. *)
Definition display_only (s s' : state) : Prop :=
  exists p, s' = set_PB_ODR p s /\ Z.testbit p 2 = Z.testbit (PB_ODR s) 2.

(** [s'] differs from [s] at most in the transmitted bytes. *)
Definition tx_only (s s' : state) : Prop := exists cs, s' = emit cs s.

(** The sensing side of the state: windows, cursor, measurement and the two
    user settings. *)
Definition same_sensing (s s' : state) : Prop :=
  voltsamples s' = voltsamples s /\ shuntsamples s' = shuntsamples s
  /\ volthighgainsamples s' = volthighgainsamples s /\ sample s' = sample s
  /\ volts s' = volts s /\ amps s' = amps s /\ watts s' = watts s
  /\ highgain s' = highgain s /\ lvc s' = lvc s /\ targetamps s' = targetamps s.

(** The rows of the two transition tables of the specification, as pairs
    of a mode and its successor: start pressed in OFF and in ON, mode
    pressed in LVC and in OFF, and the automatic cutoff. *)
Definition spec_transition (from to : operationmode) : bool :=
  match from, to with
  | OPMODE_OFF, OPMODE_ON
  | OPMODE_ON, OPMODE_OFF
  | OPMODE_LVC, OPMODE_OFF
  | OPMODE_OFF, OPMODE_OFF
  | OPMODE_ON, OPMODE_LVC => true
  | _, _ => false
  end.

(** The changes [state_changeopmode] accepts. *)
Definition changeopmode_legal (from to : operationmode) : bool :=
  match from, to with
  | OPMODE_ON, OPMODE_OFF
  | OPMODE_OFF, OPMODE_ON
  | OPMODE_LVC, OPMODE_OFF => true
  | _, _ => false
  end.

(** What [turnoffload] leaves behind: the sentinel in [loadduty], in both
    halves of the compare register and as the value latched last. *)
Definition load_disabled (s : state) : Prop :=
  loadduty s = 1025 /\ TIM1_CCR1H s = 4 /\ TIM1_CCR1L s = 1
  /\ last (tim1_latched s) = Some 1025.

(** Either the load is on, or its drive is disabled. *)
Definition off_safe (s : state) : Prop := om s = OPMODE_ON \/ load_disabled s.

(** The steps of the loop: each of its four calls, and a whole pass. *)
Inductive loop_step : state -> state -> Prop :=
  | step_checkstate s i : loop_step s (checkstate s i)
  | step_sendstate s : loop_step s (sendstate s)
  | step_checkbuttons s pd : loop_step s (checkbuttons s pd)
  | step_updatedisplay s : loop_step s (updatedisplay s)
  | step_mainloop s i : loop_step s (mainloop s i).

Definition adc_codes (shunt vin vin_highgain : Z) : adc_inputs :=
  mkAdcInputs (adc_of_code shunt) (adc_of_code vin) (adc_of_code vin_highgain).

(** Port D with no button, the start button or the mode button held down. *)
Definition no_button : Z := 255.
Definition start_pressed : Z := 247.
Definition mode_pressed : Z := 127.

(** The firmware after twelve passes with the same three codes and no
    button pressed. *)
Definition steady_state (shunt vin vin_highgain : Z) : state :=
  run boot_state (replicate 12 (mkInputs (adc_codes shunt vin vin_highgain) no_button)).

(** The firmware switched on by a press of start in the first pass, all
    three inputs reading zero. *)
Definition switched_on : state :=
  mainloop boot_state (mkInputs (adc_codes 0 0 0) start_pressed).

(** The current, the two gain paths and the power, as [checkstate]
    computes them from the smoothed readings. *)
Definition amps_of (shuntmean : Z) : Z :=
  u16 (u32 (u32 shuntmean * MICROVOLTSPERSTEP_SHUNT) / 20).

Definition highgainvolts_of (highmean : Z) : Z :=
  u16 (u32 (u32 (u32 highmean * MILLIVOLTSPERSTEP_HIGHGAIN) / 10 - HIGHOFFSET)).

Definition lowgainvolts_of (lowmean : Z) : Z :=
  u16 (u32 (u32 lowmean * MILLIVOLTSPERSTEP)).

Definition watts_of (a v : Z) : Z := u16 (u32 (u32 a * u32 v) / 1000).

(** The high gain expression with every operation in unsigned 16 bit
    arithmetic, as the specification words it; [checkstate] evaluates in
    32 bits and narrows once, which is [highgainvolts_of]. *)
Definition highgainvolts_16bit (highmean : Z) : Z :=
  u16 (u16 (u16 (u16 highmean * MILLIVOLTSPERSTEP_HIGHGAIN) / 10) - HIGHOFFSET).

(** The firmware built with another cutoff threshold, switched on, before
    its first measurement. *)
Definition on_with_lvc (threshold : Z) : state :=
  {| om := OPMODE_ON; dm := VOLTS; highgain := false;
     lvc := threshold; targetamps := 1000;
     volts := 0; amps := 0; watts := 0; loadduty := 800;
     voltsamples := replicate SAMPLES 0;
     shuntsamples := replicate SAMPLES 0;
     volthighgainsamples := replicate SAMPLES 0;
     sample := 0;
     PB_ODR := 6; TIM1_CCR1H := 4; TIM1_CCR1L := 0; tim1_latched := [1024];
     uart_tx := [] |}.

(** The three inputs of the converter that [checkstate] samples. *)
Inductive channel : Type := ADC_SHUNT | ADC_VIN | ADC_VIN_HIGHGAIN.

Definition window_of (ch : channel) (s : state) : list Z :=
  match ch with
  | ADC_SHUNT => shuntsamples s
  | ADC_VIN => voltsamples s
  | ADC_VIN_HIGHGAIN => volthighgainsamples s
  end.

Definition conversion_of (ch : channel) (i : adc_inputs) : adc_regs :=
  match ch with
  | ADC_SHUNT => conv_shunt i
  | ADC_VIN => conv_vin i
  | ADC_VIN_HIGHGAIN => conv_vin_highgain i
  end.

(** The raw code the loop reads on a channel in one pass. *)
Definition code_read (ch : channel) (i : inputs) : Z :=
  readadc (conversion_of ch (adc i)).

(** How far slot [j] is ahead of the cursor [p], going round the window. *)
Definition slots_ahead (j : nat) (p : Z) : Z := (Z.of_nat j - p) mod 12.

(** The regulation rule in the words of the specification: below the
    target and above 300, one less; above the target and below 1000, one
    more; otherwise unchanged. *)
Definition adjust_spec (measuredAmps targetAmps currentDuty : Z) : Z :=
  if (measuredAmps <? targetAmps) && (currentDuty >? 300) then currentDuty - 1
  else if (measuredAmps >? targetAmps) && (currentDuty <? 1000) then currentDuty + 1
  else currentDuty.

(** Every pass in [ins] starts in mode ON and measures a voltage that is
    not below the cutoff and a current below the target. *)
Fixpoint held_below (s : state) (ins : list inputs) : bool :=
  match ins with
  | [] => true
  | i :: rest =>
      let m := checkstate_measure s (adc i) in
      operationmode_eqb (om s) OPMODE_ON
      && negb (volts m <? lvc m)
      && (amps m <? targetamps m)
      && held_below (mainloop s i) rest
  end.

(** A pass with all three inputs reading zero and no button pressed. *)
Definition quiet_pass : inputs := mkInputs (adc_codes 0 0 0) no_button.

(** * More of the firmware *)

(** [setadcchan]: the channel number replaces the low three bits of the
    control and status register of the converter; the function takes the
    register content and returns the content written back. *)
Definition setadcchan (which : Z) (adc_csr : Z) : Z :=
  let csr := u8 adc_csr in
  let csr := u8 (Z.land csr (Z.lnot 7)) in
  u8 (Z.lor csr which).

(** The number written by a row of decimal digits, most significant first. *)
Definition digits_value (l : list Z) : Z :=
  fold_left (fun acc d => acc * 10 + d) l 0.

(** Reading a numeric field of the telemetry line back. *)
Definition decode_field (cs : list ascii) : Z :=
  digits_value (map (fun c => Z.of_N (N_of_ascii c) - 48) cs).

Definition is_digit_char (c : ascii) : Prop :=
  48 <= Z.of_N (N_of_ascii c) <= 57.

(** The lines a run of the loop transmits, one per pass. *)
Fixpoint run_lines (s : state) (ins : list inputs) : list ascii :=
  match ins with
  | [] => []
  | i :: rest => telemetry_line (checkstate s (adc i)) ++ run_lines (mainloop s i) rest
  end.

(** Every pass in [ins] starts in mode ON and measures a voltage that is
    not below the cutoff and a current above the target. *)
Fixpoint held_above (s : state) (ins : list inputs) : bool :=
  match ins with
  | [] => true
  | i :: rest =>
      let m := checkstate_measure s (adc i) in
      operationmode_eqb (om s) OPMODE_ON
      && negb (volts m <? lvc m)
      && (amps m >? targetamps m)
      && held_above (mainloop s i) rest
  end.

(** The firmware with the shunt window full at the top code, switched on
    by a press of start. *)
Definition switched_on_loaded : state :=
  mainloop (steady_state 1023 0 0) (mkInputs (adc_codes 1023 0 0) start_pressed).

Definition loaded_pass : inputs := mkInputs (adc_codes 1023 0 0) no_button.

(** The two button tests of [checkbuttons] on the input register of port D. *)
Definition start_down (pd_idr : Z) : bool := Z.land (u8 pd_idr) (Z.shiftl 1 3) =? 0.
Definition mode_down (pd_idr : Z) : bool := Z.land (u8 pd_idr) (Z.shiftl 1 7) =? 0.

(** [dm++; if (dm == DISPMODE_END) dm = 0;] *)
Definition next_displaymode (d : displaymode) : displaymode :=
  if d + 1 =? DISPMODE_END then 0 else d + 1.

(** A series of calls of [state_changeopmode], the results ignored. *)
Definition changeopmode_all (g : StateC.globals) (requests : list operationmode)
  : StateC.globals :=
  fold_left (fun g m => fst (StateC.state_changeopmode g m)) requests g.

(** ** The display driver on all four output ports *)

Inductive port : Type := PORT_B | PORT_C | PORT_D | PORT_E.

Definition port_eqb (x y : port) : bool :=
  match x, y with
  | PORT_B, PORT_B | PORT_C, PORT_C | PORT_D, PORT_D | PORT_E, PORT_E => true
  | _, _ => false
  end.

(** The output registers of ports B to E. *)
Record ports : Type := mkPorts { pb_odr : Z; pc_odr : Z; pd_odr : Z; pe_odr : Z }.

Definition odr (p : ports) (x : port) : Z :=
  match x with
  | PORT_B => pb_odr p
  | PORT_C => pc_odr p
  | PORT_D => pd_odr p
  | PORT_E => pe_odr p
  end.

Definition set_odr (x : port) (v : Z) (p : ports) : ports :=
  match x with
  | PORT_B => mkPorts v (pc_odr p) (pd_odr p) (pe_odr p)
  | PORT_C => mkPorts (pb_odr p) v (pd_odr p) (pe_odr p)
  | PORT_D => mkPorts (pb_odr p) (pc_odr p) v (pe_odr p)
  | PORT_E => mkPorts (pb_odr p) (pc_odr p) (pd_odr p) v
  end.

(** [*odr &= mask] and [*odr |= bits] on an eight bit register. *)
Definition and_odr (x : port) (mask : Z) (p : ports) : ports :=
  set_odr x (u8 (Z.land (odr p x) mask)) p.

Definition or_odr (x : port) (bits : Z) (p : ports) : ports :=
  set_odr x (u8 (Z.lor (odr p x) bits)) p.

(** [typedef struct { pbbits, pcbits, pdbits, pebits } characterbits] and
    the table [cbits], one entry per [character]. *)
Record characterbits : Type :=
  mkCharacterbits { pbbits : Z; pcbits : Z; pdbits : Z; pebits : Z }.

Definition bit (n : Z) : Z := Z.shiftl 1 n.

Definition cbits : list characterbits :=
  [ (* ZERO *)
    mkCharacterbits 1 (Z.lor (bit 7) (bit 6)) (Z.lor (bit 2) (bit 1)) (bit 5);
    (* ONE *)
    mkCharacterbits 1 (bit 7) 0 0;
    (* TWO *)
    mkCharacterbits 1 (bit 4) (Z.lor (bit 2) (bit 1)) (bit 5);
    (* THREE *)
    mkCharacterbits 0 (Z.lor (bit 6) (bit 4)) (Z.lor (bit 2) (bit 1)) (bit 5);
    (* FOUR *)
    mkCharacterbits 0 (Z.lor (Z.lor (bit 7) (bit 6)) (bit 4)) 0 (bit 5);
    (* FIVE *)
    mkCharacterbits 0 (Z.lor (Z.lor (bit 7) (bit 6)) (bit 4)) (Z.lor (bit 2) (bit 1)) 0;
    (* SIX *)
    mkCharacterbits 1 (Z.lor (Z.lor (bit 7) (bit 6)) (bit 4)) (Z.lor (bit 2) (bit 1)) 0;
    (* SEVEN *)
    mkCharacterbits 0 (bit 6) (bit 1) (bit 5);
    (* EIGHT *)
    mkCharacterbits 1 (Z.lor (Z.lor (bit 7) (bit 6)) (bit 4)) (Z.lor (bit 2) (bit 1)) (bit 5);
    (* NINE *)
    mkCharacterbits 0 (Z.lor (Z.lor (bit 7) (bit 6)) (bit 4)) (Z.lor (bit 2) (bit 1)) (bit 5);
    (* A *)
    mkCharacterbits 1 (Z.lor (Z.lor (bit 7) (bit 6)) (bit 4)) (bit 1) (bit 5);
    (* V *)
    mkCharacterbits 1 (Z.lor (bit 7) (bit 6)) (bit 2) (bit 5);
    (* Little V *)
    mkCharacterbits 1 (bit 6) (bit 2) 0;
    (* SPACE *)
    mkCharacterbits 0 0 0 0 ].

(** [cbits[c]] *)
Definition character_bits (c : character) : characterbits :=
  nth (Z.to_nat c) cbits (mkCharacterbits 0 0 0 0).

Definition bits_of (cb : characterbits) (x : port) : Z :=
  match x with
  | PORT_B => pbbits cb
  | PORT_C => pcbits cb
  | PORT_D => pdbits cb
  | PORT_E => pebits cb
  end.

(** [typedef struct { odr; bit } digit] and the table [digits] of the
    select lines, left to right. *)
Record digit : Type := mkDigit { digit_odr : port; digit_bit : Z }.

Definition digits : list digit :=
  [ mkDigit PORT_D 4; mkDigit PORT_C 5; mkDigit PORT_C 3; mkDigit PORT_C 2 ].

Definition digit_of (which : Z) : digit :=
  nth (Z.to_nat which) digits (mkDigit PORT_D 4).

(** [setdigit] up to the first delay: the select line is pulled low, the
    segments of the previous character are cleared, those of [c] set and
    the decimal point set or cleared.  [which] and [c] index the two
    tables; the callers keep them in range. *)
Definition setdigit_lit (which : Z) (c : character) (dot : bool) (p : ports) : ports :=
  let p := and_odr (digit_odr (digit_of which))
                   (Z.lnot (Z.shiftl 1 (digit_bit (digit_of which)))) p in
  let p := and_odr PORT_B (Z.lnot (pbbits (character_bits EIGHT))) p in
  let p := and_odr PORT_C (Z.lnot (pcbits (character_bits EIGHT))) p in
  let p := and_odr PORT_D (Z.lnot (pdbits (character_bits EIGHT))) p in
  let p := and_odr PORT_E (Z.lnot (pebits (character_bits EIGHT))) p in
  let p := or_odr PORT_B (pbbits (character_bits c)) p in
  let p := or_odr PORT_C (pcbits (character_bits c)) p in
  let p := or_odr PORT_D (pdbits (character_bits c)) p in
  let p := or_odr PORT_E (pebits (character_bits c)) p in
  if dot then or_odr PORT_D 1 p else and_odr PORT_D (Z.lnot 1) p.

(** [setdigit] to its end: after the first delay the select line is raised
    again. *)
Definition setdigit_ports (which : Z) (c : character) (dot : bool) (p : ports) : ports :=
  or_odr (digit_odr (digit_of which)) (Z.shiftl 1 (digit_bit (digit_of which)))
         (setdigit_lit which c dot p).

(** The pins [setdigit] drives: the segments, the decimal point on pin 0
    of port D, and the select line of a position. *)
Definition segment_pin (x : port) (n : Z) : bool :=
  Z.testbit (bits_of (character_bits EIGHT) x) n.

Definition dot_pin (x : port) (n : Z) : bool := port_eqb x PORT_D && (n =? 0).

Definition select_pin (which : Z) (x : port) (n : Z) : bool :=
  port_eqb x (digit_odr (digit_of which)) && (n =? digit_bit (digit_of which)).

(** What [updatedisplay] selects by [dm]: the unit character and the value
    ([value] keeps its initialiser 1 in the two modes without a value). *)
Definition display_unit (s : state) : character :=
  if dm s =? VOLTS then (if highgain s then CHAR_LITTLEV else CHAR_V)
  else if dm s =? AMPS then CHAR_A
  else CHAR_SPACE.

Definition display_value (s : state) : Z :=
  if dm s =? VOLTS then volts s
  else if dm s =? AMPS then amps s
  else 1.

(** The calls of [setdigit] that [updatedisplay] makes, in the order it
    makes them: position, character and decimal point of each. *)
Definition updatedisplay_calls (s : state) : list (Z * character * bool) :=
  let unit := display_unit s in
  let value := display_value s in
  let millis := u16 (value mod 1000) in
  let units := u16 (u16 (value - millis) / 1000) in
  let splittmp := split units (replicate 3 0) 3 in
  let '(digit, calls) :=
    fold_left
      (fun (acc : Z * list (Z * character * bool)) (pos : nat) =>
         let '(digit, calls) := acc in
         if negb (nth pos splittmp 0 =? 0) || Nat.eqb pos 2
         then (digit + 1, calls ++ [(digit, nth pos splittmp 0, Nat.eqb pos 2)])
         else acc)
      (seq 0 3) (0, []) in
  let splittmp := split millis splittmp 3 in
  let '(digit, calls) :=
    fold_left
      (fun (acc : Z * list (Z * character * bool)) (pos : nat) =>
         let '(digit, calls) := acc in
         if digit <? 3
         then (digit + 1, calls ++ [(digit, nth pos splittmp 0, false)])
         else acc)
      (seq 0 3) (digit, calls) in
  calls ++ [(digit, unit, false)].

(** [updatedisplay] on the four ports: its calls of [setdigit], one after
    the other. *)
Definition updatedisplay_ports (s : state) (p : ports) : ports :=
  fold_left (fun p call => let '(which, c, dot) := call in
                           setdigit_ports which c dot p)
            (updatedisplay_calls s) p.

(** The same calls on the state of the loop, which holds port B only. *)
Definition setdigit_calls (calls : list (Z * character * bool)) (s : state) : state :=
  fold_left (fun s call => let '(which, c, dot) := call in setdigit which c dot s)
            calls s.

(** A select line of the display: one of the four of [digits]. *)
Definition any_select_pin (x : port) (n : Z) : bool :=
  select_pin 0 x n || select_pin 1 x n || select_pin 2 x n || select_pin 3 x n.

(** ** The pin configuration of [main] *)

(** The direction, the control and the output register of the four ports;
    each is a [ports] record, accessed with [odr] like the output
    registers. *)
Record gpio : Type := mkGpio { ddr : ports; cr1 : ports; out : ports }.

(** [setuppins(ddr, cr1, bits)]: output, push-pull. *)
Definition setuppins (x : port) (bits : Z) (g : gpio) : gpio :=
  mkGpio (or_odr x (u8 bits) (ddr g)) (or_odr x (u8 bits) (cr1 g)) (out g).

(** The pins of [initload]; its timer registers are in [initload]. *)
Definition initload_pins (g : gpio) : gpio :=
  let g := setuppins PORT_C (Z.shiftl 1 1) g in
  mkGpio (ddr g) (cr1 g) (and_odr PORT_C (Z.lnot (Z.shiftl 1 1)) (out g)).

Definition initfan (g : gpio) : gpio := setuppins PORT_B (Z.shiftl 1 2) g.

Definition initdisplay (g : gpio) : gpio :=
  let g := setuppins PORT_B (Z.lor (pbbits (character_bits EIGHT)) (Z.shiftl 1 1)) g in
  let g := setuppins PORT_C
             (Z.lor (Z.lor (Z.lor (pcbits (character_bits EIGHT)) (Z.shiftl 1 5))
                           (Z.shiftl 1 3)) (Z.shiftl 1 2)) g in
  let g := setuppins PORT_D
             (Z.lor (Z.lor (pdbits (character_bits EIGHT)) (Z.shiftl 1 4)) 1) g in
  setuppins PORT_E (pebits (character_bits EIGHT)) g.

Definition initbuttons (g : gpio) : gpio :=
  let mask := u8 (Z.lor (Z.shiftl 1 3) (Z.shiftl 1 7)) in
  mkGpio (and_odr PORT_D (Z.lnot mask) (ddr g)) (or_odr PORT_D mask (cr1 g)) (out g).

(** The calls of [main] before the loop that configure pins, in its order
    ([initsystem], [initserial] and [initadc] touch no port). *)
Definition init_pins (g : gpio) : gpio :=
  initfan (initbuttons (initdisplay (initload_pins g))).

(** The pins the firmware drives: the display, the LED, the fan and the
    load; and the two it reads. *)
Definition pin_is (y : port) (k : Z) (x : port) (n : Z) : bool :=
  port_eqb x y && (n =? k).

Definition driven_pin (x : port) (n : Z) : bool :=
  segment_pin x n || dot_pin x n || any_select_pin x n
  || pin_is PORT_B 1 x n || pin_is PORT_B 2 x n || pin_is PORT_C 1 x n.

Definition button_pin (x : port) (n : Z) : bool :=
  pin_is PORT_D 3 x n || pin_is PORT_D 7 x n.

(** Cases on the equality tests of the goal, then on the bits left. *)
Ltac pin_cases Hin :=
  repeat match goal with
         | |- context [?k =? ?n] =>
             destruct (Z.eqb_spec k n); try subst
         end;
  try lia;
  repeat match goal with
         | |- context [segment_pin ?x ?n] =>
             let b := eval vm_compute in (segment_pin x n) in
             lazymatch b with true => idtac | false => idtac end;
             change (segment_pin x n) with b
         end;
  repeat match goal with
         | |- context [segment_pin ?x ?n] =>
             let E := fresh "E" in
             destruct (segment_pin x n) eqn:E;
             [| rewrite (Hin eq_refl)]
         end;
  try (rewrite Hin by reflexivity);
  repeat match goal with
         | |- context [Z.testbit ?a ?n] => destruct (Z.testbit a n)
         end;
  try reflexivity; try discriminate; try lia.

(** * Properties *)

(** ** Narrowing and bit operations *)

Lemma u8_small x : 0 <= x < 256 -> u8 x = x.
Proof. intros H. unfold u8. apply Z.mod_small. exact H. Qed.

Lemma u16_small x : is_u16 x -> u16 x = x.
Proof. intros H. unfold u16. apply Z.mod_small. exact H. Qed.

Lemma u32_small x : 0 <= x < 4294967296 -> u32 x = x.
Proof. intros H. unfold u32. apply Z.mod_small. exact H. Qed.

Lemma u8_range x : 0 <= u8 x < 256.
Proof. unfold u8. apply Z.mod_pos_bound. lia. Qed.

Lemma u16_range x : is_u16 (u16 x).
Proof. unfold u16, is_u16. apply Z.mod_pos_bound. lia. Qed.

Lemma u32_range x : 0 <= u32 x < 4294967296.
Proof. unfold u32. apply Z.mod_pos_bound. lia. Qed.

(** Narrowing a 32 bit value to 16 bits only keeps the value modulo 2^16. *)
Lemma u16_u32 x : u16 (u32 x) = u16 x.
Proof.
  unfold u16, u32.
  apply Z.mod_mod_divide.
  exists 65536. reflexivity.
Qed.

Lemma lor_below a b n :
  0 <= a < 2 ^ n -> 0 <= b < 2 ^ n -> 0 <= Z.lor a b < 2 ^ n.
Proof.
  intros Ha Hb.
  assert (Hnn : 0 <= Z.lor a b) by (apply Z.lor_nonneg; lia).
  split; [exact Hnn |].
  destruct (Z.eq_dec (Z.lor a b) 0) as [E | E]; [lia |].
  assert (Hn : 0 < n).
  { destruct (Z_lt_le_dec 0 n) as [? | Hle]; [assumption | exfalso].
    assert (2 ^ n <= 2 ^ 0) by (destruct (Z.eq_dec n 0) as [-> | ?];
      [lia | rewrite Z.pow_neg_r by lia; simpl; lia]).
    simpl in *. assert (a = 0) by lia. assert (b = 0) by lia. subst.
    apply E. reflexivity. }
  apply Z.log2_lt_pow2; [lia |].
  rewrite Z.log2_lor by lia.
  apply Z.max_lub_lt.
  - destruct (Z.eq_dec a 0) as [-> | ?]; [simpl; lia |].
    apply Z.log2_lt_pow2; lia.
  - destruct (Z.eq_dec b 0) as [-> | ?]; [simpl; lia |].
    apply Z.log2_lt_pow2; lia.
Qed.

(** [readadc] always yields a ten bit code. *)
Lemma readadc_code10 r : is_code10 (readadc r).
Proof.
  unfold readadc, is_code10.
  pose proof (u8_range (ADC_DRH r)) as Hh.
  pose proof (u8_range (ADC_DRL r)) as Hl.
  rewrite (u16_small (u8 (ADC_DRH r))) by (unfold is_u16; lia).
  rewrite Z.shiftl_mul_pow2 by lia.
  assert (Hb : 0 <= Z.lor (u8 (ADC_DRH r) * 2 ^ 2) (u8 (ADC_DRL r)) < 2 ^ 10).
  { apply lor_below; simpl; lia. }
  change (2 ^ 10) with 1024 in Hb.
  rewrite u16_small by (unfold is_u16; lia).
  exact Hb.
Qed.

Lemma land_high_low q r : Z.land (q * 2 ^ 2) (r mod 2 ^ 2) = 0.
Proof.
  apply Z.bits_inj_0. intros k. rewrite Z.land_spec.
  destruct (Z_lt_le_dec k 2) as [Hk | Hk].
  - destruct (Z_lt_le_dec k 0); [rewrite Z.testbit_neg_r by lia; reflexivity |].
    rewrite Z.mul_pow2_bits_low by lia. reflexivity.
  - rewrite Z.mod_pow2_bits_high by lia. apply andb_false_r.
Qed.

Lemma readadc_of_code c : is_code10 c -> readadc (adc_of_code c) = c.
Proof.
  unfold is_code10, readadc, adc_of_code. intros Hc. simpl.
  assert (H4 : 0 <= c mod 4 < 4) by (apply Z.mod_pos_bound; lia).
  assert (Hq : 0 <= c / 4 < 256).
  { split; [apply Z.div_pos; lia | apply Z.div_lt_upper_bound; lia]. }
  rewrite (u8_small (c / 4)) by lia.
  rewrite (u8_small (c mod 4)) by lia.
  rewrite (u16_small (c / 4)) by (unfold is_u16; lia).
  rewrite Z.shiftl_mul_pow2 by lia.
  change 4 with (2 ^ 2).
  rewrite <- Z.lxor_lor, <- Z.add_nocarry_lxor by apply land_high_low.
  rewrite Z.mul_comm, <- Z.div_mod by (simpl; lia).
  apply u16_small. unfold is_u16. lia.
Qed.

(** ** Sample windows *)

Lemma sum_list_bounds (w : list Z) :
  Forall is_code10 w -> 0 <= sum_list w <= 1023 * Z.of_nat (length w).
Proof.
  unfold sum_list.
  induction 1 as [| x w Hx _ IH]; cbn [foldr length]; [lia |].
  unfold is_code10 in Hx. lia.
Qed.

Lemma sum_list_replicate (n : nat) (c : Z) :
  sum_list (replicate n c) = Z.of_nat n * c.
Proof.
  induction n as [| n IH]; [reflexivity |].
  change (sum_list (replicate (S n) c)) with (c + sum_list (replicate n c)).
  rewrite IH. lia.
Qed.

(** The accumulation loop, started at slot [length pre] with [acc]. *)
Lemma accumulate_spec (l pre : list Z) (acc : Z) :
  Forall is_code10 l ->
  0 <= acc ->
  acc + 1024 * Z.of_nat (length l) <= 4294967296 ->
  fold_left (fun sum i => u32 (sum + nth i (pre ++ l) 0))
            (seq (length pre) (length l)) acc
  = acc + sum_list l.
Proof.
  revert pre acc.
  induction l as [| x l IH]; intros pre acc Hl Hacc Hroom; simpl.
  - lia.
  - apply Forall_cons_1 in Hl as [Hx Hl]. unfold is_code10 in Hx.
    simpl length in Hroom.
    rewrite nth_middle.
    rewrite u32_small by lia.
    specialize (IH (pre ++ [x]) (acc + x) Hl).
    rewrite <- app_assoc, length_app in IH. simpl in IH.
    rewrite Nat.add_1_r in IH.
    rewrite IH by lia. lia.
Qed.

Lemma window_sum_spec (w : list Z) : window_ok w -> window_sum w = sum_list w.
Proof.
  intros [Hlen Hw]. unfold window_sum. rewrite <- Hlen.
  apply (accumulate_spec w [] 0 Hw); [lia |].
  rewrite Hlen. unfold SAMPLES. lia.
Qed.

Lemma window_mean_spec (w : list Z) :
  window_ok w -> window_mean w = sum_list w / 12.
Proof. intros H. unfold window_mean. rewrite window_sum_spec by exact H. reflexivity. Qed.

Lemma window_mean_code10 (w : list Z) : window_ok w -> is_code10 (window_mean w).
Proof.
  intros H. rewrite window_mean_spec by exact H.
  destruct H as [Hlen Hw]. pose proof (sum_list_bounds w Hw) as Hb.
  rewrite Hlen in Hb. unfold SAMPLES in Hb. unfold is_code10.
  split; [apply Z.div_pos; lia | apply Z.div_lt_upper_bound; lia].
Qed.

Lemma window_ok_insert (w : list Z) (i : nat) (r : adc_regs) :
  window_ok w -> window_ok (<[i := readadc r]> w).
Proof.
  intros [Hlen Hw]. split.
  - rewrite length_insert. exact Hlen.
  - apply Forall_insert; [exact Hw | apply readadc_code10].
Qed.

Lemma window_ok_replicate (c : Z) : is_code10 c -> window_ok (replicate SAMPLES c).
Proof.
  intros Hc. split; [apply length_replicate |].
  apply Forall_replicate. exact Hc.
Qed.

Lemma window_mean_replicate (c : Z) :
  is_code10 c -> window_mean (replicate SAMPLES c) = c.
Proof.
  intros Hc. rewrite window_mean_spec by (apply window_ok_replicate; exact Hc).
  rewrite sum_list_replicate. unfold SAMPLES.
  change (Z.of_nat 12) with 12. rewrite Z.mul_comm. apply Z.div_mul. lia.
Qed.

(** ** The invariant of the firmware state *)

Lemma cursor_advance (p : Z) :
  0 <= p < Z.of_nat SAMPLES ->
  u8 ((p + 1) mod Z.of_nat SAMPLES) = (p + 1) mod Z.of_nat SAMPLES
  /\ 0 <= (p + 1) mod Z.of_nat SAMPLES < Z.of_nat SAMPLES.
Proof.
  intros Hp. unfold SAMPLES in *. change (Z.of_nat 12) with 12 in *.
  assert (H : 0 <= (p + 1) mod 12 < 12) by (apply Z.mod_pos_bound; lia).
  split; [apply u8_small; lia | exact H].
Qed.

Lemma fan_preserves_ok (b : bool) (s : state) :
  state_ok s -> state_ok (if b then turnonfan s else turnofffan s).
Proof. intros [? ? ? ? ? ? ? ? ? ?]. destruct b; constructor; assumption. Qed.

Lemma checkstate_measure_ok (s : state) (i : adc_inputs) :
  state_ok s -> state_ok (checkstate_measure s i).
Proof.
  intros Hs. unfold checkstate_measure.
  apply fan_preserves_ok.
  destruct Hs as [? ? ? ? ? ? ? ? ? Hp].
  constructor; state_simpl; try assumption; try apply u16_range;
    try (apply window_ok_insert; assumption).
  - destruct (_ <=? 6000); apply u16_range.
  - destruct (cursor_advance _ Hp) as [-> H]. exact H.
Qed.

Lemma checkstate_regulate_ok (s : state) :
  state_ok s -> state_ok (checkstate_regulate s).
Proof.
  intros Hs. unfold checkstate_regulate.
  destruct (om s); try exact Hs.
  destruct Hs as [? ? ? ? ? ? ? ? ? ?].
  repeat match goal with
         | |- context [if ?c then _ else _] => destruct c
         end;
    constructor; state_simpl; try assumption; try apply u16_range.
  unfold is_u16. lia.
Qed.

Lemma checkstate_ok (s : state) (i : adc_inputs) :
  state_ok s -> state_ok (checkstate s i).
Proof.
  intros Hs. apply checkstate_regulate_ok, checkstate_measure_ok, Hs.
Qed.

(** ** [split] writes the decimal digits *)

Lemma digits_of_0 (d : nat) : digits_of 0 d = replicate d 0.
Proof.
  induction d as [| d IH]; [reflexivity |].
  rewrite replicate_S_end. cbn [digits_of].
  change (0 / 10) with 0. change (0 mod 10) with 0.
  rewrite IH. reflexivity.
Qed.

Lemma length_digits_of (v : Z) (d : nat) : length (digits_of v d) = d.
Proof.
  revert v. induction d as [| d IH]; intros v; [reflexivity |].
  cbn [digits_of]. rewrite length_app, IH. simpl. lia.
Qed.

Lemma drop_insert_here (b : list Z) (d : nat) (x : Z) :
  (d < length b)%nat -> drop d (<[d := x]> b) = x :: drop (S d) b.
Proof.
  intros Hd.
  rewrite (drop_S (<[d := x]> b) x d) by (apply list_lookup_insert_eq; exact Hd).
  rewrite drop_insert_lt by lia. reflexivity.
Qed.

Lemma split_fill_spec (d : nat) (b : list Z) :
  (d <= length b)%nat -> split_fill b d = replicate d 0 ++ drop d b.
Proof.
  revert b. induction d as [| d IH]; intros b Hd.
  - reflexivity.
  - cbn [split_fill].
    rewrite IH by (rewrite length_insert; lia).
    rewrite drop_insert_here by lia.
    rewrite replicate_S_end, <- app_assoc. reflexivity.
Qed.

(** One round of the first loop on a 16 bit value: no operation wraps. *)
Lemma split_round (v : Z) :
  is_u16 v ->
  u16 (v mod 10) = v mod 10
  /\ u16 (v - v mod 10) = v - v mod 10
  /\ u16 ((v - v mod 10) / 10) = v / 10
  /\ is_u16 (v / 10)
  /\ (v - v mod 10 = 0 -> v / 10 = 0).
Proof.
  unfold is_u16. intros Hv.
  assert (Hm : 0 <= v mod 10 < 10) by (apply Z.mod_pos_bound; lia).
  assert (Hle : v mod 10 <= v) by (apply Z.mod_le; lia).
  assert (Hq : 0 <= v / 10 <= v).
  { split; [apply Z.div_pos; lia | apply Z.div_le_upper_bound; lia]. }
  assert (Hd : (v - v mod 10) / 10 = v / 10).
  { rewrite (Z.div_mod v 10) at 1 by lia.
    replace (10 * (v / 10) + v mod 10 - v mod 10) with (v / 10 * 10) by lia.
    apply Z.div_mul. lia. }
  split; [| split; [| split; [| split]]].
  - apply u16_small. unfold is_u16. lia.
  - apply u16_small. unfold is_u16. lia.
  - rewrite Hd. apply u16_small. unfold is_u16. lia.
  - lia.
  - intros H0. rewrite <- Hd, H0. reflexivity.
Qed.

Lemma split_spec (d : nat) (v : Z) (b : list Z) :
  is_u16 v -> (d <= length b)%nat ->
  split v b d = digits_of v d ++ drop d b.
Proof.
  revert v b. induction d as [| d IH]; intros v b Hv Hd.
  - reflexivity.
  - destruct (split_round v Hv) as (E1 & E2 & E3 & Hq & Hz).
    unfold split. cbn [split_peel digits_of].
    rewrite E1, E2.
    destruct (Z.eqb_spec (v - v mod 10) 0) as [H0 | Hn].
    + rewrite split_fill_spec by (rewrite length_insert; lia).
      rewrite drop_insert_here by lia.
      rewrite (Hz H0), digits_of_0, <- app_assoc. reflexivity.
    + rewrite E3. fold (split (v / 10) (<[d := v mod 10]> b) d).
      rewrite IH by (try rewrite length_insert; try lia; exact Hq).
      rewrite drop_insert_here by lia.
      rewrite <- app_assoc. reflexivity.
Qed.

(** The buffer content before the call is irrelevant. *)
Lemma split_overwrites (d : nat) (v : Z) (b : list Z) :
  is_u16 v -> length b = d -> split v b d = digits_of v d.
Proof.
  intros Hv Hb. rewrite split_spec by (try lia; exact Hv).
  rewrite drop_ge by lia. apply app_nil_r.
Qed.

Lemma digits_of_6 (v : Z) :
  digits_of v 6 =
    [ (v / 100000) mod 10; (v / 10000) mod 10; (v / 1000) mod 10;
      (v / 100) mod 10; (v / 10) mod 10; v mod 10 ].
Proof.
  cbn [digits_of app].
  repeat rewrite Z.div_div by lia.
  reflexivity.
Qed.

(** ** The telemetry line *)

Lemma splitandprintvalue_spec (v : Z) (s : state) :
  is_u16 v ->
  splitandprintvalue v s = set_uart_tx (uart_tx s ++ decimal6 v) s.
Proof.
  intros Hv. unfold splitandprintvalue.
  rewrite split_overwrites by (try apply length_replicate; exact Hv).
  rewrite digits_of_6.
  unfold decimal6, uart_putch, digit_char.
  cbn [fold_left seq nth map]. state_simpl.
  repeat rewrite <- app_assoc. reflexivity.
Qed.

Lemma emit_emit (a b : list ascii) (s : state) :
  emit b (emit a s) = emit (a ++ b) s.
Proof. unfold emit. state_simpl. rewrite <- app_assoc. reflexivity. Qed.

Lemma uart_puts_emit (str : string) (s : state) :
  uart_puts str s = emit (list_ascii_of_string str) s.
Proof. reflexivity. Qed.

Lemma crlf_emit (s : state) :
  set_uart_tx (uart_tx s ++ [CR; LF]) s = emit [CR; LF] s.
Proof. reflexivity. Qed.

Lemma splitandprintvalue_emit (v : Z) (s : state) :
  is_u16 v -> splitandprintvalue v s = emit (decimal6 v) s.
Proof. apply splitandprintvalue_spec. Qed.

Lemma fields_emit (cs : list ascii) (s : state) :
  volts (emit cs s) = volts s /\ amps (emit cs s) = amps s
  /\ watts (emit cs s) = watts s /\ targetamps (emit cs s) = targetamps s
  /\ lvc (emit cs s) = lvc s /\ loadduty (emit cs s) = loadduty s.
Proof. repeat split. Qed.

Lemma sendstate_spec (s : state) :
  state_ok s ->
  sendstate s = set_uart_tx (uart_tx s ++ telemetry_line s) s.
Proof.
  intros [Hl Ht Hv Ha Hw Hd _ _ _ _].
  change (sendstate s = emit (telemetry_line s) s).
  assert (Hm : (match om s with
                | OPMODE_OFF => uart_puts "off" s
                | OPMODE_SET => uart_puts "set" s
                | OPMODE_ON => uart_puts "on" s
                | OPMODE_LVC => uart_puts "lvc" s
                end) = emit (list_ascii_of_string (mode_name (om s))) s).
  { destruct (om s); reflexivity. }
  unfold sendstate, sep, telemetry_line, comma.
  rewrite Hm.
  rewrite !uart_puts_emit, crlf_emit.
  repeat (rewrite !emit_emit
          || rewrite (proj1 (fields_emit _ _))
          || rewrite (proj1 (proj2 (fields_emit _ _)))
          || rewrite (proj1 (proj2 (proj2 (fields_emit _ _))))
          || rewrite (proj1 (proj2 (proj2 (proj2 (fields_emit _ _)))))
          || rewrite (proj1 (proj2 (proj2 (proj2 (proj2 (fields_emit _ _))))))
          || rewrite (proj2 (proj2 (proj2 (proj2 (proj2 (fields_emit _ _))))))
          || rewrite splitandprintvalue_emit by assumption).
  repeat rewrite <- app_assoc. reflexivity.
Qed.

(** ** Display refresh and buttons leave the measurement alone *)

Lemma display_only_refl (s : state) : display_only s s.
Proof. exists (PB_ODR s). split; [destruct s; reflexivity | reflexivity]. Qed.

Lemma pbbits_fan_clear (n : nat) : Z.testbit (nth n cbits_pbbits 0) 2 = false.
Proof.
  unfold cbits_pbbits.
  do 14 (destruct n as [| n]; [reflexivity |]).
  destruct n; reflexivity.
Qed.

Lemma u8_testbit_2 (x : Z) : Z.testbit (u8 x) 2 = Z.testbit x 2.
Proof.
  unfold u8. change 256 with (2 ^ 8).
  apply Z.mod_pow2_bits_low. lia.
Qed.

Lemma display_only_setdigit (s0 s : state) (which : Z) (c : character) (dot : bool) :
  display_only s0 s -> display_only s0 (setdigit which c dot s).
Proof.
  intros (p & -> & Hp).
  eexists. split; [unfold setdigit; state_simpl; reflexivity |].
  rewrite u8_testbit_2, Z.lor_spec, u8_testbit_2, Z.land_spec, pbbits_fan_clear.
  rewrite Hp, orb_false_r.
  change (Z.testbit (Z.lnot (nth (Z.to_nat EIGHT) cbits_pbbits 0)) 2) with true.
  apply andb_true_r.
Qed.

Lemma display_only_fold (s0 : state) (g : Z * state -> nat -> Z * state)
      (l : list nat) (acc : Z * state) :
  (forall a pos, display_only s0 (snd a) -> display_only s0 (snd (g a pos))) ->
  display_only s0 (snd acc) ->
  display_only s0 (snd (fold_left g l acc)).
Proof.
  intros Hg. revert acc.
  induction l as [| pos l IH]; intros acc Hacc; [exact Hacc |].
  simpl. apply IH, Hg, Hacc.
Qed.

Lemma updatedisplay_display_only (s : state) : display_only s (updatedisplay s).
Proof.
  unfold updatedisplay.
  destruct (if dm s =? VOLTS
            then (if highgain s then CHAR_LITTLEV else CHAR_V, volts s)
            else if dm s =? AMPS then (CHAR_A, amps s) else (CHAR_SPACE, 1))
    as [unit value].
  match goal with
  | |- context [fold_left ?g (seq 0 3) (0, s)] =>
      pose proof (display_only_fold s g (seq 0 3) (0, s)) as H1;
      destruct (fold_left g (seq 0 3) (0, s)) as [digit1 s1]
  end.
  assert (Hs1 : display_only s s1).
  { apply H1; [| apply display_only_refl].
    intros [d a] pos Ha. cbn [snd] in *.
    destruct (_ || _); [apply display_only_setdigit |]; exact Ha. }
  clear H1.
  match goal with
  | |- context [fold_left ?g (seq 0 3) (digit1, s1)] =>
      pose proof (display_only_fold s g (seq 0 3) (digit1, s1)) as H2;
      destruct (fold_left g (seq 0 3) (digit1, s1)) as [digit2 s2]
  end.
  apply display_only_setdigit.
  apply H2; [| exact Hs1].
  intros [d a] pos Ha. cbn [snd] in *.
  destruct (d <? 3); [apply display_only_setdigit |]; exact Ha.
Qed.

Lemma display_only_ok (s s' : state) :
  display_only s s' -> state_ok s -> state_ok s'.
Proof. intros (p & -> & _) [? ? ? ? ? ? ? ? ? ?]. constructor; assumption. Qed.

Lemma checkbuttons_ok (s : state) (pd : Z) :
  state_ok s -> state_ok (checkbuttons s pd).
Proof.
  intros [? ? ? ? ? ? ? ? ? ?]. unfold checkbuttons. cbv zeta.
  destruct (Z.land (u8 pd) (Z.shiftl 1 3) =? 0);
    destruct (Z.land (u8 pd) (Z.shiftl 1 7) =? 0);
    destruct (om s) eqn:Eom; state_simpl; rewrite ?Eom;
    try match goal with |- context [if ?c then _ else _] => destruct c end;
    constructor; state_simpl; try assumption; unfold is_u16; lia.
Qed.

Lemma sendstate_ok (s : state) : state_ok s -> state_ok (sendstate s).
Proof.
  intros Hs. rewrite sendstate_spec by exact Hs.
  destruct Hs as [? ? ? ? ? ? ? ? ? ?]. constructor; assumption.
Qed.

Lemma mainloop_ok (s : state) (i : inputs) :
  state_ok s -> state_ok (mainloop s i).
Proof.
  intros Hs. unfold mainloop.
  eapply display_only_ok; [apply updatedisplay_display_only |].
  apply checkbuttons_ok, sendstate_ok, checkstate_ok, Hs.
Qed.

Lemma initial_state_ok : state_ok initial_state.
Proof.
  constructor; try (unfold is_u16; simpl; lia);
    try (apply window_ok_replicate; unfold is_code10; lia).
  simpl. unfold SAMPLES. lia.
Qed.

Lemma boot_state_ok : state_ok boot_state.
Proof.
  pose proof initial_state_ok as [? ? ? ? ? ? ? ? ? ?].
  constructor; assumption.
Qed.

Lemma reachable_ok (s : state) : reachable s -> state_ok s.
Proof.
  induction 1 as [| s i _ IH]; [apply boot_state_ok | apply mainloop_ok, IH].
Qed.

(** ** What each phase of the loop leaves unchanged *)

Lemma tx_only_refl (s : state) : tx_only s s.
Proof.
  exists []. unfold emit. rewrite app_nil_r. destruct s; reflexivity.
Qed.

Lemma tx_only_emit (s x : state) (cs : list ascii) :
  tx_only s x -> tx_only s (emit cs x).
Proof. intros [a ->]. eexists. apply emit_emit. Qed.

Lemma tx_only_puts (s x : state) (str : string) :
  tx_only s x -> tx_only s (uart_puts str x).
Proof. apply tx_only_emit. Qed.

Lemma tx_only_putch (s x : state) (c : Z) :
  tx_only s x -> tx_only s (uart_putch c x).
Proof. apply tx_only_emit. Qed.

Lemma tx_only_print (s x : state) (v : Z) :
  tx_only s x -> tx_only s (splitandprintvalue v x).
Proof.
  unfold splitandprintvalue.
  generalize (split v (replicate 6 0) 6) as buf. intros buf.
  generalize (seq 0 6) as l. intros l. revert x.
  induction l as [| i l IH]; intros x Hx; [exact Hx |].
  simpl. apply IH, tx_only_putch, Hx.
Qed.

Lemma sendstate_tx_only (s : state) : tx_only s (sendstate s).
Proof.
  unfold sendstate, sep. cbv zeta.
  rewrite crlf_emit.
  repeat first [apply tx_only_emit | apply tx_only_puts | apply tx_only_print].
  destruct (om s); apply tx_only_puts, tx_only_refl.
Qed.

Lemma same_sensing_trans (a b c : state) :
  same_sensing a b -> same_sensing b c -> same_sensing a c.
Proof.
  unfold same_sensing.
  intros (? & ? & ? & ? & ? & ? & ? & ? & ? & ?) (? & ? & ? & ? & ? & ? & ? & ? & ? & ?).
  repeat split; congruence.
Qed.

Lemma checkstate_regulate_sensing (s : state) :
  same_sensing s (checkstate_regulate s).
Proof.
  unfold checkstate_regulate.
  destruct (om s);
    repeat match goal with
           | |- context [if ?c then _ else _] => destruct c
           end;
    repeat split.
Qed.

Lemma sendstate_sensing (s : state) : same_sensing s (sendstate s).
Proof. destruct (sendstate_tx_only s) as [cs ->]. repeat split. Qed.

Lemma checkbuttons_sensing (s : state) (pd : Z) :
  same_sensing s (checkbuttons s pd).
Proof.
  unfold checkbuttons. cbv zeta.
  destruct (Z.land (u8 pd) (Z.shiftl 1 3) =? 0);
    destruct (Z.land (u8 pd) (Z.shiftl 1 7) =? 0);
    destruct (om s) eqn:Eom; state_simpl; rewrite ?Eom;
    try match goal with |- context [if ?c then _ else _] => destruct c end;
    repeat split.
Qed.

Lemma updatedisplay_sensing (s : state) : same_sensing s (updatedisplay s).
Proof.
  destruct (updatedisplay_display_only s) as (p & -> & _). repeat split.
Qed.

(** After the measurement, a pass of the loop no longer touches the sensing
    side. *)
Lemma mainloop_sensing (s : state) (i : inputs) :
  same_sensing (checkstate_measure s (adc i)) (mainloop s i).
Proof.
  unfold mainloop, checkstate.
  eapply same_sensing_trans; [apply checkstate_regulate_sensing |].
  eapply same_sensing_trans; [apply sendstate_sensing |].
  eapply same_sensing_trans; [apply checkbuttons_sensing |].
  apply updatedisplay_sensing.
Qed.

(** The measurement leaves mode, settings, duty, timer and UART alone. *)
Lemma checkstate_measure_frame (s : state) (i : adc_inputs) :
  let s' := checkstate_measure s i in
  om s' = om s /\ dm s' = dm s /\ lvc s' = lvc s /\ targetamps s' = targetamps s
  /\ loadduty s' = loadduty s /\ tim1_latched s' = tim1_latched s
  /\ TIM1_CCR1H s' = TIM1_CCR1H s /\ TIM1_CCR1L s' = TIM1_CCR1L s
  /\ uart_tx s' = uart_tx s.
Proof.
  unfold checkstate_measure. cbv zeta.
  destruct (_ >? FANWATTTHRESHOLD); repeat split.
Qed.

(** The two user settings are never written. *)
Lemma reachable_settings (s : state) :
  reachable s -> lvc s = 2000 /\ targetamps s = 1000.
Proof.
  induction 1 as [| s i _ [IHl IHt]]; [split; reflexivity |].
  destruct (mainloop_sensing s i) as (_ & _ & _ & _ & _ & _ & _ & _ & Hl & Ht).
  destruct (checkstate_measure_frame s (adc i)) as (_ & _ & Hl' & Ht' & _).
  rewrite Hl, Ht, Hl', Ht'. split; assumption.
Qed.

Lemma reachable_run (s : state) (ins : list inputs) :
  reachable s -> reachable (run s ins).
Proof.
  revert s. induction ins as [| i ins IH]; intros s Hs; [exact Hs |].
  apply IH. constructor. exact Hs.
Qed.

Lemma run_ok (s : state) (ins : list inputs) :
  state_ok s -> state_ok (run s ins).
Proof.
  revert s. induction ins as [| i ins IH]; intros s Hs; [exact Hs |].
  apply IH, mainloop_ok, Hs.
Qed.

(** ** Validated mode changes of [state.c] *)

(** C2, as stated, fails: the automatic cutoff ON to LVC is a row of the
    specification's tables, yet [state_changeopmode] rejects it and leaves
    the mode at ON. *)
Lemma state_changeopmode_rejects_cutoff :
  StateC.om (StateC.set_om OPMODE_ON StateC.initial) = OPMODE_ON
  /\ spec_transition OPMODE_ON OPMODE_LVC = true
  /\ StateC.state_changeopmode (StateC.set_om OPMODE_ON StateC.initial) OPMODE_LVC
     = (StateC.set_om OPMODE_ON StateC.initial, false)
  /\ snd (StateC.state_changeopmode (StateC.set_om OPMODE_ON StateC.initial) OPMODE_LVC)
     <> spec_transition OPMODE_ON OPMODE_LVC.
Proof.
  split; [reflexivity |]. split; [reflexivity |]. split; [reflexivity |].
  simpl. discriminate.
Qed.

(** C2, amended: [state_changeopmode] returns true and stores the new mode
    exactly for ON to OFF, OFF to ON and LVC to OFF; for every other pair,
    among them OFF to LVC, LVC to ON, SET to LVC and also ON to LVC and OFF
    to OFF, it returns false and leaves every global as it was. *)
Theorem state_changeopmode_legal (g : StateC.globals) (newmode : operationmode) :
  let r := StateC.state_changeopmode g newmode in
  snd r = changeopmode_legal (StateC.om g) newmode
  /\ fst r = (if changeopmode_legal (StateC.om g) newmode
              then StateC.set_om newmode g else g)
  /\ changeopmode_legal OPMODE_OFF OPMODE_LVC = false
  /\ changeopmode_legal OPMODE_LVC OPMODE_ON = false
  /\ changeopmode_legal OPMODE_SET OPMODE_LVC = false
  /\ changeopmode_legal OPMODE_ON OPMODE_LVC = false
  /\ changeopmode_legal OPMODE_OFF OPMODE_OFF = false.
Proof.
  unfold StateC.state_changeopmode. cbv zeta.
  destruct (StateC.om g), newmode; simpl; repeat split.
Qed.

(** ** Low voltage cutoff and the disabled drive *)

Lemma turnoffload_disabled (s : state) : load_disabled (turnoffload s).
Proof.
  unfold load_disabled, turnoffload, setloadduty. state_simpl.
  repeat split. apply last_snoc.
Qed.

Lemma turnoffload_latched (s : state) :
  tim1_latched (turnoffload s) = tim1_latched s ++ [1025].
Proof. reflexivity. Qed.

Lemma checkstate_regulate_safe (s : state) :
  off_safe s -> off_safe (checkstate_regulate s).
Proof.
  intros H. unfold checkstate_regulate.
  destruct (om s) eqn:Eom; try exact H.
  unfold off_safe.
  destruct (volts s <? lvc s); [right; apply turnoffload_disabled |].
  left.
  repeat match goal with
         | |- context [if ?c then _ else _] => destruct c
         end; state_simpl; exact Eom.
Qed.

Lemma checkstate_safe (s : state) (i : adc_inputs) :
  off_safe s -> off_safe (checkstate s i).
Proof.
  intros H. apply checkstate_regulate_safe.
  destruct (checkstate_measure_frame s i) as (Ho & _ & _ & _ & Hd & Hl & Hh & Hlo & _).
  unfold off_safe, load_disabled in *.
  rewrite Ho, Hd, Hl, Hh, Hlo. exact H.
Qed.

Lemma sendstate_safe (s : state) : off_safe s -> off_safe (sendstate s).
Proof. destruct (sendstate_tx_only s) as [cs ->]. intros H. exact H. Qed.

Lemma checkbuttons_safe (s : state) (pd : Z) :
  off_safe s -> off_safe (checkbuttons s pd).
Proof.
  unfold checkbuttons. cbv zeta.
  destruct (Z.land (u8 pd) (Z.shiftl 1 3) =? 0);
    destruct (Z.land (u8 pd) (Z.shiftl 1 7) =? 0);
    destruct (om s) eqn:Eom; state_simpl; rewrite ?Eom;
    try match goal with |- context [if ?c then _ else _] => destruct c end;
    unfold off_safe; state_simpl; rewrite ?Eom;
    try (intros [H | H]; [discriminate H | right; exact H]);
    try (intros _; left; reflexivity);
    intros _; right; apply (turnoffload_disabled (set_om OPMODE_OFF s)).
Qed.

Lemma updatedisplay_safe (s : state) : off_safe s -> off_safe (updatedisplay s).
Proof.
  destruct (updatedisplay_display_only s) as (p & -> & _). intros H. exact H.
Qed.

Lemma mainloop_safe (s : state) (i : inputs) :
  off_safe s -> off_safe (mainloop s i).
Proof.
  intros H. unfold mainloop.
  apply updatedisplay_safe, checkbuttons_safe, sendstate_safe, checkstate_safe, H.
Qed.

Lemma sendstate_mode_duty (s : state) :
  om (sendstate s) = om s /\ loadduty (sendstate s) = loadduty s.
Proof. destruct (sendstate_tx_only s) as [cs ->]. split; reflexivity. Qed.

Lemma updatedisplay_mode_duty (s : state) :
  om (updatedisplay s) = om s /\ loadduty (updatedisplay s) = loadduty s.
Proof.
  destruct (updatedisplay_display_only s) as (p & -> & _). split; reflexivity.
Qed.

(** The mode after the [switch (om)] of [checkstate]. *)
Lemma checkstate_regulate_mode (m : state) :
  om (checkstate_regulate m)
  = match om m with
    | OPMODE_ON => if volts m <? lvc m then OPMODE_LVC else OPMODE_ON
    | o => o
    end.
Proof.
  unfold checkstate_regulate.
  destruct (om m) eqn:E; try exact E.
  destruct (volts m <? lvc m); [reflexivity |].
  repeat match goal with
         | |- context [if ?c then _ else _] => destruct c
         end; state_simpl; exact E.
Qed.

(** The control loop writes the mode itself, in [checkstate] and in
    [checkbuttons]; over one pass the mode either stays or follows a row of
    the specification's tables. *)
Lemma checkbuttons_mode (s : state) (pd : Z) :
  om (checkbuttons s pd) = om s
  \/ (om s = OPMODE_OFF /\ om (checkbuttons s pd) = OPMODE_ON)
  \/ (om s = OPMODE_ON /\ om (checkbuttons s pd) = OPMODE_OFF)
  \/ (om s = OPMODE_LVC /\ om (checkbuttons s pd) = OPMODE_OFF).
Proof.
  unfold checkbuttons. cbv zeta.
  destruct (Z.land (u8 pd) (Z.shiftl 1 3) =? 0);
    destruct (Z.land (u8 pd) (Z.shiftl 1 7) =? 0);
    destruct (om s) eqn:Eom; state_simpl; rewrite ?Eom;
    try match goal with |- context [if ?c then _ else _] => destruct c end;
    state_simpl; rewrite ?Eom; tauto.
Qed.

Lemma mainloop_mode (s : state) (i : inputs) :
  om (mainloop s i) = om s
  \/ spec_transition (om s) (om (mainloop s i)) = true.
Proof.
  unfold mainloop, checkstate.
  destruct (checkstate_measure_frame s (adc i)) as (Eo & _).
  set (m := checkstate_measure s (adc i)) in *. clearbody m.
  pose proof (checkstate_regulate_mode m) as Hr.
  set (c := checkstate_regulate m) in *. clearbody c.
  destruct (updatedisplay_mode_duty (checkbuttons (sendstate c) (PD_IDR i)))
    as [-> _].
  destruct (sendstate_mode_duty c) as [Es _].
  pose proof (checkbuttons_mode (sendstate c) (PD_IDR i)) as Hb.
  rewrite Es in Hb. rewrite Eo in Hr. clear Es Eo.
  destruct (om s); destruct (volts m <? lvc m);
    destruct Hb as [Hb | [[Hc Hb] | [[Hc Hb] | [Hc Hb]]]];
    rewrite Hb; try rewrite Hr; try (rewrite Hr in Hc; discriminate Hc);
    try (left; reflexivity); right; reflexivity.
Qed.

(** In LVC the start button does nothing and the mode button acknowledges
    the cutoff; neither writes the duty. *)
Lemma checkbuttons_in_lvc (s : state) (pd : Z) :
  om s = OPMODE_LVC ->
  om (checkbuttons s pd)
  = (if Z.land (u8 pd) 128 =? 0 then OPMODE_OFF else OPMODE_LVC)
  /\ loadduty (checkbuttons s pd) = loadduty s.
Proof.
  intros Hl. unfold checkbuttons. cbv zeta.
  change (Z.shiftl 1 7) with 128.
  destruct (Z.land (u8 pd) (Z.shiftl 1 3) =? 0);
    destruct (Z.land (u8 pd) 128 =? 0);
    rewrite Hl; state_simpl; rewrite ?Hl; split; reflexivity.
Qed.

(** C1, as stated, fails: a pass of the loop that trips the cutoff does not
    always end in LVC.  The firmware switched on reads 253 mV, below the
    threshold 2000, with the mode button down: [checkstate] enters LVC,
    [checkbuttons] acknowledges it in the same pass, and the pass ends in
    OFF. *)
Lemma cutoff_acknowledged_in_pass :
  reachable switched_on
  /\ om switched_on = OPMODE_ON
  /\ volts (checkstate_measure switched_on (adc_codes 0 0 512)) = 253
  /\ lvc switched_on = 2000
  /\ om (checkstate switched_on (adc_codes 0 0 512)) = OPMODE_LVC
  /\ om (mainloop switched_on (mkInputs (adc_codes 0 0 512) mode_pressed))
     = OPMODE_OFF
  /\ om (mainloop switched_on (mkInputs (adc_codes 0 0 512) mode_pressed))
     <> OPMODE_LVC.
Proof.
  split; [apply reachable_step, reachable_boot |].
  vm_compute. repeat split; discriminate.
Qed.

(** C1, amended: in mode ON, a sample whose computed voltage is below the
    cutoff makes [checkstate] switch to LVC and disable the drive; the
    only duty written in that call is the sentinel 1025, whatever the
    measured and the target current are, and the variable [loadduty]
    holds it.  The duty is still 1025 at the end of the pass; the mode at
    the end of the pass is LVC when the mode button is up and OFF when it
    is down, [checkbuttons] acknowledging the cutoff in that same pass. *)
Theorem cutoff_takes_precedence (s : state) (i : inputs) :
  om s = OPMODE_ON ->
  volts (checkstate_measure s (adc i)) < lvc s ->
  om (checkstate s (adc i)) = OPMODE_LVC
  /\ loadduty (checkstate s (adc i)) = 1025
  /\ tim1_latched (checkstate s (adc i)) = tim1_latched s ++ [1025]
  /\ TIM1_CCR1H (checkstate s (adc i)) = 4 /\ TIM1_CCR1L (checkstate s (adc i)) = 1
  /\ loadduty (mainloop s i) = 1025
  /\ om (mainloop s i)
     = (if Z.land (u8 (PD_IDR i)) 128 =? 0 then OPMODE_OFF else OPMODE_LVC).
Proof.
  intros Hon Hlow.
  assert (Hcs : om (checkstate s (adc i)) = OPMODE_LVC
                /\ loadduty (checkstate s (adc i)) = 1025
                /\ tim1_latched (checkstate s (adc i)) = tim1_latched s ++ [1025]
                /\ TIM1_CCR1H (checkstate s (adc i)) = 4
                /\ TIM1_CCR1L (checkstate s (adc i)) = 1).
  { destruct (checkstate_measure_frame s (adc i)) as (Ho & _ & Hl & _ & _ & Hla & _).
    unfold checkstate.
    set (m := checkstate_measure s (adc i)) in *. clearbody m.
    rewrite <- Hla. rewrite <- Hl in Hlow. rewrite <- Ho in Hon.
    apply Z.ltb_lt in Hlow.
    unfold checkstate_regulate. rewrite Hon, Hlow.
    repeat split. }
  destruct Hcs as (Hm & Hd & Hla & Hh & Hlo).
  split; [exact Hm |]. split; [exact Hd |]. split; [exact Hla |].
  split; [exact Hh |]. split; [exact Hlo |].
  unfold mainloop.
  set (c := checkstate s (adc i)) in *. clearbody c.
  destruct (updatedisplay_mode_duty (checkbuttons (sendstate c) (PD_IDR i)))
    as [Eo Ed].
  destruct (sendstate_mode_duty c) as [Eo' Ed'].
  destruct (checkbuttons_in_lvc (sendstate c) (PD_IDR i)) as [Eo'' Ed''];
    [rewrite Eo'; exact Hm |].
  rewrite Ed, Eo, Ed'', Eo'', Ed'.
  split; [exact Hd | reflexivity].
Qed.

(** C4: whenever a step of the loop starts in ON and ends in another mode,
    the drive is disabled at the end of that step: [loadduty] is 1025,
    above the timer period 1024, and 1025 is the value the compare
    register holds and latched last. *)
Theorem leaving_on_disables_drive (s s' : state) :
  loop_step s s' ->
  om s = OPMODE_ON ->
  om s' <> OPMODE_ON ->
  loadduty s' = 1025 /\ reloadvalue < loadduty s'
  /\ TIM1_CCR1H s' = 4 /\ TIM1_CCR1L s' = 1
  /\ last (tim1_latched s') = Some 1025.
Proof.
  intros Hstep Hon Hleft.
  assert (Hsafe : off_safe s') by
    (destruct Hstep;
     [ apply checkstate_safe | apply sendstate_safe | apply checkbuttons_safe
     | apply updatedisplay_safe | apply mainloop_safe ]; left; exact Hon).
  destruct Hsafe as [H | (Hd & Hh & Hl & Hlast)]; [contradiction |].
  rewrite Hd. unfold reloadvalue.
  split; [reflexivity |]. split; [lia |]. repeat split; assumption.
Qed.

(** ** The cutoff on sample runs *)

Lemma cutoff_takes_precedence_witness :
  om (checkstate switched_on (adc_codes 0 0 1023)) = OPMODE_LVC
  /\ loadduty (checkstate switched_on (adc_codes 0 0 1023)) = 1025
  /\ tim1_latched (checkstate switched_on (adc_codes 0 0 1023))
     = tim1_latched switched_on ++ [1025]
  /\ loadduty (mainloop switched_on (mkInputs (adc_codes 0 0 1023) mode_pressed)) = 1025
  /\ om (mainloop switched_on (mkInputs (adc_codes 0 0 1023) mode_pressed)) = OPMODE_OFF.
Proof.
  destruct (cutoff_takes_precedence switched_on
              (mkInputs (adc_codes 0 0 1023) mode_pressed))
    as (H1 & H2 & H3 & _ & _ & H6 & H7).
  - vm_compute. reflexivity.
  - vm_compute. reflexivity.
  - split; [exact H1 |]. split; [exact H2 |]. split; [exact H3 |].
    split; [exact H6 |]. rewrite H7. reflexivity.
Defined.

Lemma leaving_on_disables_drive_witness :
  loadduty (mainloop switched_on (mkInputs (adc_codes 0 0 0) start_pressed)) = 1025
  /\ reloadvalue < loadduty (mainloop switched_on (mkInputs (adc_codes 0 0 0) start_pressed))
  /\ TIM1_CCR1H (mainloop switched_on (mkInputs (adc_codes 0 0 0) start_pressed)) = 4
  /\ TIM1_CCR1L (mainloop switched_on (mkInputs (adc_codes 0 0 0) start_pressed)) = 1
  /\ last (tim1_latched (mainloop switched_on (mkInputs (adc_codes 0 0 0) start_pressed)))
     = Some 1025.
Proof.
  apply (leaving_on_disables_drive switched_on).
  - apply step_mainloop.
  - vm_compute. reflexivity.
  - vm_compute. discriminate.
Defined.

(** ** Fan *)

Lemma fan_on_turnonfan (s : state) : fan_on (turnonfan s) = true.
Proof.
  unfold fan_on, turnonfan. state_simpl.
  rewrite u8_testbit_2, Z.lor_spec.
  change (Z.testbit (Z.shiftl 1 2) 2) with true. apply orb_true_r.
Qed.

Lemma fan_on_turnofffan (s : state) : fan_on (turnofffan s) = false.
Proof.
  unfold fan_on, turnofffan. state_simpl.
  rewrite u8_testbit_2, Z.land_spec.
  change (Z.testbit (Z.lnot (Z.shiftl 1 2)) 2) with false. apply andb_false_r.
Qed.

Lemma checkstate_measure_fan (s : state) (i : adc_inputs) :
  fan_on (checkstate_measure s i)
  = (watts (checkstate_measure s i) >? FANWATTTHRESHOLD).
Proof.
  unfold checkstate_measure. cbv zeta.
  match goal with
  | |- context [if ?c then turnonfan ?x else turnofffan ?x] =>
      set (m := x); destruct c eqn:E
  end.
  - rewrite fan_on_turnonfan. symmetry. exact E.
  - rewrite fan_on_turnofffan. symmetry. exact E.
Qed.

Lemma checkstate_regulate_fan (s : state) :
  PB_ODR (checkstate_regulate s) = PB_ODR s.
Proof.
  unfold checkstate_regulate.
  destruct (om s);
    repeat match goal with
           | |- context [if ?c then _ else _] => destruct c
           end;
    reflexivity.
Qed.

Lemma sendstate_fan (s : state) : PB_ODR (sendstate s) = PB_ODR s.
Proof. destruct (sendstate_tx_only s) as [cs ->]. reflexivity. Qed.

Lemma checkbuttons_fan (s : state) (pd : Z) :
  PB_ODR (checkbuttons s pd) = PB_ODR s.
Proof.
  unfold checkbuttons. cbv zeta.
  destruct (Z.land (u8 pd) (Z.shiftl 1 3) =? 0);
    destruct (Z.land (u8 pd) (Z.shiftl 1 7) =? 0);
    destruct (om s) eqn:Eom; state_simpl; rewrite ?Eom;
    try match goal with |- context [if ?c then _ else _] => destruct c end;
    reflexivity.
Qed.

Lemma updatedisplay_fan (s : state) : fan_on (updatedisplay s) = fan_on s.
Proof.
  destruct (updatedisplay_display_only s) as (p & -> & Hp). exact Hp.
Qed.

Lemma mainloop_fan (s : state) (i : inputs) :
  fan_on (mainloop s i) = fan_on (checkstate_measure s (adc i)).
Proof.
  unfold mainloop, checkstate.
  rewrite updatedisplay_fan. unfold fan_on.
  rewrite checkbuttons_fan, sendstate_fan, checkstate_regulate_fan.
  reflexivity.
Qed.

(** The sensing side after the measurement, field by field. *)
Lemma checkstate_measure_fields (s : state) (i : adc_inputs) :
  let s' := checkstate_measure s i in
  shuntsamples s' = <[Z.to_nat (sample s) := readadc (conv_shunt i)]> (shuntsamples s)
  /\ voltsamples s' = <[Z.to_nat (sample s) := readadc (conv_vin i)]> (voltsamples s)
  /\ volthighgainsamples s'
     = <[Z.to_nat (sample s) := readadc (conv_vin_highgain i)]> (volthighgainsamples s)
  /\ sample s' = u8 ((sample s + 1) mod Z.of_nat SAMPLES)
  /\ amps s' = amps_of (window_mean (shuntsamples s'))
  /\ highgain s' = (lowgainvolts_of (window_mean (voltsamples s')) <=? 6000)
  /\ volts s' = (if highgain s'
                 then highgainvolts_of (window_mean (volthighgainsamples s'))
                 else lowgainvolts_of (window_mean (voltsamples s')))
  /\ watts s' = watts_of (amps s') (volts s').
Proof.
  unfold checkstate_measure. cbv zeta.
  match goal with
  | |- context [if ?c then turnonfan ?x else turnofffan ?x] => destruct c
  end;
    unfold amps_of, highgainvolts_of, lowgainvolts_of, watts_of, window_mean;
    state_simpl; repeat split.
Qed.

Lemma checkstate_measure_forgets_port (p : Z) (s : state) (i : adc_inputs) :
  watts (checkstate_measure (set_PB_ODR p s) i) = watts (checkstate_measure s i).
Proof.
  destruct (checkstate_measure_fields (set_PB_ODR p s) i)
    as (E1 & E2 & E3 & _ & Ea & Eh & Ev & Ew).
  destruct (checkstate_measure_fields s i)
    as (F1 & F2 & F3 & _ & Fa & Fh & Fv & Fw).
  rewrite Ew, Fw, Ev, Fv, Eh, Fh, Ea, Fa, E1, E2, E3, F1, F2, F3.
  reflexivity.
Qed.

(** C8: the fan pin is high exactly when the watts just computed exceed
    2500, after the measurement and still at the end of the pass, whatever
    the pin was before; 2500 leaves the fan off and 2501 turns it on. *)
Theorem fan_follows_watts (s : state) (i : inputs) :
  fan_on (checkstate_measure s (adc i))
    = (watts (checkstate_measure s (adc i)) >? 2500)
  /\ fan_on (mainloop s i) = (watts (mainloop s i) >? 2500)
  /\ (forall p, fan_on (checkstate_measure (set_PB_ODR p s) (adc i))
                = fan_on (checkstate_measure s (adc i)))
  /\ (watts (steady_state 37 1000 0) = 2500
      /\ fan_on (steady_state 37 1000 0) = false)
  /\ (watts (steady_state 51 723 0) = 2501
      /\ fan_on (steady_state 51 723 0) = true).
Proof.
  split; [apply checkstate_measure_fan |].
  split.
  { rewrite mainloop_fan.
    destruct (mainloop_sensing s i) as (_ & _ & _ & _ & _ & _ & -> & _).
    apply checkstate_measure_fan. }
  split.
  { intros p. rewrite !checkstate_measure_fan.
    rewrite checkstate_measure_forgets_port. reflexivity. }
  split; vm_compute; split; reflexivity.
Qed.

(** ** Measurement arithmetic on ten bit readings *)

Lemma amps_of_code10 (m : Z) : is_code10 m -> amps_of m = m * 68 / 20.
Proof.
  unfold is_code10, amps_of, MICROVOLTSPERSTEP_SHUNT. intros Hm.
  rewrite (u32_small m) by lia.
  rewrite (u32_small (m * 68)) by lia.
  apply u16_small. unfold is_u16.
  split; [apply Z.div_pos; lia | apply Z.div_lt_upper_bound; lia].
Qed.

Lemma lowgainvolts_of_code10 (m : Z) : is_code10 m -> lowgainvolts_of m = m * 20.
Proof.
  unfold is_code10, lowgainvolts_of, MILLIVOLTSPERSTEP. intros Hm.
  rewrite (u32_small m) by lia.
  rewrite (u32_small (m * 20)) by lia.
  apply u16_small. unfold is_u16. lia.
Qed.

(** The high gain voltage is the specification's formula, kept to 16 bits. *)
Lemma highgainvolts_of_code10 (m : Z) :
  is_code10 m -> highgainvolts_of m = u16 (m * 65 / 10 - 20).
Proof.
  unfold is_code10, highgainvolts_of, MILLIVOLTSPERSTEP_HIGHGAIN, HIGHOFFSET.
  intros Hm.
  rewrite (u32_small m) by lia.
  rewrite (u32_small (m * 65)) by lia.
  apply u16_u32.
Qed.

Lemma u16_wraps_negative (x : Z) : -65536 <= x < 0 -> u16 x = x + 65536.
Proof.
  intros Hx. unfold u16.
  rewrite <- (Z.mod_add x 1 65536) by lia.
  apply Z.mod_small. lia.
Qed.

Lemma watts_of_u16 (a v : Z) :
  is_u16 a -> is_u16 v -> watts_of a v = (a * v / 1000) mod 65536.
Proof.
  unfold is_u16, watts_of. intros Ha Hv.
  rewrite (u32_small a), (u32_small v) by lia.
  rewrite (u32_small (a * v)) by nia.
  reflexivity.
Qed.

Lemma checkstate_measure_windows_ok (s : state) (i : adc_inputs) :
  state_ok s ->
  window_ok (shuntsamples (checkstate_measure s i))
  /\ window_ok (voltsamples (checkstate_measure s i))
  /\ window_ok (volthighgainsamples (checkstate_measure s i)).
Proof.
  intros Hs. pose proof (checkstate_measure_ok s i Hs) as H.
  split; [apply (ok_shuntsamples _ H) |].
  split; [apply (ok_voltsamples _ H) | apply (ok_volthighgainsamples _ H)].
Qed.

(** C5: high gain is selected exactly when the low gain voltage, twenty
    times the smoothed low gain reading, is at most 6000; the reported
    voltage is then the high gain value and otherwise the low gain value.
    The smoothed reading 300 (6000 mV) selects high gain, the next one,
    301 (6020 mV), does not. *)
Theorem gain_selection (s : state) (i : adc_inputs) :
  state_ok s ->
  let s' := checkstate_measure s i in
  let lowgainvolts := window_mean (voltsamples s') * 20 in
  let highgainvolts := u16 (window_mean (volthighgainsamples s') * 65 / 10 - 20) in
  highgain s' = (lowgainvolts <=? 6000)
  /\ volts s' = (if highgain s' then highgainvolts else lowgainvolts)
  /\ (highgain s' = true <-> lowgainvolts <= 6000)
  /\ highgain (checkstate s i) = highgain s'
  /\ volts (checkstate s i) = volts s'
  /\ (6000 <=? 6000) = true /\ (6001 <=? 6000) = false
  /\ (window_mean (voltsamples (steady_state 0 300 500)) * 20 = 6000
      /\ highgain (steady_state 0 300 500) = true
      /\ volts (steady_state 0 300 500) = 500 * 65 / 10 - 20)
  /\ (window_mean (voltsamples (steady_state 0 301 500)) * 20 = 6020
      /\ highgain (steady_state 0 301 500) = false
      /\ volts (steady_state 0 301 500) = 6020).
Proof.
  intros Hs. cbv zeta.
  destruct (checkstate_measure_windows_ok s i Hs) as (_ & Hv & Hh).
  destruct (checkstate_measure_fields s i) as (_ & _ & _ & _ & _ & Ehg & Ev & _).
  rewrite lowgainvolts_of_code10 in Ehg, Ev by (apply window_mean_code10; exact Hv).
  rewrite highgainvolts_of_code10 in Ev by (apply window_mean_code10; exact Hh).
  destruct (checkstate_regulate_sensing (checkstate_measure s i))
    as (_ & _ & _ & _ & Ev' & _ & _ & Ehg' & _).
  split; [exact Ehg |]. split; [exact Ev |].
  split; [rewrite Ehg; apply Z.leb_le |].
  split; [exact Ehg' |]. split; [exact Ev' |].
  split; [reflexivity |]. split; [reflexivity |].
  split; vm_compute; repeat split; reflexivity.
Qed.

Lemma gain_selection_witness :
  highgain (checkstate_measure boot_state (adc_codes 0 0 0)) = true
  /\ volts (checkstate_measure boot_state (adc_codes 0 0 0)) = 65516.
Proof.
  destruct (gain_selection boot_state (adc_codes 0 0 0) boot_state_ok)
    as (Hg & Hv & _).
  split.
  - rewrite Hg. vm_compute. reflexivity.
  - rewrite Hv, Hg. vm_compute. reflexivity.
Defined.

Lemma highgainvolts_16bit_agrees (h : Z) :
  is_code10 h -> (highgainvolts_of h = highgainvolts_16bit h <-> h <= 1008).
Proof.
  intros Hh. pose proof Hh as Hc. unfold is_code10 in Hh.
  destruct (Z.le_gt_cases h 1008) as [Hle | Hgt].
  - split; [intros _; exact Hle | intros _].
    rewrite highgainvolts_of_code10 by exact Hc.
    unfold highgainvolts_16bit, MILLIVOLTSPERSTEP_HIGHGAIN, HIGHOFFSET.
    rewrite (u16_small h) by (unfold is_u16; lia).
    rewrite (u16_small (h * 65)) by (unfold is_u16; lia).
    rewrite (u16_small (h * 65 / 10))
      by (unfold is_u16; Z.div_mod_to_equations; lia).
    reflexivity.
  - split; [| lia].
    assert (E : h = 1009 \/ h = 1010 \/ h = 1011 \/ h = 1012 \/ h = 1013
                \/ h = 1014 \/ h = 1015 \/ h = 1016 \/ h = 1017 \/ h = 1018
                \/ h = 1019 \/ h = 1020 \/ h = 1021 \/ h = 1022 \/ h = 1023)
      by lia.
    clear Hh Hc Hgt.
    repeat (destruct E as [-> | E]); try subst h; vm_compute; discriminate.
Qed.

(** C9, as stated, fails twice.  The expression is not evaluated in 16 bit
    arithmetic: with the high gain window full at code 1023, a state the
    firmware reaches, the code reports 6629 mV where 16 bit arithmetic
    gives 75.  And 65516 does not exceed every threshold: built with the
    threshold 65535, the firmware finds its first reading, 65516, below
    the cutoff and enters LVC. *)
Lemma highgain_full_scale :
  reachable (steady_state 0 0 1023)
  /\ window_mean (volthighgainsamples (steady_state 0 0 1023)) = 1023
  /\ highgain (steady_state 0 0 1023) = true
  /\ volts (steady_state 0 0 1023) = 6629
  /\ highgainvolts_16bit 1023 = 75
  /\ volts (steady_state 0 0 1023) <> highgainvolts_16bit 1023
  /\ volthighgainsamples (checkstate_measure (on_with_lvc 65535) (adc_codes 0 0 0))
     = replicate SAMPLES 0
  /\ volts (checkstate_measure (on_with_lvc 65535) (adc_codes 0 0 0)) = 65516
  /\ om (checkstate (on_with_lvc 65535) (adc_codes 0 0 0)) = OPMODE_LVC.
Proof.
  split; [apply reachable_run, reachable_boot |].
  vm_compute. repeat split; discriminate.
Qed.

(** C9, amended: the high gain voltage is evaluated in 32 bits and
    narrowed to 16 bits once, so a smoothed high gain reading [h] is
    reported as [h * 65 / 10 - 20] modulo 2^16; this is the result of 16
    bit arithmetic exactly for [h] up to 1008.  A reading with
    [h * 65 / 10 < 20] is reported as [h * 65 / 10 - 20 + 65536].  With
    the high gain window all zero and high gain selected the firmware
    reports 65516 mV, which the cutoff comparison does not find below any
    threshold up to 65516; the threshold of a running firmware is always
    2000, so there the mode is left as it is. *)
Theorem highgain_offset_wraps (s : state) (i : adc_inputs) :
  state_ok s ->
  highgain (checkstate_measure s i) = true ->
  let s' := checkstate_measure s i in
  let h := window_mean (volthighgainsamples s') in
  volts s' = (h * 65 / 10 - 20) mod 65536
  /\ (volts s' = highgainvolts_16bit h <-> h <= 1008)
  /\ (h * 65 / 10 < 20 -> volts s' = h * 65 / 10 - 20 + 65536)
  /\ highgainvolts_of 0 = 65516
  /\ (volthighgainsamples s' = replicate SAMPLES 0 ->
      volts s' = 65516
      /\ (lvc s <= 65516 -> (volts s' <? lvc s') = false)
      /\ (reachable s -> lvc s' = 2000 /\ lvc s' < volts s'
                         /\ om (checkstate s i) = om s)).
Proof.
  intros Hs Hg. cbv zeta.
  destruct (checkstate_measure_windows_ok s i Hs) as (_ & _ & Hh).
  destruct (checkstate_measure_fields s i) as (_ & _ & _ & _ & _ & _ & Ev & _).
  destruct (checkstate_measure_frame s i) as (Eom & _ & El & _).
  rewrite Hg in Ev.
  pose proof (window_mean_code10 _ Hh) as Hc.
  pose proof Hc as Hm. unfold is_code10 in Hm.
  assert (Hq : 0 <= window_mean (volthighgainsamples (checkstate_measure s i)) * 65 / 10)
    by (apply Z.div_pos; lia).
  split.
  { rewrite Ev. rewrite highgainvolts_of_code10 by exact Hc. reflexivity. }
  split.
  { rewrite Ev. apply highgainvolts_16bit_agrees. exact Hc. }
  split.
  { intros Hsmall. rewrite Ev.
    rewrite highgainvolts_of_code10 by exact Hc.
    apply u16_wraps_negative. lia. }
  split; [reflexivity |].
  intros Hzero.
  assert (Hv : volts (checkstate_measure s i) = 65516).
  { rewrite Ev, Hzero, window_mean_replicate by (unfold is_code10; lia).
    reflexivity. }
  split; [exact Hv |]. split.
  - intros Hl. rewrite Hv, El. apply Z.ltb_ge. exact Hl.
  - intros Hr. destruct (reachable_settings s Hr) as [Hl _].
    rewrite Hv, El, Hl. split; [reflexivity |]. split; [lia |].
    unfold checkstate. rewrite checkstate_regulate_mode.
    rewrite Eom, Hv, El, Hl.
    destruct (om s); reflexivity.
Qed.

Lemma highgain_offset_wraps_witness :
  volts (checkstate_measure boot_state (adc_codes 0 0 0)) = 65516
  /\ lvc (checkstate_measure boot_state (adc_codes 0 0 0)) = 2000
  /\ (volts (checkstate_measure boot_state (adc_codes 0 0 0))
        <? lvc (checkstate_measure boot_state (adc_codes 0 0 0))) = false.
Proof.
  destruct (highgain_offset_wraps boot_state (adc_codes 0 0 0) boot_state_ok)
    as (_ & _ & _ & _ & H).
  - vm_compute. reflexivity.
  - destruct H as (Hv & Hcmp & Hr); [vm_compute; reflexivity |].
    destruct (Hr reachable_boot) as (Hl & _).
    split; [exact Hv |]. split; [exact Hl |].
    apply Hcmp. vm_compute. discriminate.
Defined.

(** ** Power *)

(** C10, as stated, fails at its own example: for amps 3478 and volts
    20460, the full scale of both inputs, the quotient is 71159 and the
    stored watts are 5623, not 71167 and 5631. *)
Lemma watts_full_scale :
  amps (steady_state 1023 1023 0) = 3478
  /\ volts (steady_state 1023 1023 0) = 20460
  /\ 3478 * 20460 / 1000 = 71159
  /\ watts (steady_state 1023 1023 0) = 5623
  /\ 3478 * 20460 / 1000 <> 71167
  /\ watts (steady_state 1023 1023 0) <> 5631.
Proof. vm_compute. repeat split; discriminate. Qed.

(** C10, amended: the stored watts are the quotient [amps * volts / 1000]
    modulo 2^16, so they equal the quotient exactly when it is at most
    65535; amps 3478 and volts 20460 give the quotient 71159, stored as
    5623.  The fan follows the stored value, and a reachable state exists
    (shunt code 950, low gain code 1023) whose true power, 66085 mW, is
    above 2500 while the fan is off. *)
Theorem watts_wraps (s : state) (i : adc_inputs) :
  let s' := checkstate_measure s i in
  let q := amps s' * volts s' / 1000 in
  watts s' = q mod 65536
  /\ (watts s' =? q) = (q <=? 65535)
  /\ fan_on s' = (q mod 65536 >? 2500)
  /\ watts_of 3478 20460 = 5623
  /\ (reachable (steady_state 950 1023 0)
      /\ amps (steady_state 950 1023 0) * volts (steady_state 950 1023 0) / 1000 = 66085
      /\ watts (steady_state 950 1023 0) = 549
      /\ fan_on (steady_state 950 1023 0) = false).
Proof.
  cbv zeta.
  destruct (checkstate_measure_fields s i) as (_ & _ & _ & _ & Ea & _ & Ev & Ew).
  assert (Ha : is_u16 (amps (checkstate_measure s i)))
    by (rewrite Ea; apply u16_range).
  assert (Hv : is_u16 (volts (checkstate_measure s i))).
  { rewrite Ev. destruct (highgain _); apply u16_range. }
  rewrite watts_of_u16 in Ew by assumption.
  set (q := amps (checkstate_measure s i) * volts (checkstate_measure s i) / 1000) in *.
  assert (Hq : 0 <= q).
  { unfold q, is_u16 in *. apply Z.div_pos; nia. }
  assert (Hm : 0 <= q mod 65536 < 65536) by (apply Z.mod_pos_bound; lia).
  split; [exact Ew |]. split.
  { rewrite Ew. destruct (Z.leb_spec q 65535) as [Hle | Hgt].
    - rewrite Z.mod_small by lia. apply Z.eqb_refl.
    - apply Z.eqb_neq. lia. }
  split; [rewrite checkstate_measure_fan, Ew; reflexivity |].
  split; [reflexivity |].
  split; [apply reachable_run, reachable_boot |].
  vm_compute. repeat split.
Qed.

(** ** Smoothing *)

Lemma window_of_ok (ch : channel) (s : state) :
  state_ok s -> window_ok (window_of ch s).
Proof. intros [? ? ? ? ? ? ? ? ? ?]. destruct ch; assumption. Qed.

(** One pass writes the slot under the cursor and moves the cursor on. *)
Lemma mainloop_window (ch : channel) (s : state) (i : inputs) :
  window_of ch (mainloop s i)
  = <[Z.to_nat (sample s) := code_read ch i]> (window_of ch s)
  /\ sample (mainloop s i) = u8 ((sample s + 1) mod Z.of_nat SAMPLES).
Proof.
  destruct (mainloop_sensing s i) as (Hv & Hs & Hh & Hc & _).
  destruct (checkstate_measure_fields s (adc i)) as (Fs & Fv & Fh & Fc & _).
  split; [| rewrite Hc; exact Fc].
  unfold code_read.
  destruct ch; cbn [window_of conversion_of]; congruence.
Qed.

Lemma slots_ahead_next (j : nat) (p n : Z) :
  0 <= p < 12 -> (j < 12)%nat -> Z.of_nat j <> p ->
  (slots_ahead j ((p + 1) mod 12) <? n) = (slots_ahead j p <? n + 1).
Proof.
  unfold slots_ahead. intros Hp Hj Hne.
  destruct (Z.ltb_spec ((Z.of_nat j - (p + 1) mod 12) mod 12) n);
    destruct (Z.ltb_spec ((Z.of_nat j - p) mod 12) (n + 1));
    try reflexivity; exfalso;
    Z.div_mod_to_equations; lia.
Qed.

(** After the passes [ins], each reading [c] on channel [ch], the slots
    less than [length ins] ahead of the old cursor hold [c]. *)
Lemma run_window (ch : channel) (c : Z) (ins : list inputs) :
  forall s : state,
  state_ok s ->
  Forall (fun i => code_read ch i = c) ins ->
  forall j : nat, (j < 12)%nat ->
  window_of ch (run s ins) !! j
  = if slots_ahead j (sample s) <? Z.of_nat (length ins)
    then Some c else window_of ch s !! j.
Proof.
  induction ins as [| i ins IH]; intros s Hs Hall j Hj.
  - cbn [run fold_left length].
    destruct (Z.ltb_spec (slots_ahead j (sample s)) (Z.of_nat 0)) as [H | H];
      [| reflexivity].
    unfold slots_ahead in H. exfalso.
    assert (0 <= (Z.of_nat j - sample s) mod 12) by (apply Z.mod_pos_bound; lia).
    lia.
  - apply Forall_cons_1 in Hall as [Hi Hall].
    change (run s (i :: ins)) with (run (mainloop s i) ins).
    rewrite (IH (mainloop s i) (mainloop_ok s i Hs) Hall j Hj).
    destruct (mainloop_window ch s i) as [Hw Hc].
    pose proof (ok_sample s Hs) as Hp.
    destruct (cursor_advance (sample s) Hp) as [Hu _].
    rewrite Hc, Hu, Hw, Hi.
    change (Z.of_nat SAMPLES) with 12 in *.
    destruct (window_of_ok ch s Hs) as [Hlen _]. unfold SAMPLES in Hlen.
    replace (Z.of_nat (length (i :: ins))) with (Z.of_nat (length ins) + 1)
      by (cbn [length]; lia).
    destruct (Z.eq_dec (Z.of_nat j) (sample s)) as [E | E].
    + replace (Z.to_nat (sample s)) with j by lia.
      rewrite list_lookup_insert_eq by lia.
      assert (H0 : slots_ahead j (sample s) = 0).
      { unfold slots_ahead. rewrite E, Z.sub_diag. reflexivity. }
      rewrite H0.
      destruct (Z.ltb_spec 0 (Z.of_nat (length ins) + 1)); [| lia].
      destruct (_ <? _); reflexivity.
    + rewrite list_lookup_insert_ne by lia.
      rewrite slots_ahead_next by (try lia; exact E).
      reflexivity.
Qed.

(** C7: a pass overwrites the slot under the shared cursor with the code
    read, advances the cursor modulo 12, and the smoothed reading is the
    truncating mean of the twelve slots, which is what the measurement is
    computed from.  After twelve or more passes in a row that read the same
    code [c] on a channel, that channel's window holds [c] twelve times and
    its smoothed reading is [c]. *)
Theorem smoothing_converges (ch : channel) (c : Z) (s : state) (ins : list inputs) :
  state_ok s ->
  (12 <= length ins)%nat ->
  Forall (fun i => code_read ch i = c) ins ->
  window_of ch (run s ins) = replicate SAMPLES c
  /\ window_mean (window_of ch (run s ins)) = c
  /\ (forall i : inputs,
        window_of ch (mainloop s i)
          = <[Z.to_nat (sample s) := code_read ch i]> (window_of ch s)
        /\ sample (mainloop s i) = (sample s + 1) mod 12
        /\ window_mean (window_of ch (mainloop s i))
           = sum_list (window_of ch (mainloop s i)) / 12
        /\ amps (mainloop s i) = window_mean (shuntsamples (mainloop s i)) * 68 / 20).
Proof.
  intros Hs Hlen Hall.
  assert (Hc : is_code10 c).
  { destruct ins as [| i ins]; [simpl in Hlen; lia |].
    apply Forall_cons_1 in Hall as [<- _]. apply readadc_code10. }
  assert (Hw : window_of ch (run s ins) = replicate SAMPLES c).
  { destruct (window_of_ok ch (run s ins) (run_ok s ins Hs)) as [Hl _].
    apply list_eq. intros j.
    destruct (Nat.lt_ge_cases j 12) as [Hj | Hj].
    - rewrite (run_window ch c ins s Hs Hall j Hj).
      rewrite lookup_replicate_2 by (unfold SAMPLES; lia).
      destruct (Z.ltb_spec (slots_ahead j (sample s)) (Z.of_nat (length ins)))
        as [H | H]; [reflexivity | exfalso].
      unfold slots_ahead in H.
      assert ((Z.of_nat j - sample s) mod 12 < 12) by (apply Z.mod_pos_bound; lia).
      lia.
    - rewrite !lookup_ge_None_2; [reflexivity | |].
      + rewrite length_replicate. unfold SAMPLES. lia.
      + rewrite Hl. unfold SAMPLES. lia. }
  split; [exact Hw |].
  split; [rewrite Hw; apply window_mean_replicate; exact Hc |].
  intros i.
  destruct (mainloop_window ch s i) as [Ew Ec].
  destruct (cursor_advance (sample s) (ok_sample s Hs)) as [Hu _].
  split; [exact Ew |].
  split; [rewrite Ec, Hu; reflexivity |].
  split; [apply window_mean_spec, window_of_ok, mainloop_ok, Hs |].
  destruct (mainloop_sensing s i) as (_ & Es & _ & _ & _ & Ea & _).
  destruct (checkstate_measure_fields s (adc i)) as (_ & _ & _ & _ & Fa & _).
  rewrite Ea, Es, Fa.
  apply amps_of_code10, window_mean_code10.
  apply (checkstate_measure_windows_ok s (adc i) Hs).
Qed.

Lemma smoothing_converges_witness :
  window_of ADC_SHUNT
    (run (steady_state 5 6 7) (replicate 13 (mkInputs (adc_codes 700 1 2) no_button)))
  = replicate SAMPLES 700
  /\ window_mean (window_of ADC_SHUNT
       (run (steady_state 5 6 7) (replicate 13 (mkInputs (adc_codes 700 1 2) no_button))))
     = 700.
Proof.
  destruct (smoothing_converges ADC_SHUNT 700 (steady_state 5 6 7)
              (replicate 13 (mkInputs (adc_codes 700 1 2) no_button)))
    as (Hw & Hm & _).
  - apply run_ok, boot_state_ok.
  - vm_compute. lia.
  - apply Forall_replicate. vm_compute. reflexivity.
  - split; [exact Hw | exact Hm].
Defined.

(** ** Telemetry *)

Lemma checkstate_tx (s : state) (i : adc_inputs) :
  uart_tx (checkstate s i) = uart_tx s.
Proof.
  destruct (checkstate_measure_frame s i) as (_ & _ & _ & _ & _ & _ & _ & _ & Hu).
  unfold checkstate. rewrite <- Hu.
  generalize (checkstate_measure s i) as m. intros m.
  unfold checkstate_regulate.
  destruct (om m);
    repeat match goal with
           | |- context [if ?c then _ else _] => destruct c
           end; reflexivity.
Qed.

Lemma checkbuttons_tx (s : state) (pd : Z) :
  uart_tx (checkbuttons s pd) = uart_tx s.
Proof.
  unfold checkbuttons. cbv zeta.
  destruct (Z.land (u8 pd) (Z.shiftl 1 3) =? 0);
    destruct (Z.land (u8 pd) (Z.shiftl 1 7) =? 0);
    destruct (om s) eqn:Eom; state_simpl; rewrite ?Eom;
    try match goal with |- context [if ?c then _ else _] => destruct c end;
    reflexivity.
Qed.

Lemma updatedisplay_tx (s : state) : uart_tx (updatedisplay s) = uart_tx s.
Proof. destruct (updatedisplay_display_only s) as (p & -> & _). reflexivity. Qed.

(** C6: [sendstate] appends exactly one line, the name of the mode and the
    six values, each as six zero padded decimal digits, separated by
    commas and closed by CR LF; a pass of the loop transmits exactly that
    line for the state [checkstate] left.  Zero is rendered as 000000, and
    the line of the initial values is
    off,000000,000000,000000,001000,002000,000800 and CR LF. *)
Theorem telemetry_format (s : state) (i : inputs) :
  state_ok s ->
  uart_tx (sendstate s) = uart_tx s ++ telemetry_line s
  /\ uart_tx (mainloop s i) = uart_tx s ++ telemetry_line (checkstate s (adc i))
  /\ decimal6 0 = list_ascii_of_string "000000"
  /\ (om initial_state = OPMODE_OFF /\ volts initial_state = 0
      /\ amps initial_state = 0 /\ watts initial_state = 0
      /\ targetamps initial_state = 1000 /\ lvc initial_state = 2000
      /\ loadduty initial_state = 800)
  /\ telemetry_line initial_state
     = list_ascii_of_string "off,000000,000000,000000,001000,002000,000800"
       ++ [CR; LF]
  /\ uart_tx (sendstate initial_state)
     = list_ascii_of_string "off,000000,000000,000000,001000,002000,000800"
       ++ [CR; LF].
Proof.
  intros Hs.
  split; [rewrite sendstate_spec by exact Hs; reflexivity |].
  split.
  { unfold mainloop. rewrite updatedisplay_tx, checkbuttons_tx.
    rewrite sendstate_spec by (apply checkstate_ok; exact Hs).
    state_simpl. rewrite checkstate_tx. reflexivity. }
  split; [reflexivity |].
  split; [repeat split |].
  split; vm_compute; reflexivity.
Qed.

Lemma telemetry_format_witness :
  uart_tx (sendstate (steady_state 295 600 0))
  = uart_tx (steady_state 295 600 0)
    ++ list_ascii_of_string "off,012000,001003,012036,001000,002000,000800"
    ++ [CR; LF].
Proof.
  destruct (telemetry_format (steady_state 295 600 0)
              (mkInputs (adc_codes 0 0 0) no_button)) as (H & _).
  - apply run_ok, boot_state_ok.
  - rewrite H. f_equal.
Defined.

(** ** Bang-bang regulation *)

Lemma operationmode_eqb_eq (a b : operationmode) :
  operationmode_eqb a b = true <-> a = b.
Proof. destruct a, b; simpl; split; congruence. Qed.

(** The [switch] of [checkstate] in mode ON with the voltage not below the
    cutoff. *)
Lemma checkstate_regulate_adjust (m : state) :
  om m = OPMODE_ON ->
  (volts m <? lvc m) = false ->
  is_u16 (loadduty m) ->
  loadduty (checkstate_regulate m) = adjust_spec (amps m) (targetamps m) (loadduty m)
  /\ om (checkstate_regulate m) = OPMODE_ON.
Proof.
  unfold is_u16. intros Hon Hv Hd.
  split; [| rewrite checkstate_regulate_mode, Hon, Hv; reflexivity].
  unfold checkstate_regulate, adjust_spec. rewrite Hon, Hv.
  destruct (Z.ltb_spec (amps m) (targetamps m)) as [Hlt | Hge].
  - destruct (Z.gtb_spec (loadduty m) 300) as [Hhi | Hlo]; cbn [andb].
    + state_simpl. apply u16_small. unfold is_u16. lia.
    + destruct (Z.gtb_spec (amps m) (targetamps m)); [lia | reflexivity].
  - cbn [andb].
    destruct (Z.gtb_spec (amps m) (targetamps m)) as [Hgt | Hle]; [| reflexivity].
    destruct (Z.ltb_spec (loadduty m) 1000) as [Hlo | Hhi]; cbn [andb].
    + state_simpl. apply u16_small. unfold is_u16. lia.
    + reflexivity.
Qed.

Lemma checkstate_adjust (s : state) (i : adc_inputs) :
  om s = OPMODE_ON ->
  is_u16 (loadduty s) ->
  lvc s <= volts (checkstate_measure s i) ->
  loadduty (checkstate s i)
  = adjust_spec (amps (checkstate_measure s i)) (targetamps s) (loadduty s)
  /\ om (checkstate s i) = OPMODE_ON.
Proof.
  intros Hon Hd Hv.
  destruct (checkstate_measure_frame s i) as (Eo & _ & El & Et & Ed & _).
  rewrite <- Et, <- Ed. unfold checkstate.
  apply checkstate_regulate_adjust.
  - rewrite Eo. exact Hon.
  - rewrite El. apply Z.ltb_ge. exact Hv.
  - rewrite Ed. exact Hd.
Qed.

(** The buttons only write the duty when they switch the load off. *)
Lemma checkbuttons_duty_kept (s : state) (pd : Z) :
  om s = OPMODE_ON ->
  om (checkbuttons s pd) = OPMODE_ON ->
  loadduty (checkbuttons s pd) = loadduty s.
Proof.
  intros Hon. unfold checkbuttons. cbv zeta.
  destruct (Z.land (u8 pd) (Z.shiftl 1 3) =? 0);
    destruct (Z.land (u8 pd) (Z.shiftl 1 7) =? 0);
    rewrite Hon; state_simpl; rewrite ?Hon;
    try match goal with |- context [if ?c then _ else _] => destruct c end;
    state_simpl; intros H; try discriminate H; reflexivity.
Qed.

Lemma mainloop_duty_kept (s : state) (i : inputs) :
  om (checkstate s (adc i)) = OPMODE_ON ->
  om (mainloop s i) = OPMODE_ON ->
  loadduty (mainloop s i) = loadduty (checkstate s (adc i)).
Proof.
  unfold mainloop. intros Hon Hend.
  destruct (updatedisplay_mode_duty
              (checkbuttons (sendstate (checkstate s (adc i))) (PD_IDR i)))
    as [Eo Ed].
  destruct (sendstate_mode_duty (checkstate s (adc i))) as [Eo' Ed'].
  rewrite Ed. rewrite Eo in Hend.
  rewrite checkbuttons_duty_kept; [exact Ed' | | exact Hend].
  rewrite Eo'. exact Hon.
Qed.

Lemma held_below_head (s : state) (i : inputs) (rest : list inputs) :
  held_below s (i :: rest) = true ->
  om s = OPMODE_ON
  /\ lvc s <= volts (checkstate_measure s (adc i))
  /\ amps (checkstate_measure s (adc i)) < targetamps s
  /\ held_below (mainloop s i) rest = true.
Proof.
  cbn [held_below]. cbv zeta.
  destruct (checkstate_measure_frame s (adc i)) as (_ & _ & El & Et & _).
  rewrite El, Et.
  intros H.
  apply andb_prop in H as [H H4]. apply andb_prop in H as [H H3].
  apply andb_prop in H as [H1 H2].
  apply operationmode_eqb_eq in H1. apply Z.ltb_lt in H3.
  apply negb_true_iff, Z.ltb_ge in H2.
  repeat split; assumption.
Qed.

Lemma adjust_spec_below (a t d : Z) :
  a < t -> 300 <= d -> adjust_spec a t d = Z.max 300 (d - 1).
Proof.
  intros Ha Hd. unfold adjust_spec.
  destruct (Z.ltb_spec a t); [| lia].
  destruct (Z.gtb_spec a t); [lia |].
  destruct (Z.gtb_spec d 300); cbn [andb]; lia.
Qed.

(** With the current held below the target, the duty written in the pass
    after [ins] is the start value less one per pass, but not below 300. *)
Lemma held_below_duty (ins : list inputs) :
  forall (s : state) (i : inputs) (d : Z),
  300 <= d < 65536 ->
  loadduty s = d ->
  held_below s (ins ++ [i]) = true ->
  loadduty (checkstate (run s ins) (adc i))
  = Z.max 300 (d - Z.of_nat (length ins) - 1)
  /\ om (checkstate (run s ins) (adc i)) = OPMODE_ON.
Proof.
  induction ins as [| i0 ins IH]; intros s i d Hd Hs Hheld.
  - cbn [app] in Hheld. apply held_below_head in Hheld as (Hon & Hv & Ha & _).
    cbn [run fold_left length].
    destruct (checkstate_adjust s (adc i) Hon) as [E Eo];
      [unfold is_u16; lia | exact Hv |].
    split; [| exact Eo].
    rewrite E, Hs, adjust_spec_below by lia.
    cbn [length]. lia.
  - cbn [app] in Hheld. apply held_below_head in Hheld as (Hon & Hv & Ha & Hrest).
    change (run s (i0 :: ins)) with (run (mainloop s i0) ins).
    destruct (checkstate_adjust s (adc i0) Hon) as [E Eo];
      [unfold is_u16; lia | exact Hv |].
    assert (Hon1 : om (mainloop s i0) = OPMODE_ON).
    { destruct ins; cbn [app] in Hrest; apply held_below_head in Hrest; tauto. }
    assert (Hd1 : loadduty (mainloop s i0) = Z.max 300 (d - 1)).
    { rewrite mainloop_duty_kept by assumption.
      rewrite E, Hs. apply adjust_spec_below; lia. }
    destruct (IH (mainloop s i0) i (Z.max 300 (d - 1))) as [R Ro];
      [lia | exact Hd1 | exact Hrest |].
    split; [| exact Ro].
    rewrite R. cbn [length]. lia.
Qed.

(** C3: in mode ON with the voltage not below the cutoff, one call of
    [checkstate] changes the duty by the bang-bang rule: one less when the
    current is below the target and the duty above 300, one more when it
    is above the target and the duty below 1000, unchanged otherwise.  With
    the current held below the target in every pass and the duty starting
    at 800, the duty after the [n]th pass is [800 - n] up to the 500th
    pass and 300 from then on. *)
Theorem bang_bang_regulation :
  (forall (s : state) (i : adc_inputs),
      om s = OPMODE_ON ->
      is_u16 (loadduty s) ->
      lvc s <= volts (checkstate_measure s i) ->
      loadduty (checkstate s i)
      = adjust_spec (amps (checkstate_measure s i)) (targetamps s) (loadduty s)
      /\ om (checkstate s i) = OPMODE_ON)
  /\ (forall (s : state) (ins : list inputs) (i : inputs),
      loadduty s = 800 ->
      held_below s (ins ++ [i]) = true ->
      let n := Z.of_nat (length (ins ++ [i])) in
      loadduty (checkstate (run s ins) (adc i))
      = (if n <=? 500 then 800 - n else 300)).
Proof.
  split; [exact checkstate_adjust |].
  intros s ins i Hs Hheld. cbv zeta.
  destruct (held_below_duty ins s i 800) as [R _]; [lia | exact Hs | exact Hheld |].
  rewrite R, length_app. cbn [length].
  destruct (Z.leb_spec (Z.of_nat (length ins + 1)) 500); lia.
Qed.

Lemma bang_bang_regulation_witness :
  loadduty (checkstate switched_on (adc_codes 0 0 0)) = 799
  /\ loadduty (checkstate (run switched_on (replicate 2 quiet_pass)) (adc quiet_pass)) = 797
  /\ loadduty (checkstate (run switched_on (replicate 509 quiet_pass)) (adc quiet_pass)) = 300.
Proof.
  destruct bang_bang_regulation as [Hstep Hrun].
  split; [| split].
  - destruct (Hstep switched_on (adc_codes 0 0 0)) as [E _].
    + vm_compute. reflexivity.
    + vm_compute. split; [discriminate | reflexivity].
    + vm_compute. discriminate.
    + rewrite E. vm_compute. reflexivity.
  - rewrite (Hrun switched_on (replicate 2 quiet_pass) quiet_pass);
      vm_compute; reflexivity.
  - rewrite (Hrun switched_on (replicate 509 quiet_pass) quiet_pass);
      vm_compute; reflexivity.
Defined.

(** * Further properties of the firmware *)

(** ** Registers *)

Lemma lor_high_low (q r n : Z) :
  0 <= n -> 0 <= r < 2 ^ n -> Z.lor (q * 2 ^ n) r = q * 2 ^ n + r.
Proof.
  intros Hn Hr.
  rewrite <- Z.lxor_lor, <- Z.add_nocarry_lxor; try reflexivity.
  all: apply Z.bits_inj_0; intros k; rewrite Z.land_spec;
    destruct (Z_lt_le_dec k n) as [Hk | Hk];
    [ destruct (Z_lt_le_dec k 0);
      [ rewrite Z.testbit_neg_r by lia; reflexivity
      | rewrite Z.mul_pow2_bits_low by lia; reflexivity ]
    | rewrite <- (Z.mod_small r (2 ^ n)) by lia;
      rewrite Z.mod_pow2_bits_high by lia; apply andb_false_r ].
Qed.

Lemma land_low_mask (x n : Z) : 0 <= n -> Z.land x (Z.ones n) = x mod 2 ^ n.
Proof. intros Hn. apply Z.land_ones. exact Hn. Qed.

Lemma land_high_mask (x n : Z) :
  0 <= n -> Z.land x (Z.lnot (Z.ones n)) = x / 2 ^ n * 2 ^ n.
Proof.
  intros Hn. rewrite <- Z.ldiff_land, Z.ldiff_ones_r by exact Hn.
  rewrite Z.shiftl_mul_pow2, Z.shiftr_div_pow2 by exact Hn. reflexivity.
Qed.

(** X1: [readadc] yields a ten bit code whatever the data registers hold,
    and with the upper eight bits of a conversion in the high register and
    the lower two in the low register it yields [4 * high + low]. *)
Theorem readadc_assembles (h l : Z) (r : adc_regs) :
  0 <= h < 256 -> 0 <= l < 4 ->
  readadc (mkAdc h l) = 4 * h + l
  /\ is_code10 (readadc (mkAdc h l))
  /\ is_code10 (readadc r).
Proof.
  intros Hh Hl.
  assert (E : readadc (mkAdc h l) = 4 * h + l).
  { unfold readadc. cbn [ADC_DRH ADC_DRL].
    rewrite (u8_small h), (u8_small l) by lia.
    rewrite (u16_small h) by (unfold is_u16; lia).
    rewrite Z.shiftl_mul_pow2 by lia.
    rewrite lor_high_low by (simpl; lia).
    change (2 ^ 2) with 4.
    rewrite u16_small by (unfold is_u16; lia). lia. }
  split; [exact E |]. split; apply readadc_code10.
Qed.

Lemma readadc_assembles_witness :
  readadc (mkAdc 255 3) = 1023 /\ readadc (mkAdc 128 1) = 513.
Proof.
  split.
  - rewrite (proj1 (readadc_assembles 255 3 (mkAdc 0 0) ltac:(lia) ltac:(lia))).
    reflexivity.
  - rewrite (proj1 (readadc_assembles 128 1 (mkAdc 0 0) ltac:(lia) ltac:(lia))).
    reflexivity.
Defined.

(** X2: for a channel number below eight, [setadcchan] leaves that number
    in the low three bits of the register and every other bit as it was. *)
Theorem setadcchan_selects (which csr : Z) :
  0 <= which < 8 ->
  Z.land (setadcchan which csr) 7 = which
  /\ Z.shiftr (setadcchan which csr) 3 = Z.shiftr (u8 csr) 3
  /\ 0 <= setadcchan which csr < 256.
Proof.
  intros Hw. unfold setadcchan. cbv zeta.
  pose proof (u8_range csr) as Hc.
  set (x := u8 csr) in *. clearbody x.
  change 7 with (Z.ones 3).
  rewrite land_high_mask by lia. change (2 ^ 3) with 8.
  assert (Hq : 0 <= x / 8 < 32).
  { split; [apply Z.div_pos; lia | apply Z.div_lt_upper_bound; lia]. }
  rewrite (u8_small (x / 8 * 8)) by lia.
  assert (E : u8 (Z.lor (x / 8 * 8) which) = x / 8 * 8 + which).
  { change (x / 8 * 8) with (x / 8 * 2 ^ 3).
    rewrite lor_high_low by (simpl; lia). change (2 ^ 3) with 8.
    apply u8_small. lia. }
  rewrite !E.
  rewrite land_low_mask by lia. change (2 ^ 3) with 8.
  rewrite !Z.shiftr_div_pow2 by lia. change (2 ^ 3) with 8.
  split; [| split; [| lia]].
  - rewrite Z.add_comm, Z.mod_add by lia. apply Z.mod_small. lia.
  - rewrite Z.add_comm, Z.div_add by lia. rewrite Z.div_small by lia. lia.
Qed.

Lemma setadcchan_selects_witness :
  Z.land (setadcchan 5 131) 7 = 5 /\ Z.shiftr (setadcchan 5 131) 3 = 16.
Proof.
  destruct (setadcchan_selects 5 131 ltac:(lia)) as (H1 & H2 & _).
  split; [exact H1 | rewrite H2; reflexivity].
Defined.

(** X3: [setloadduty] stores a 16 bit duty losslessly: the two halves of
    the compare register are bytes that recombine to the duty, the update
    event latches exactly that value, and the variable [loadduty] is not
    touched. *)
Theorem setloadduty_roundtrip (duty : Z) (s : state) :
  is_u16 duty ->
  TIM1_CCR1H (setloadduty duty s) * 256 + TIM1_CCR1L (setloadduty duty s) = duty
  /\ 0 <= TIM1_CCR1H (setloadduty duty s) < 256
  /\ 0 <= TIM1_CCR1L (setloadduty duty s) < 256
  /\ tim1_latched (setloadduty duty s) = tim1_latched s ++ [duty]
  /\ loadduty (setloadduty duty s) = loadduty s
  /\ om (setloadduty duty s) = om s.
Proof.
  unfold is_u16. intros Hd. unfold setloadduty. cbv zeta. state_simpl.
  change 255 with (Z.ones 8).
  rewrite !land_low_mask by lia.
  rewrite Z.shiftr_div_pow2 by lia. change (2 ^ 8) with 256.
  assert (Hq : 0 <= duty / 256 < 256).
  { split; [apply Z.div_pos; lia | apply Z.div_lt_upper_bound; lia]. }
  assert (Hr : 0 <= duty mod 256 < 256) by (apply Z.mod_pos_bound; lia).
  rewrite (Z.mod_small (duty / 256)) by lia.
  rewrite !u8_small by lia.
  assert (E : duty / 256 * 256 + duty mod 256 = duty)
    by (rewrite (Z.div_mod duty 256) at 3 by lia; lia).
  rewrite E. repeat split; lia.
Qed.

Lemma setloadduty_roundtrip_witness :
  TIM1_CCR1H (setloadduty 799 boot_state) * 256
    + TIM1_CCR1L (setloadduty 799 boot_state) = 799.
Proof.
  apply (setloadduty_roundtrip 799 boot_state). unfold is_u16. lia.
Defined.

(** X4: [turnonfan], [turnofffan] and [turnonled] change their own pin of
    port B and no other: bit 2 for the fan, bit 1 for the LED. *)
Theorem port_b_pins (s : state) (n : Z) :
  0 <= n < 8 ->
  Z.testbit (PB_ODR (turnonfan s)) n = (n =? 2) || Z.testbit (PB_ODR s) n
  /\ Z.testbit (PB_ODR (turnofffan s)) n = negb (n =? 2) && Z.testbit (PB_ODR s) n
  /\ Z.testbit (PB_ODR (turnonled s)) n = (n =? 1) || Z.testbit (PB_ODR s) n.
Proof.
  intros Hn. state_simpl. unfold u8. change 256 with (2 ^ 8).
  rewrite !Z.mod_pow2_bits_low by lia.
  rewrite !Z.lor_spec, Z.land_spec, Z.lnot_spec by lia.
  change (Z.shiftl 1 2) with (2 ^ 2). change (Z.shiftl 1 1) with (2 ^ 1).
  rewrite !Z.pow2_bits_eqb by lia.
  rewrite (Z.eqb_sym 2 n), (Z.eqb_sym 1 n).
  repeat split.
  - apply orb_comm.
  - apply andb_comm.
  - apply orb_comm.
Qed.

Lemma port_b_pins_witness :
  Z.testbit (PB_ODR (turnofffan boot_state)) 1 = true
  /\ Z.testbit (PB_ODR (turnofffan boot_state)) 2 = false.
Proof.
  split.
  - rewrite (proj1 (proj2 (port_b_pins boot_state 1 ltac:(lia)))). reflexivity.
  - rewrite (proj1 (proj2 (port_b_pins boot_state 2 ltac:(lia)))). reflexivity.
Defined.

(** ** [split] in general *)

Lemma digits_of_lookup (d : nat) :
  forall (v : Z) (k : nat), (k < d)%nat ->
  digits_of v d !! k = Some ((v / 10 ^ Z.of_nat (d - 1 - k)) mod 10).
Proof.
  induction d as [| d IH]; intros v k Hk; [lia |].
  cbn [digits_of].
  destruct (Nat.eq_dec k d) as [-> | Hne].
  - rewrite lookup_app_r by (rewrite length_digits_of; lia).
    rewrite length_digits_of, Nat.sub_diag.
    replace (S d - 1 - d)%nat with 0%nat by lia.
    change (10 ^ Z.of_nat 0) with 1. rewrite Z.div_1_r. reflexivity.
  - rewrite lookup_app_l by (rewrite length_digits_of; lia).
    rewrite IH by lia. f_equal.
    rewrite Z.div_div by lia.
    replace (Z.of_nat (S d - 1 - k)) with (Z.of_nat (d - 1 - k) + 1) by lia.
    rewrite Z.pow_add_r by lia. rewrite (Z.mul_comm 10). reflexivity.
Qed.

Lemma digits_of_range (d : nat) (v : Z) :
  Forall (fun x => 0 <= x <= 9) (digits_of v d).
Proof.
  revert v. induction d as [| d IH]; intros v; [constructor |].
  cbn [digits_of]. apply Forall_app. split; [apply IH |].
  constructor; [| constructor].
  assert (0 <= v mod 10 < 10) by (apply Z.mod_pos_bound; lia). lia.
Qed.

Lemma digits_value_snoc (l : list Z) (x : Z) :
  digits_value (l ++ [x]) = digits_value l * 10 + x.
Proof. unfold digits_value. rewrite fold_left_app. reflexivity. Qed.

Lemma digits_value_digits_of (d : nat) :
  forall v : Z, digits_value (digits_of v d) = v mod 10 ^ Z.of_nat d.
Proof.
  induction d as [| d IH]; intros v.
  - cbn. rewrite Z.mod_1_r. reflexivity.
  - cbn [digits_of]. rewrite digits_value_snoc, IH.
    replace (Z.of_nat (S d)) with (1 + Z.of_nat d) by lia.
    rewrite Z.pow_add_r by lia. change (10 ^ 1) with 10.
    rewrite Z.rem_mul_r by (try apply Z.pow_nonzero; lia). lia.
Qed.

(** X5: for a 16 bit value and a buffer of at least [digits] cells,
    [split] writes the last [digits] decimal digits of the value into the
    first [digits] cells, most significant first, whatever they held, and
    leaves every later cell alone. *)
Theorem split_writes_digits (v : Z) (b : list Z) (d : nat) :
  is_u16 v -> (d <= length b)%nat ->
  length (split v b d) = length b
  /\ drop d (split v b d) = drop d b
  /\ Forall (fun x => 0 <= x <= 9) (take d (split v b d))
  /\ (forall k : nat, (k < d)%nat ->
        split v b d !! k = Some ((v / 10 ^ Z.of_nat (d - 1 - k)) mod 10)).
Proof.
  intros Hv Hd. rewrite (split_spec d v b Hv Hd).
  split; [| split; [| split]].
  - rewrite length_app, length_digits_of, length_drop. lia.
  - rewrite drop_app_length' by (rewrite length_digits_of; reflexivity). reflexivity.
  - rewrite take_app_length' by (rewrite length_digits_of; reflexivity). apply digits_of_range.
  - intros k Hk. rewrite lookup_app_l by (rewrite length_digits_of; lia).
    apply digits_of_lookup. exact Hk.
Qed.

Lemma split_writes_digits_witness :
  drop 3 (split 12345 [7; 7; 7; 7; 7] 3) = [7; 7]
  /\ split 12345 [7; 7; 7; 7; 7] 3 !! 0%nat = Some 3.
Proof.
  destruct (split_writes_digits 12345 [7; 7; 7; 7; 7] 3) as (_ & H2 & _ & H4).
  - unfold is_u16. lia.
  - simpl. lia.
  - split; [exact H2 |]. rewrite (H4 0%nat) by lia. reflexivity.
Defined.

(** X6: the cells [split] wrote, read as a decimal number, give the value
    modulo [10 ^ digits]: the value itself when it has at most [digits]
    digits, which six cells guarantee for every 16 bit value, and its low
    digits otherwise. *)
Theorem split_value (v : Z) (b : list Z) (d : nat) :
  is_u16 v -> (d <= length b)%nat ->
  digits_value (take d (split v b d)) = v mod 10 ^ Z.of_nat d
  /\ (v < 10 ^ Z.of_nat d -> digits_value (take d (split v b d)) = v)
  /\ digits_value (split v (replicate 6 0) 6) = v.
Proof.
  intros Hv Hd.
  assert (E : forall (b' : list Z) (d' : nat), (d' <= length b')%nat ->
              digits_value (take d' (split v b' d')) = v mod 10 ^ Z.of_nat d').
  { intros b' d' Hd'. rewrite (split_spec d' v b' Hv Hd').
    rewrite take_app_length' by (rewrite length_digits_of; reflexivity).
    apply digits_value_digits_of. }
  unfold is_u16 in Hv.
  split; [apply E; exact Hd |]. split.
  - intros Hs. rewrite E by exact Hd. apply Z.mod_small. lia.
  - rewrite <- (take_ge (split v (replicate 6 0) 6) 6).
    + rewrite E by (rewrite length_replicate; lia).
      apply Z.mod_small. simpl. lia.
    + rewrite (split_spec 6 v (replicate 6 0)); [| unfold is_u16; lia |].
      * rewrite length_app, length_digits_of, length_drop, length_replicate. lia.
      * rewrite length_replicate. lia.
Qed.

Lemma split_value_witness :
  digits_value (take 3 (split 12345 [0; 0; 0] 3)) = 345
  /\ digits_value (split 12345 (replicate 6 0) 6) = 12345.
Proof.
  destruct (split_value 12345 [0; 0; 0] 3) as (H1 & _ & H3).
  - unfold is_u16. lia.
  - simpl. lia.
  - split; [rewrite H1; reflexivity | exact H3].
Defined.

(** ** Telemetry is lossless *)

Lemma digit_char_code (d : Z) :
  0 <= d <= 9 -> Z.of_N (N_of_ascii (digit_char d)) = d + 48.
Proof.
  intros Hd. unfold digit_char.
  rewrite u8_small by lia.
  rewrite N_ascii_embedding by lia.
  apply Z2N.id. lia.
Qed.

Lemma decode_digit_chars (l : list Z) :
  Forall (fun x => 0 <= x <= 9) l ->
  map (fun c => Z.of_N (N_of_ascii c) - 48) (map digit_char l) = l.
Proof.
  induction 1 as [| x l Hx _ IH]; [reflexivity |].
  cbn [map]. rewrite IH, digit_char_code by exact Hx.
  f_equal. lia.
Qed.

Lemma decimal6_digits_of (v : Z) : decimal6 v = map digit_char (digits_of v 6).
Proof. unfold decimal6. rewrite digits_of_6. reflexivity. Qed.

(** X7: a 16 bit value is transmitted by [splitandprintvalue] as exactly
    six characters, each a decimal digit, and reading them back as a
    decimal number gives the value: no field of the telemetry line loses
    information. *)
Theorem telemetry_field_lossless (v : Z) (s : state) :
  is_u16 v ->
  uart_tx (splitandprintvalue v s) = uart_tx s ++ decimal6 v
  /\ length (decimal6 v) = 6%nat
  /\ Forall is_digit_char (decimal6 v)
  /\ decode_field (decimal6 v) = v.
Proof.
  intros Hv.
  split; [rewrite splitandprintvalue_spec by exact Hv; reflexivity |].
  split; [reflexivity |].
  rewrite decimal6_digits_of.
  split.
  - apply Forall_map. eapply Forall_impl; [apply digits_of_range |].
    intros x Hx. unfold is_digit_char, compose.
    rewrite digit_char_code by exact Hx. cbv beta in Hx. lia.
  - unfold decode_field.
    rewrite decode_digit_chars by apply digits_of_range.
    rewrite digits_value_digits_of.
    unfold is_u16 in Hv. change (10 ^ Z.of_nat 6) with 1000000.
    apply Z.mod_small. lia.
Qed.

Lemma telemetry_field_lossless_witness :
  decode_field (decimal6 65535) = 65535
  /\ uart_tx (splitandprintvalue 65535 boot_state)
     = uart_tx boot_state ++ decimal6 65535.
Proof.
  destruct (telemetry_field_lossless 65535 boot_state) as (H1 & _ & _ & H4).
  - unfold is_u16. lia.
  - split; [exact H4 | exact H1].
Defined.

Lemma mainloop_tx (s : state) (i : inputs) :
  state_ok s ->
  uart_tx (mainloop s i) = uart_tx s ++ telemetry_line (checkstate s (adc i)).
Proof.
  intros Hs. unfold mainloop. rewrite updatedisplay_tx, checkbuttons_tx.
  rewrite sendstate_spec by (apply checkstate_ok; exact Hs).
  state_simpl. rewrite checkstate_tx. reflexivity.
Qed.

Lemma telemetry_line_length (s : state) :
  length (telemetry_line s) = (44 + String.length (mode_name (om s)))%nat.
Proof.
  unfold telemetry_line. rewrite !length_app.
  change (length comma) with 1%nat.
  change (length [CR; LF]) with 2%nat.
  change (length (decimal6 ?x)) with 6%nat.
  destruct (om s); reflexivity.
Qed.

(** X8: over any run of the loop the UART receives one telemetry line per
    pass, in order and nothing else; a line is 46 characters long in mode
    ON and 47 in the other modes. *)
Theorem telemetry_stream (s : state) (ins : list inputs) :
  state_ok s ->
  uart_tx (run s ins) = uart_tx s ++ run_lines s ins
  /\ length (telemetry_line s) = (44 + String.length (mode_name (om s)))%nat
  /\ (46 * length ins <= length (run_lines s ins) <= 47 * length ins)%nat.
Proof.
  intros Hs.
  split; [| split; [apply telemetry_line_length |]].
  - revert s Hs. induction ins as [| i ins IH]; intros s Hs.
    + cbn. rewrite app_nil_r. reflexivity.
    + change (run s (i :: ins)) with (run (mainloop s i) ins).
      rewrite IH by (apply mainloop_ok; exact Hs).
      rewrite mainloop_tx by exact Hs.
      cbn [run_lines]. rewrite app_assoc. reflexivity.
  - clear Hs. revert s. induction ins as [| i ins IH]; intros s; [cbn; lia |].
    cbn [run_lines length]. rewrite length_app, telemetry_line_length.
    specialize (IH (mainloop s i)).
    destruct (om (checkstate s (adc i))); cbn [mode_name String.length]; lia.
Qed.

Lemma telemetry_stream_witness :
  uart_tx (run boot_state [quiet_pass; quiet_pass])
  = uart_tx boot_state ++ run_lines boot_state [quiet_pass; quiet_pass].
Proof.
  apply (telemetry_stream boot_state [quiet_pass; quiet_pass] boot_state_ok).
Defined.

(** ** Invariants of the loop *)

(** X9: in every state the firmware reaches, the sample cursor is below
    twelve and each window has twelve slots holding ten bit codes, so the
    three array writes of [checkstate] are always in bounds; the measured
    values and the duty fit 16 bits. *)
Theorem cursor_stays_in_bounds (s : state) :
  reachable s ->
  0 <= sample s < 12
  /\ (Z.to_nat (sample s) < length (shuntsamples s))%nat
  /\ (Z.to_nat (sample s) < length (voltsamples s))%nat
  /\ (Z.to_nat (sample s) < length (volthighgainsamples s))%nat
  /\ Forall is_code10 (shuntsamples s ++ voltsamples s ++ volthighgainsamples s)
  /\ is_u16 (volts s) /\ is_u16 (amps s) /\ is_u16 (watts s) /\ is_u16 (loadduty s).
Proof.
  intros Hr. destruct (reachable_ok s Hr)
    as [_ _ Hv Ha Hw Hd [Lv Fv] [Ls Fs] [Lh Fh] Hc].
  unfold SAMPLES in *. change (Z.of_nat 12) with 12 in Hc.
  split; [exact Hc |].
  split; [rewrite Ls; lia |]. split; [rewrite Lv; lia |].
  split; [rewrite Lh; lia |].
  split; [repeat (apply Forall_app; split); assumption |].
  split; [exact Hv |]. split; [exact Ha |]. split; [exact Hw | exact Hd].
Qed.

Lemma cursor_stays_in_bounds_witness :
  0 <= sample (steady_state 1 2 3) < 12
  /\ (Z.to_nat (sample (steady_state 1 2 3)) < length (shuntsamples (steady_state 1 2 3)))%nat.
Proof.
  destruct (cursor_stays_in_bounds (steady_state 1 2 3)) as (H1 & H2 & _).
  - apply reachable_run, reachable_boot.
  - split; [exact H1 | exact H2].
Defined.

Lemma highgainvolts_of_range (h : Z) :
  is_code10 h ->
  highgainvolts_of h <= 6629 \/ 65516 <= highgainvolts_of h.
Proof.
  intros Hh. rewrite highgainvolts_of_code10 by exact Hh.
  unfold is_code10 in Hh.
  assert (Hq : 0 <= h * 65 / 10 <= 6649).
  { split; [apply Z.div_pos; lia |].
    apply Z.lt_succ_r. apply Z.div_lt_upper_bound; lia. }
  destruct (Z_lt_le_dec (h * 65 / 10) 20) as [Hlo | Hhi].
  - right. rewrite u16_wraps_negative by lia. lia.
  - left. rewrite u16_small by (unfold is_u16; lia). lia.
Qed.

Lemma checkstate_measure_bounds (s : state) (i : adc_inputs) :
  state_ok s ->
  0 <= amps (checkstate_measure s i) <= 3478
  /\ (if highgain (checkstate_measure s i)
      then volts (checkstate_measure s i) <= 6629
           \/ 65516 <= volts (checkstate_measure s i)
      else 6000 < volts (checkstate_measure s i) <= 20460).
Proof.
  intros Hs.
  destruct (checkstate_measure_windows_ok s i Hs) as (Hws & Hwv & Hwh).
  destruct (checkstate_measure_fields s i) as (_ & _ & _ & _ & Ea & Eg & Ev & _).
  pose proof (window_mean_code10 _ Hws) as Hms.
  pose proof (window_mean_code10 _ Hwv) as Hmv.
  pose proof (window_mean_code10 _ Hwh) as Hmh.
  rewrite lowgainvolts_of_code10 in Eg, Ev by exact Hmv.
  split.
  - rewrite Ea, amps_of_code10 by exact Hms. unfold is_code10 in Hms.
    split; [apply Z.div_pos; lia |].
    apply Z.lt_succ_r. apply Z.div_lt_upper_bound; lia.
  - rewrite Ev. destruct (highgain (checkstate_measure s i)).
    + apply highgainvolts_of_range. exact Hmh.
    + symmetry in Eg. apply Z.leb_gt in Eg. unfold is_code10 in Hmv. lia.
Qed.

(** X10: whatever the converter delivers, a running firmware never holds
    a current above 3478 mA, and its voltage is at most 20460 mV or one of
    the wrapped values from 65516 up: on the high gain path at most 6629 or
    wrapped, on the low gain path between 6001 and 20460. *)
Theorem measurement_range (s : state) :
  reachable s ->
  0 <= amps s <= 3478
  /\ (volts s <= 20460 \/ 65516 <= volts s)
  /\ (if highgain s
      then volts s <= 6629 \/ 65516 <= volts s
      else volts s = 0 \/ 6000 < volts s <= 20460).
Proof.
  induction 1 as [| s i Hr _].
  - change (amps boot_state) with 0. change (volts boot_state) with 0.
    change (highgain boot_state) with false.
    split; [lia |]. split; left; [lia | reflexivity].
  - pose proof (mainloop_sensing s i) as Hsens. unfold same_sensing in Hsens.
    destruct Hsens as (_ & _ & _ & _ & Ev & Ea & _ & Eg & _).
    rewrite Ev, Ea, Eg.
    destruct (checkstate_measure_bounds s (adc i) (reachable_ok s Hr)) as [Ha Hv].
    split; [exact Ha |].
    destruct (highgain (checkstate_measure s (adc i))).
    + split; [| exact Hv]. destruct Hv as [Hv | Hv]; [left; lia | right; exact Hv].
    + split; [left; lia | right; exact Hv].
Qed.

Lemma measurement_range_witness :
  0 <= amps (steady_state 1023 1023 1023) <= 3478
  /\ (volts (steady_state 1023 1023 1023) <= 20460
      \/ 65516 <= volts (steady_state 1023 1023 1023)).
Proof.
  destruct (measurement_range (steady_state 1023 1023 1023)) as (H1 & H2 & _).
  - apply reachable_run, reachable_boot.
  - split; [exact H1 | exact H2].
Defined.

Lemma setloadduty_latches (duty : Z) (s : state) :
  is_u16 duty -> tim1_latched (setloadduty duty s) = tim1_latched s ++ [duty].
Proof.
  unfold is_u16. intros Hd. unfold setloadduty. cbv zeta. state_simpl.
  change 255 with (Z.ones 8).
  rewrite !land_low_mask by lia.
  rewrite Z.shiftr_div_pow2 by lia. change (2 ^ 8) with 256.
  assert (Hq : 0 <= duty / 256 < 256).
  { split; [apply Z.div_pos; lia | apply Z.div_lt_upper_bound; lia]. }
  assert (Hr : 0 <= duty mod 256 < 256) by (apply Z.mod_pos_bound; lia).
  rewrite (Z.mod_small (duty / 256)) by lia.
  rewrite !u8_small by lia.
  assert (E : duty / 256 * 256 + duty mod 256 = duty)
    by (rewrite (Z.div_mod duty 256) at 3 by lia; lia).
  rewrite E. reflexivity.
Qed.

(** ** The regulator *)

(** A duty written by the regulator: the variable and then the timer. *)
Lemma regulator_write (x : Z) (m : state) :
  is_u16 x ->
  loadduty (setloadduty (loadduty (set_loadduty x m)) (set_loadduty x m)) = x
  /\ tim1_latched (setloadduty (loadduty (set_loadduty x m)) (set_loadduty x m))
     = tim1_latched m ++ [x].
Proof.
  intros Hx. change (loadduty (set_loadduty x m)) with x.
  rewrite setloadduty_latches by exact Hx. split; reflexivity.
Qed.

Lemma checkstate_regulate_holds (m : state) :
  om m = OPMODE_ON ->
  (volts m <? lvc m) = false ->
  is_u16 (loadduty m) ->
  let d := loadduty m in
  let d' := loadduty (checkstate_regulate m) in
  d - 1 <= d' <= d + 1
  /\ (300 <= d <= 1000 -> 300 <= d' <= 1000)
  /\ tim1_latched (checkstate_regulate m)
     = (if d' =? d then tim1_latched m else tim1_latched m ++ [d']).
Proof.
  unfold is_u16. intros Hon Hv Hd. cbv zeta.
  unfold checkstate_regulate. rewrite Hon, Hv.
  destruct (Z.ltb_spec (amps m) (targetamps m)) as [Hlt | Hge].
  - destruct (Z.gtb_spec (loadduty m) 300) as [Hhi | Hlo].
    + cbv zeta. rewrite (u16_small (loadduty m - 1)) by (unfold is_u16; lia).
      destruct (regulator_write (loadduty m - 1) m) as [-> ->];
        [unfold is_u16; lia |].
      destruct (Z.eqb_spec (loadduty m - 1) (loadduty m)); [lia |].
      split; [lia |]. split; [lia | reflexivity].
    + rewrite Z.eqb_refl. split; [lia |]. split; [lia | reflexivity].
  - destruct (Z.gtb_spec (amps m) (targetamps m)) as [Hgt | Hle];
      [| rewrite Z.eqb_refl; split; [lia |]; split; [lia | reflexivity]].
    destruct (Z.ltb_spec (loadduty m) 1000) as [Hlo | Hhi];
      [| rewrite Z.eqb_refl; split; [lia |]; split; [lia | reflexivity]].
    cbv zeta. rewrite (u16_small (loadduty m + 1)) by (unfold is_u16; lia).
    destruct (regulator_write (loadduty m + 1) m) as [-> ->];
      [unfold is_u16; lia |].
    destruct (Z.eqb_spec (loadduty m + 1) (loadduty m)); [lia |].
    split; [lia |]. split; [lia | reflexivity].
Qed.

(** X11: while the load is on and the voltage is not below the cutoff, one
    call of [checkstate] moves the duty by at most one, keeps a duty that
    is between 300 and 1000 in that band, and writes the timer exactly
    when the duty changed, with the new duty. *)
Theorem regulator_slew_and_band (s : state) (i : adc_inputs) :
  om s = OPMODE_ON ->
  is_u16 (loadduty s) ->
  lvc s <= volts (checkstate_measure s i) ->
  loadduty s - 1 <= loadduty (checkstate s i) <= loadduty s + 1
  /\ (300 <= loadduty s <= 1000 -> 300 <= loadduty (checkstate s i) <= 1000)
  /\ tim1_latched (checkstate s i)
     = (if loadduty (checkstate s i) =? loadduty s
        then tim1_latched s
        else tim1_latched s ++ [loadduty (checkstate s i)]).
Proof.
  intros Hon Hd Hv.
  destruct (checkstate_measure_frame s i) as (Eo & _ & El & _ & Ed & Ela & _).
  unfold checkstate. rewrite <- Ed, <- Ela.
  apply checkstate_regulate_holds.
  - rewrite Eo. exact Hon.
  - rewrite El. apply Z.ltb_ge. exact Hv.
  - rewrite Ed. exact Hd.
Qed.

Lemma regulator_slew_and_band_witness :
  loadduty switched_on - 1 <= loadduty (checkstate switched_on (adc_codes 0 0 0))
    <= loadduty switched_on + 1
  /\ tim1_latched (checkstate switched_on (adc_codes 0 0 0))
     = tim1_latched switched_on ++ [799].
Proof.
  destruct (regulator_slew_and_band switched_on (adc_codes 0 0 0)) as (H1 & _ & H3).
  - vm_compute. reflexivity.
  - vm_compute. split; [discriminate | reflexivity].
  - vm_compute. discriminate.
  - split; [exact H1 |]. rewrite H3. vm_compute. reflexivity.
Defined.

(** X12: outside mode ON [checkstate] only measures: the mode, the duty,
    the compare register and the values latched stay as they were,
    whatever the inputs; in particular a low voltage trips nothing while
    the load is off. *)
Theorem regulator_idle_outside_on (s : state) (i : adc_inputs) :
  om s <> OPMODE_ON ->
  om (checkstate s i) = om s
  /\ loadduty (checkstate s i) = loadduty s
  /\ tim1_latched (checkstate s i) = tim1_latched s
  /\ TIM1_CCR1H (checkstate s i) = TIM1_CCR1H s
  /\ TIM1_CCR1L (checkstate s i) = TIM1_CCR1L s.
Proof.
  intros Hoff.
  destruct (checkstate_measure_frame s i)
    as (Eo & _ & _ & _ & Ed & Ela & Eh & Elo & _).
  unfold checkstate. rewrite <- Eo, <- Ed, <- Ela, <- Eh, <- Elo.
  rewrite <- Eo in Hoff.
  set (m := checkstate_measure s i) in *. clearbody m.
  unfold checkstate_regulate.
  destruct (om m) eqn:E; try (exfalso; apply Hoff; reflexivity);
    (split; [exact E | repeat split]).
Qed.

Lemma regulator_idle_outside_on_witness :
  om (checkstate boot_state (adc_codes 0 0 1023)) = om boot_state
  /\ loadduty (checkstate boot_state (adc_codes 0 0 1023)) = loadduty boot_state.
Proof.
  destruct (regulator_idle_outside_on boot_state (adc_codes 0 0 1023)) as (H1 & H2 & _).
  - vm_compute. discriminate.
  - split; [exact H1 | exact H2].
Defined.

Lemma held_above_head (s : state) (i : inputs) (rest : list inputs) :
  held_above s (i :: rest) = true ->
  om s = OPMODE_ON
  /\ lvc s <= volts (checkstate_measure s (adc i))
  /\ targetamps s < amps (checkstate_measure s (adc i))
  /\ held_above (mainloop s i) rest = true.
Proof.
  cbn [held_above]. cbv zeta.
  destruct (checkstate_measure_frame s (adc i)) as (_ & _ & El & Et & _).
  rewrite El, Et.
  intros H.
  apply andb_prop in H as [H H4]. apply andb_prop in H as [H H3].
  apply andb_prop in H as [H1 H2].
  apply operationmode_eqb_eq in H1.
  apply Z.gtb_lt in H3.
  apply negb_true_iff, Z.ltb_ge in H2.
  repeat split; assumption.
Qed.

Lemma adjust_spec_above (a t d : Z) :
  t < a -> d <= 1000 -> adjust_spec a t d = Z.min 1000 (d + 1).
Proof.
  intros Ha Hd. unfold adjust_spec.
  destruct (Z.ltb_spec a t); [lia |].
  destruct (Z.gtb_spec a t); [| lia].
  destruct (Z.ltb_spec d 1000); cbn [andb]; lia.
Qed.

Lemma held_above_duty (ins : list inputs) :
  forall (s : state) (i : inputs) (d : Z),
  0 <= d <= 1000 ->
  loadduty s = d ->
  held_above s (ins ++ [i]) = true ->
  loadduty (checkstate (run s ins) (adc i))
  = Z.min 1000 (d + Z.of_nat (length ins) + 1).
Proof.
  induction ins as [| i0 ins IH]; intros s i d Hd Hs Hheld.
  - cbn [app] in Hheld. apply held_above_head in Hheld as (Hon & Hv & Ha & _).
    cbn [run fold_left length].
    destruct (checkstate_adjust s (adc i) Hon) as [E _];
      [unfold is_u16; lia | exact Hv |].
    rewrite E, Hs, adjust_spec_above by lia. lia.
  - cbn [app] in Hheld. apply held_above_head in Hheld as (Hon & Hv & Ha & Hrest).
    change (run s (i0 :: ins)) with (run (mainloop s i0) ins).
    destruct (checkstate_adjust s (adc i0) Hon) as [E Eo];
      [unfold is_u16; lia | exact Hv |].
    assert (Hon1 : om (mainloop s i0) = OPMODE_ON).
    { destruct ins; cbn [app] in Hrest; apply held_above_head in Hrest; tauto. }
    assert (Hd1 : loadduty (mainloop s i0) = Z.min 1000 (d + 1)).
    { rewrite mainloop_duty_kept by assumption.
      rewrite E, Hs. apply adjust_spec_above; lia. }
    rewrite (IH (mainloop s i0) i (Z.min 1000 (d + 1))); [| lia | exact Hd1 | exact Hrest].
    cbn [length]. lia.
Qed.

(** X13: with the current held above the target in every pass, the duty
    rises by one per pass from any start value up to 1000 and stays at
    1000: after the [n]th pass it is the smaller of 1000 and the start
    value plus [n]. *)
Theorem duty_rises_to_upper_clamp (s : state) (ins : list inputs) (i : inputs) :
  0 <= loadduty s <= 1000 ->
  held_above s (ins ++ [i]) = true ->
  loadduty (checkstate (run s ins) (adc i))
  = Z.min 1000 (loadduty s + Z.of_nat (length (ins ++ [i]))).
Proof.
  intros Hd Hheld.
  rewrite (held_above_duty ins s i (loadduty s) Hd eq_refl Hheld).
  rewrite length_app. cbn [length]. f_equal. lia.
Qed.

Lemma duty_rises_to_upper_clamp_witness :
  loadduty (checkstate (run switched_on_loaded (replicate 2 loaded_pass)) (adc loaded_pass))
  = 803
  /\ loadduty (checkstate (run switched_on_loaded (replicate 209 loaded_pass)) (adc loaded_pass))
     = 1000.
Proof.
  split.
  - rewrite (duty_rises_to_upper_clamp switched_on_loaded (replicate 2 loaded_pass) loaded_pass).
    + vm_compute. reflexivity.
    + vm_compute. split; discriminate.
    + vm_compute. reflexivity.
  - rewrite (duty_rises_to_upper_clamp switched_on_loaded (replicate 209 loaded_pass) loaded_pass).
    + vm_compute. reflexivity.
    + vm_compute. split; discriminate.
    + vm_compute. reflexivity.
Defined.

(** ** Buttons and modes over whole passes *)

(** What [checkbuttons] does to mode, display mode, duty and timer. *)
Lemma checkbuttons_fields (s : state) (pd : Z) :
  om (checkbuttons s pd)
  = match om s with
    | OPMODE_OFF => if start_down pd then OPMODE_ON else OPMODE_OFF
    | OPMODE_ON => if start_down pd then OPMODE_OFF else OPMODE_ON
    | OPMODE_LVC => if mode_down pd then OPMODE_OFF else OPMODE_LVC
    | OPMODE_SET => OPMODE_SET
    end
  /\ dm (checkbuttons s pd)
     = (if mode_down pd
           && match om s with
              | OPMODE_OFF => negb (start_down pd)
              | OPMODE_ON => start_down pd
              | _ => false
              end
        then next_displaymode (dm s) else dm s)
  /\ loadduty (checkbuttons s pd)
     = (if start_down pd && operationmode_eqb (om s) OPMODE_ON
        then 1025 else loadduty s)
  /\ tim1_latched (checkbuttons s pd)
     = (if start_down pd && operationmode_eqb (om s) OPMODE_ON
        then tim1_latched s ++ [1025] else tim1_latched s).
Proof.
  unfold checkbuttons, start_down, mode_down, next_displaymode. cbv zeta.
  destruct (Z.land (u8 pd) (Z.shiftl 1 3) =? 0);
    destruct (Z.land (u8 pd) (Z.shiftl 1 7) =? 0);
    destruct (om s) eqn:Eom; state_simpl; rewrite ?Eom;
    cbn [andb negb operationmode_eqb];
    try match goal with |- context [if ?c then _ else _] => destruct c end;
    state_simpl; rewrite ?Eom; repeat split.
Qed.

Lemma checkbuttons_emit (cs : list ascii) (s : state) (pd : Z) :
  checkbuttons (emit cs s) pd = emit cs (checkbuttons s pd).
Proof.
  unfold checkbuttons, emit. cbv zeta.
  destruct (Z.land (u8 pd) (Z.shiftl 1 3) =? 0);
    destruct (Z.land (u8 pd) (Z.shiftl 1 7) =? 0);
    state_simpl;
    destruct (om s) eqn:Eom; state_simpl; rewrite ?Eom;
    try match goal with |- context [if ?c then _ else _] => destruct c end;
    reflexivity.
Qed.

(** Mode, display mode, duty and timer at the end of a pass are those
    [checkbuttons] leaves when run right after [checkstate]. *)
Lemma mainloop_fields (s : state) (i : inputs) :
  om (mainloop s i) = om (checkbuttons (checkstate s (adc i)) (PD_IDR i))
  /\ dm (mainloop s i) = dm (checkbuttons (checkstate s (adc i)) (PD_IDR i))
  /\ loadduty (mainloop s i)
     = loadduty (checkbuttons (checkstate s (adc i)) (PD_IDR i))
  /\ tim1_latched (mainloop s i)
     = tim1_latched (checkbuttons (checkstate s (adc i)) (PD_IDR i)).
Proof.
  unfold mainloop.
  set (c := checkstate s (adc i)). clearbody c.
  destruct (sendstate_tx_only c) as [cs ->].
  rewrite checkbuttons_emit.
  set (b := checkbuttons c (PD_IDR i)). clearbody b.
  destruct (updatedisplay_display_only (emit cs b)) as (p & -> & _).
  repeat split.
Qed.

Lemma checkstate_dm (s : state) (i : adc_inputs) : dm (checkstate s i) = dm s.
Proof.
  destruct (checkstate_measure_frame s i) as (_ & <- & _).
  unfold checkstate.
  set (m := checkstate_measure s i). clearbody m.
  unfold checkstate_regulate.
  destruct (om m);
    repeat match goal with
           | |- context [if ?c then _ else _] => destruct c
           end; reflexivity.
Qed.

(** The mode [checkstate] leaves: only ON can change, to LVC. *)
Lemma checkstate_mode (s : state) (i : adc_inputs) :
  om (checkstate s i)
  = match om s with
    | OPMODE_ON =>
        if volts (checkstate_measure s i) <? lvc s then OPMODE_LVC else OPMODE_ON
    | o => o
    end.
Proof.
  destruct (checkstate_measure_frame s i) as (Eo & _ & El & _).
  unfold checkstate. rewrite checkstate_regulate_mode, Eo, El. reflexivity.
Qed.

Lemma next_displaymode_range (d : Z) :
  0 <= d < 4 -> 0 <= next_displaymode d < 4 /\ next_displaymode d = (d + 1) mod 4.
Proof.
  intros Hd. unfold next_displaymode, DISPMODE_END.
  destruct (Z.eqb_spec (d + 1) 4) as [E | E].
  - rewrite E. split; [lia | reflexivity].
  - rewrite Z.mod_small by lia. lia.
Qed.

(** X14: the firmware never enters the mode SET, and its display mode is
    always one of the four VOLTS, AMPS, AMPHOURS, WATTS, so the [switch] of
    [updatedisplay] always finds its case. *)
Theorem set_mode_unreachable (s : state) :
  reachable s ->
  om s <> OPMODE_SET /\ 0 <= dm s < DISPMODE_END.
Proof.
  unfold DISPMODE_END.
  induction 1 as [| s i _ [IHo IHd]].
  - split; [discriminate | vm_compute; split; [discriminate | reflexivity]].
  - destruct (mainloop_fields s i) as (-> & -> & _).
    destruct (checkbuttons_fields (checkstate s (adc i)) (PD_IDR i))
      as (-> & -> & _).
    rewrite checkstate_dm, checkstate_mode.
    split.
    + destruct (om s); try contradiction;
        repeat match goal with
               | |- context [if ?c then _ else _] => destruct c
               end; discriminate.
    + destruct (_ && _); [apply next_displaymode_range; exact IHd | exact IHd].
Qed.

Lemma set_mode_unreachable_witness :
  om (steady_state 1 2 3) <> OPMODE_SET /\ 0 <= dm (steady_state 1 2 3) < DISPMODE_END.
Proof.
  apply (set_mode_unreachable (steady_state 1 2 3)).
  apply reachable_run, reachable_boot.
Defined.

(** Outside ON the [switch] of [checkstate] does nothing. *)
Lemma regulator_idle_outside (m : state) :
  om m <> OPMODE_ON ->
  om (checkstate_regulate m) = om m
  /\ loadduty (checkstate_regulate m) = loadduty m
  /\ tim1_latched (checkstate_regulate m) = tim1_latched m.
Proof.
  intros Hoff. unfold checkstate_regulate.
  destruct (om m) eqn:E; try (exfalso; apply Hoff; reflexivity);
    (split; [exact E | split; reflexivity]).
Qed.

Lemma checkstate_dm_regulate (m : state) : dm (checkstate_regulate m) = dm m.
Proof.
  unfold checkstate_regulate.
  destruct (om m);
    repeat match goal with
           | |- context [if ?c then _ else _] => destruct c
           end; reflexivity.
Qed.

(** X15: the complete mode table of one pass.  From OFF the pass ends in
    ON exactly when start is down; from ON a voltage below the cutoff gives
    LVC, or OFF when the mode button is down in that same pass, and
    otherwise start switches to OFF; LVC ends only by the mode button; SET
    never changes.  Start is ignored in LVC and while the cutoff trips. *)
Theorem mode_after_pass (s : state) (i : inputs) :
  om (mainloop s i)
  = match om s with
    | OPMODE_OFF => if start_down (PD_IDR i) then OPMODE_ON else OPMODE_OFF
    | OPMODE_ON =>
        if volts (checkstate_measure s (adc i)) <? lvc s
        then (if mode_down (PD_IDR i) then OPMODE_OFF else OPMODE_LVC)
        else (if start_down (PD_IDR i) then OPMODE_OFF else OPMODE_ON)
    | OPMODE_LVC => if mode_down (PD_IDR i) then OPMODE_OFF else OPMODE_LVC
    | OPMODE_SET => OPMODE_SET
    end.
Proof.
  destruct (mainloop_fields s i) as (-> & _).
  destruct (checkbuttons_fields (checkstate s (adc i)) (PD_IDR i)) as (-> & _).
  rewrite checkstate_mode.
  destruct (om s); try reflexivity.
  destruct (volts (checkstate_measure s (adc i)) <? lvc s); reflexivity.
Qed.

Lemma off_pass (s : state) (i : inputs) :
  om s = OPMODE_OFF ->
  om (mainloop s i) = (if start_down (PD_IDR i) then OPMODE_ON else OPMODE_OFF)
  /\ dm (mainloop s i)
     = (if mode_down (PD_IDR i) && negb (start_down (PD_IDR i))
        then next_displaymode (dm s) else dm s)
  /\ loadduty (mainloop s i) = loadduty s
  /\ tim1_latched (mainloop s i) = tim1_latched s.
Proof.
  intros Hoff.
  destruct (mainloop_fields s i) as (-> & -> & -> & ->).
  destruct (checkbuttons_fields (checkstate s (adc i)) (PD_IDR i))
    as (-> & -> & -> & ->).
  assert (Hne : om s <> OPMODE_ON) by (rewrite Hoff; discriminate).
  destruct (regulator_idle_outside (checkstate_measure s (adc i))) as (Eo & Ed & El).
  { destruct (checkstate_measure_frame s (adc i)) as (-> & _). exact Hne. }
  destruct (checkstate_measure_frame s (adc i)) as (Fo & _ & _ & _ & Fd & Fl & _).
  unfold checkstate. rewrite Eo, Ed, El, Fo, Fd, Fl, Hoff, checkstate_dm_regulate.
  destruct (checkstate_measure_frame s (adc i)) as (_ & -> & _).
  cbn [operationmode_eqb]. rewrite andb_false_r. repeat split.
Qed.

Lemma lvc_pass (s : state) (i : inputs) :
  om s = OPMODE_LVC ->
  om (mainloop s i) = (if mode_down (PD_IDR i) then OPMODE_OFF else OPMODE_LVC)
  /\ dm (mainloop s i) = dm s
  /\ loadduty (mainloop s i) = loadduty s
  /\ tim1_latched (mainloop s i) = tim1_latched s.
Proof.
  intros Hl.
  destruct (mainloop_fields s i) as (-> & -> & -> & ->).
  destruct (checkbuttons_fields (checkstate s (adc i)) (PD_IDR i))
    as (-> & -> & -> & ->).
  assert (Hne : om s <> OPMODE_ON) by (rewrite Hl; discriminate).
  destruct (regulator_idle_outside (checkstate_measure s (adc i))) as (Eo & Ed & El).
  { destruct (checkstate_measure_frame s (adc i)) as (-> & _). exact Hne. }
  destruct (checkstate_measure_frame s (adc i)) as (Fo & _ & _ & _ & Fd & Fl & _).
  unfold checkstate. rewrite Eo, Ed, El, Fo, Fd, Fl, Hl, checkstate_dm_regulate.
  destruct (checkstate_measure_frame s (adc i)) as (_ & -> & _).
  cbn [operationmode_eqb]. rewrite andb_false_r, andb_false_r. repeat split.
Qed.

(** X16: with the load off and start released, every pass with the mode
    button down advances the display mode by one, cyclically through the
    four modes, and the mode stays OFF: after [n] such passes the display
    mode is the old one plus [n] modulo 4, so four presses restore it. *)
Theorem display_mode_cycles (s : state) (ins : list inputs) :
  om s = OPMODE_OFF ->
  0 <= dm s < 4 ->
  Forall (fun i => start_down (PD_IDR i) = false /\ mode_down (PD_IDR i) = true) ins ->
  dm (run s ins) = (dm s + Z.of_nat (length ins)) mod 4
  /\ om (run s ins) = OPMODE_OFF.
Proof.
  revert s. induction ins as [| i ins IH]; intros s Hoff Hd Hall.
  - cbn [run fold_left length]. rewrite Z.add_0_r, Z.mod_small by lia.
    split; [reflexivity | exact Hoff].
  - apply Forall_cons_1 in Hall as [[Hs Hm] Hall].
    change (run s (i :: ins)) with (run (mainloop s i) ins).
    destruct (off_pass s i Hoff) as (Eo & Ed & _).
    rewrite Hs, Hm in *. cbn [andb negb] in Ed.
    destruct (next_displaymode_range (dm s) Hd) as [Hr En].
    destruct (IH (mainloop s i)) as [R Ro];
      [exact Eo | rewrite Ed; exact Hr | exact Hall |].
    split; [| exact Ro].
    rewrite R, Ed, En. cbn [length].
    rewrite Zplus_mod_idemp_l. f_equal. lia.
Qed.

Lemma display_mode_cycles_witness :
  dm (run boot_state (replicate 4 (mkInputs (adc_codes 0 0 0) mode_pressed)))
  = dm boot_state
  /\ dm (run boot_state (replicate 3 (mkInputs (adc_codes 0 0 0) mode_pressed))) = WATTS.
Proof.
  split.
  - rewrite (proj1 (display_mode_cycles boot_state
               (replicate 4 (mkInputs (adc_codes 0 0 0) mode_pressed))
               eq_refl ltac:(vm_compute; split; [discriminate | reflexivity])
               ltac:(apply Forall_replicate; split; reflexivity))).
    reflexivity.
  - rewrite (proj1 (display_mode_cycles boot_state
               (replicate 3 (mkInputs (adc_codes 0 0 0) mode_pressed))
               eq_refl ltac:(vm_compute; split; [discriminate | reflexivity])
               ltac:(apply Forall_replicate; split; reflexivity))).
    reflexivity.
Defined.

(** X17: the low voltage cutoff is latched.  Once in LVC the firmware
    stays in LVC through every pass in which the mode button is up,
    whatever the voltage does and whether start is pressed or not, and it
    writes neither the duty nor the timer; the mode button alone ends it,
    to OFF. *)
Theorem lvc_is_latched (s : state) (ins : list inputs) (i : inputs) :
  om s = OPMODE_LVC ->
  Forall (fun j => mode_down (PD_IDR j) = false) ins ->
  om (run s ins) = OPMODE_LVC
  /\ loadduty (run s ins) = loadduty s
  /\ tim1_latched (run s ins) = tim1_latched s
  /\ om (mainloop (run s ins) i)
     = (if mode_down (PD_IDR i) then OPMODE_OFF else OPMODE_LVC).
Proof.
  intros Hl Hall.
  assert (H : om (run s ins) = OPMODE_LVC
              /\ loadduty (run s ins) = loadduty s
              /\ tim1_latched (run s ins) = tim1_latched s).
  { revert s Hl. induction Hall as [| j ins Hj _ IH]; intros s Hl.
    - repeat split. exact Hl.
    - change (run s (j :: ins)) with (run (mainloop s j) ins).
      destruct (lvc_pass s j Hl) as (Eo & _ & Ed & Ela).
      rewrite Hj in Eo.
      destruct (IH (mainloop s j) Eo) as (R1 & R2 & R3).
      rewrite R1, R2, R3, Ed, Ela. repeat split. }
  destruct H as (H1 & H2 & H3).
  split; [exact H1 |]. split; [exact H2 |]. split; [exact H3 |].
  apply lvc_pass. exact H1.
Qed.

Lemma lvc_is_latched_witness :
  om (run (checkstate switched_on (adc_codes 0 0 1023))
          (replicate 3 (mkInputs (adc_codes 0 1023 0) start_pressed)))
  = OPMODE_LVC
  /\ loadduty (run (checkstate switched_on (adc_codes 0 0 1023))
                   (replicate 3 (mkInputs (adc_codes 0 1023 0) start_pressed)))
     = 1025.
Proof.
  destruct (lvc_is_latched (checkstate switched_on (adc_codes 0 0 1023))
              (replicate 3 (mkInputs (adc_codes 0 1023 0) start_pressed))
              quiet_pass) as (H1 & H2 & _).
  - vm_compute. reflexivity.
  - apply Forall_replicate. reflexivity.
  - split; [exact H1 |]. rewrite H2. vm_compute. reflexivity.
Defined.

(** X18: with the load off, nothing but the start button switches it on:
    through every pass with start up the mode stays OFF, and neither these
    passes nor the pass that switches on write the duty or the timer, so
    the drive keeps the compare value it had until the regulator first
    changes the duty. *)
Theorem off_until_start (s : state) (ins : list inputs) (i : inputs) :
  om s = OPMODE_OFF ->
  Forall (fun j => start_down (PD_IDR j) = false) ins ->
  om (run s ins) = OPMODE_OFF
  /\ om (mainloop (run s ins) i)
     = (if start_down (PD_IDR i) then OPMODE_ON else OPMODE_OFF)
  /\ loadduty (mainloop (run s ins) i) = loadduty s
  /\ tim1_latched (mainloop (run s ins) i) = tim1_latched s.
Proof.
  intros Hoff Hall.
  assert (H : om (run s ins) = OPMODE_OFF
              /\ loadduty (run s ins) = loadduty s
              /\ tim1_latched (run s ins) = tim1_latched s).
  { revert s Hoff. induction Hall as [| j ins Hj _ IH]; intros s Hoff.
    - repeat split. exact Hoff.
    - change (run s (j :: ins)) with (run (mainloop s j) ins).
      destruct (off_pass s j Hoff) as (Eo & _ & Ed & Ela).
      rewrite Hj in Eo.
      destruct (IH (mainloop s j) Eo) as (R1 & R2 & R3).
      rewrite R1, R2, R3, Ed, Ela. repeat split. }
  destruct H as (H1 & H2 & H3).
  destruct (off_pass (run s ins) i H1) as (Eo & _ & Ed & Ela).
  split; [exact H1 |]. split; [exact Eo |].
  rewrite Ed, Ela, H2, H3. split; reflexivity.
Qed.

Lemma off_until_start_witness :
  om (run boot_state (replicate 5 (mkInputs (adc_codes 1023 1023 1023) mode_pressed)))
  = OPMODE_OFF
  /\ tim1_latched (mainloop
       (run boot_state (replicate 5 (mkInputs (adc_codes 1023 1023 1023) mode_pressed)))
       (mkInputs (adc_codes 0 0 0) start_pressed))
     = [1024].
Proof.
  destruct (off_until_start boot_state
              (replicate 5 (mkInputs (adc_codes 1023 1023 1023) mode_pressed))
              (mkInputs (adc_codes 0 0 0) start_pressed)) as (H1 & _ & _ & H4).
  - reflexivity.
  - apply Forall_replicate. reflexivity.
  - split; [exact H1 |]. rewrite H4. reflexivity.
Defined.

(** ** [state.c]: series of requests *)

Lemma changeopmode_step (g : StateC.globals) (m : operationmode) :
  fst (StateC.state_changeopmode g m)
  = StateC.set_om (StateC.om (fst (StateC.state_changeopmode g m))) g
  /\ (StateC.om g = OPMODE_SET -> fst (StateC.state_changeopmode g m) = g)
  /\ (StateC.om g <> OPMODE_SET ->
      StateC.om (fst (StateC.state_changeopmode g m)) = OPMODE_OFF
      \/ StateC.om (fst (StateC.state_changeopmode g m)) = OPMODE_ON
      \/ (StateC.om g = OPMODE_LVC
          /\ StateC.om (fst (StateC.state_changeopmode g m)) = OPMODE_LVC)).
Proof.
  unfold StateC.state_changeopmode. cbv zeta.
  destruct g as [hg lv ta vo am ah wa ld db ti d o sq]. cbn [StateC.om].
  destruct o, m; cbn; repeat split; try discriminate; try tauto;
    intros _; tauto.
Qed.

(** X19: through any series of requests [state_changeopmode] touches no
    global but the mode; it can never put the mode to LVC or SET, so from
    OFF or ON the mode stays within OFF and ON; and in SET it accepts
    nothing, so SET is never left. *)
Theorem changeopmode_requests (g : StateC.globals) (requests : list operationmode) :
  changeopmode_all g requests
  = StateC.set_om (StateC.om (changeopmode_all g requests)) g
  /\ (StateC.om g = OPMODE_SET -> changeopmode_all g requests = g)
  /\ (StateC.om g = OPMODE_OFF \/ StateC.om g = OPMODE_ON ->
      StateC.om (changeopmode_all g requests) = OPMODE_OFF
      \/ StateC.om (changeopmode_all g requests) = OPMODE_ON)
  /\ (StateC.om (changeopmode_all g requests) = OPMODE_LVC ->
      StateC.om g = OPMODE_LVC).
Proof.
  unfold changeopmode_all.
  revert g. induction requests as [| m requests IH]; intros g.
  - cbn [fold_left]. split; [destruct g; reflexivity |].
    split; [reflexivity |]. split; [tauto | tauto].
  - cbn [fold_left].
    destruct (changeopmode_step g m) as (E & Hset & Hother).
    set (g1 := fst (StateC.state_changeopmode g m)) in *.
    destruct (IH g1) as (IH1 & IH2 & IH3 & IH4).
    split.
    { rewrite IH1 at 1. rewrite E. reflexivity. }
    split.
    { intros Hs. rewrite (Hset Hs) in IH2 |- *. apply IH2. exact Hs. }
    split.
    { intros Hg. apply IH3.
      destruct Hother as [H | [H | [H _]]];
        [destruct Hg as [Hg | Hg]; rewrite Hg; discriminate | tauto | tauto |].
      destruct Hg as [Hg | Hg]; rewrite Hg in H; discriminate. }
    intros Hl. specialize (IH4 Hl).
    destruct (operationmode_eqb (StateC.om g) OPMODE_SET) eqn:Es.
    + apply operationmode_eqb_eq in Es.
      rewrite (Hset Es) in IH4. exact IH4.
    + assert (Hn : StateC.om g <> OPMODE_SET).
      { intros Hc. rewrite Hc in Es. discriminate. }
      destruct (Hother Hn) as [H | [H | [H _]]]; [congruence | congruence | exact H].
Qed.

(** ** The drive outside ON *)

(** X20: once the load is on or its drive is disabled, this holds at the
    end of every later pass: the firmware is in ON, or [loadduty] and the
    compare register hold the sentinel 1025 and 1025 was latched last.  No
    run leaves the drive enabled outside ON. *)
Theorem drive_disabled_outside_on (s : state) (ins : list inputs) :
  om s = OPMODE_ON \/ load_disabled s ->
  om (run s ins) = OPMODE_ON
  \/ (loadduty (run s ins) = 1025
      /\ TIM1_CCR1H (run s ins) = 4 /\ TIM1_CCR1L (run s ins) = 1
      /\ last (tim1_latched (run s ins)) = Some 1025).
Proof.
  revert s. induction ins as [| i ins IH]; intros s Hs.
  - exact Hs.
  - change (run s (i :: ins)) with (run (mainloop s i) ins).
    apply IH. apply (mainloop_safe s i Hs).
Qed.

Lemma drive_disabled_outside_on_witness :
  om (run switched_on [mkInputs (adc_codes 0 0 0) start_pressed; quiet_pass]) = OPMODE_ON
  \/ (loadduty (run switched_on [mkInputs (adc_codes 0 0 0) start_pressed; quiet_pass]) = 1025
      /\ TIM1_CCR1H (run switched_on [mkInputs (adc_codes 0 0 0) start_pressed; quiet_pass]) = 4
      /\ TIM1_CCR1L (run switched_on [mkInputs (adc_codes 0 0 0) start_pressed; quiet_pass]) = 1
      /\ last (tim1_latched (run switched_on [mkInputs (adc_codes 0 0 0) start_pressed; quiet_pass]))
         = Some 1025).
Proof.
  apply (drive_disabled_outside_on switched_on).
  left. vm_compute. reflexivity.
Defined.

(** ** The display driver *)

Lemma u8_testbit_low (x n : Z) : 0 <= n < 8 -> Z.testbit (u8 x) n = Z.testbit x n.
Proof.
  intros Hn. unfold u8. change 256 with (2 ^ 8).
  apply Z.mod_pow2_bits_low. lia.
Qed.

Lemma odr_set_odr (x y : port) (v : Z) (p : ports) :
  odr (set_odr x v p) y = if port_eqb x y then v else odr p y.
Proof. destruct x, y; reflexivity. Qed.

Lemma testbit_and_odr (x y : port) (mask : Z) (p : ports) (n : Z) :
  0 <= n < 8 ->
  Z.testbit (odr (and_odr x mask p) y) n
  = if port_eqb x y then Z.testbit (odr p y) n && Z.testbit mask n
    else Z.testbit (odr p y) n.
Proof.
  intros Hn. unfold and_odr. rewrite odr_set_odr.
  destruct x, y; cbn [port_eqb]; try reflexivity;
    rewrite u8_testbit_low, Z.land_spec by exact Hn; reflexivity.
Qed.

Lemma testbit_or_odr (x y : port) (bits : Z) (p : ports) (n : Z) :
  0 <= n < 8 ->
  Z.testbit (odr (or_odr x bits p) y) n
  = if port_eqb x y then Z.testbit (odr p y) n || Z.testbit bits n
    else Z.testbit (odr p y) n.
Proof.
  intros Hn. unfold or_odr. rewrite odr_set_odr.
  destruct x, y; cbn [port_eqb]; try reflexivity;
    rewrite u8_testbit_low, Z.lor_spec by exact Hn; reflexivity.
Qed.

(** Every character lights segments of EIGHT only. *)
Lemma cbits_within_eight (c : character) (x : port) (n : Z) :
  0 <= c < 14 -> 0 <= n < 8 ->
  segment_pin x n = false -> Z.testbit (bits_of (character_bits c) x) n = false.
Proof.
  intros Hc Hn.
  assert (Ec : c = 0 \/ c = 1 \/ c = 2 \/ c = 3 \/ c = 4 \/ c = 5 \/ c = 6
               \/ c = 7 \/ c = 8 \/ c = 9 \/ c = 10 \/ c = 11 \/ c = 12 \/ c = 13)
    by lia.
  assert (En : n = 0 \/ n = 1 \/ n = 2 \/ n = 3 \/ n = 4 \/ n = 5 \/ n = 6 \/ n = 7)
    by lia.
  clear Hc Hn.
  repeat (destruct Ec as [-> | Ec]); try subst c;
    repeat (destruct En as [-> | En]); try subst n;
    destruct x; vm_compute; congruence.
Qed.

Lemma testbit_bit (k n : Z) : 0 <= k -> Z.testbit (bit k) n = (k =? n).
Proof.
  intros Hk. unfold bit. rewrite Z.shiftl_1_l. apply Z.pow2_bits_eqb. exact Hk.
Qed.

Lemma setdigit_lit_pin (which : Z) (c : character) (dot : bool) (p : ports)
      (x : port) (n : Z) :
  0 <= which < 4 -> 0 <= c < 14 -> 0 <= n < 8 ->
  Z.testbit (odr (setdigit_lit which c dot p) x) n
  = (if segment_pin x n then Z.testbit (bits_of (character_bits c) x) n
     else if dot_pin x n then dot
     else if select_pin which x n then false
     else Z.testbit (odr p x) n).
Proof.
  intros Hw Hc Hn.
  pose proof (cbits_within_eight c x n Hc Hn) as Hin.
  unfold setdigit_lit. cbv zeta.
  assert (Ew : which = 0 \/ which = 1 \/ which = 2 \/ which = 3) by lia.
  clear Hw.
  destruct dot;
    repeat first [ rewrite testbit_or_odr by exact Hn
                 | rewrite testbit_and_odr by exact Hn ];
    rewrite ?Z.lnot_spec by lia;
    unfold dot_pin, select_pin;
    repeat (destruct Ew as [-> | Ew]); try subst which;
    repeat match goal with
           | |- context [digit_of ?w] =>
               let d := eval vm_compute in (digit_of w) in
               change (digit_of w) with d
           end;
    cbn [digit_odr digit_bit];
    change (Z.shiftl 1 ?k) with (bit k); change 1 with (bit 0) at 1;
    destruct x; cbn [port_eqb odr bits_of andb] in Hin |- *;
    rewrite ?testbit_bit by lia;
    change (Z.testbit (pbbits (character_bits EIGHT)) n)
      with (segment_pin PORT_B n);
    change (Z.testbit (pcbits (character_bits EIGHT)) n)
      with (segment_pin PORT_C n);
    change (Z.testbit (pdbits (character_bits EIGHT)) n)
      with (segment_pin PORT_D n);
    change (Z.testbit (pebits (character_bits EIGHT)) n)
      with (segment_pin PORT_E n);
    pin_cases Hin.
Qed.

Lemma setdigit_ports_pin (which : Z) (c : character) (dot : bool) (p : ports)
      (x : port) (n : Z) :
  0 <= which < 4 -> 0 <= c < 14 -> 0 <= n < 8 ->
  Z.testbit (odr (setdigit_ports which c dot p) x) n
  = (if segment_pin x n then Z.testbit (bits_of (character_bits c) x) n
     else if dot_pin x n then dot
     else if select_pin which x n then true
     else Z.testbit (odr p x) n).
Proof.
  intros Hw Hc Hn.
  unfold setdigit_ports.
  rewrite testbit_or_odr by exact Hn.
  rewrite (setdigit_lit_pin which c dot p x n Hw Hc Hn).
  assert (Ew : which = 0 \/ which = 1 \/ which = 2 \/ which = 3) by lia.
  clear Hw.
  unfold dot_pin, select_pin.
  repeat (destruct Ew as [-> | Ew]); try subst which;
    repeat match goal with
           | |- context [digit_of ?w] =>
               let d := eval vm_compute in (digit_of w) in
               change (digit_of w) with d
           end;
    cbn [digit_odr digit_bit];
    change (Z.shiftl 1 ?k) with (bit k);
    rewrite testbit_bit by lia;
    destruct x; cbn [port_eqb andb];
    repeat match goal with
           | |- context [?k =? ?n] =>
               destruct (Z.eqb_spec k n); try subst
           end;
    try lia;
    repeat match goal with
           | |- context [segment_pin ?x ?n] =>
               let b := eval vm_compute in (segment_pin x n) in
               lazymatch b with true => idtac | false => idtac end;
               change (segment_pin x n) with b
           end;
    cbv iota;
    repeat match goal with
           | |- context [if ?b then _ else _] => destruct b
           end;
    rewrite ?orb_false_r, ?orb_true_r; reflexivity.
Qed.

(** X21: what [setdigit] does to every pin of the four output ports, for a
    position and a character of the tables.  While the digit is lit its
    select line is low; when [setdigit] returns it is high again.  In both
    moments a segment pin shows the segment of the new character whatever
    was shown before, pin 0 of port D shows the decimal point, and every
    other pin (the LED, the fan, the select lines of the other digits) has
    the level it had. *)
Theorem setdigit_pins (which : Z) (c : character) (dot : bool) (p : ports)
        (x : port) (n : Z) :
  0 <= which < 4 -> 0 <= c < 14 -> 0 <= n < 8 ->
  Z.testbit (odr (setdigit_lit which c dot p) x) n
  = (if segment_pin x n then Z.testbit (bits_of (character_bits c) x) n
     else if dot_pin x n then dot
     else if select_pin which x n then false
     else Z.testbit (odr p x) n)
  /\ Z.testbit (odr (setdigit_ports which c dot p) x) n
     = (if segment_pin x n then Z.testbit (bits_of (character_bits c) x) n
        else if dot_pin x n then dot
        else if select_pin which x n then true
        else Z.testbit (odr p x) n).
Proof.
  intros Hw Hc Hn. split.
  - apply setdigit_lit_pin; assumption.
  - apply setdigit_ports_pin; assumption.
Qed.

Lemma setdigit_pins_witness :
  Z.testbit (odr (setdigit_lit 1 7 false (mkPorts 6 255 255 0)) PORT_C) 5 = false
  /\ Z.testbit (odr (setdigit_ports 1 7 false (mkPorts 6 255 255 0)) PORT_C) 5 = true.
Proof.
  apply (setdigit_pins 1 7 false (mkPorts 6 255 255 0) PORT_C 5); lia.
Defined.

(** The two digit loops of [updatedisplay], by the leading digit. *)
Lemma updatedisplay_calls_digits (s : state) :
  is_u16 (display_value s) ->
  let v := display_value s in
  updatedisplay_calls s
  = if 10000 <=? v
    then [(0, v / 10000, false); (1, v / 1000 mod 10, true);
          (2, v / 100 mod 10, false); (3, display_unit s, false)]
    else [(0, v / 1000, true); (1, v / 100 mod 10, false);
          (2, v / 10 mod 10, false); (3, display_unit s, false)].
Proof.
  intros Hv v. unfold updatedisplay_calls. fold v.
  unfold is_u16 in Hv. fold v in Hv.
  assert (Em : u16 (v mod 1000) = v mod 1000)
    by (apply u16_small; unfold is_u16; pose proof (Z.mod_pos_bound v 1000); lia).
  rewrite Em.
  assert (Eu : u16 (u16 (v - v mod 1000) / 1000) = v / 1000).
  { rewrite (u16_small (v - v mod 1000))
      by (unfold is_u16; pose proof (Z.mod_pos_bound v 1000);
          pose proof (Z.mod_le v 1000); lia).
    rewrite u16_small by (unfold is_u16; Z.div_mod_to_equations; lia).
    Z.div_mod_to_equations; lia. }
  rewrite Eu.
  rewrite (split_overwrites 3 (v / 1000) (replicate 3 0))
    by (try reflexivity; unfold is_u16; Z.div_mod_to_equations; lia).
  rewrite (split_overwrites 3 (v mod 1000))
    by (try (apply length_digits_of); unfold is_u16;
        pose proof (Z.mod_pos_bound v 1000); lia).
  cbn [digits_of app].
  assert (E0 : v / 1000 / 10 / 10 mod 10 = 0) by (Z.div_mod_to_equations; lia).
  assert (E1 : v / 1000 / 10 mod 10 = v / 10000) by (Z.div_mod_to_equations; lia).
  assert (E2 : v / 1000 mod 10 = v / 1000 mod 10) by reflexivity.
  assert (M0 : v mod 1000 / 10 / 10 mod 10 = v / 100 mod 10)
    by (Z.div_mod_to_equations; lia).
  assert (M1 : v mod 1000 / 10 mod 10 = v / 10 mod 10)
    by (Z.div_mod_to_equations; lia).
  rewrite E0, E1, M0, M1.
  cbn [seq fold_left nth Nat.eqb]. rewrite !orb_true_r.
  generalize (display_unit s). clearbody v. intros unit.
  destruct (Z.leb_spec 10000 v) as [Hb | Hs].
  - assert (En : (v / 10000 =? 0) = false)
      by (apply Z.eqb_neq; Z.div_mod_to_equations; lia).
    rewrite En. reflexivity.
  - assert (En : v / 10000 = 0) by (Z.div_mod_to_equations; lia).
    rewrite En.
    assert (Eo : v / 1000 mod 10 = v / 1000) by (Z.div_mod_to_equations; lia).
    rewrite Eo. reflexivity.
Qed.

(** [updatedisplay] is its calls of [setdigit], one after the other. *)
Lemma updatedisplay_replays (s : state) :
  updatedisplay s = setdigit_calls (updatedisplay_calls s) s.
Proof.
  unfold updatedisplay, updatedisplay_calls, setdigit_calls,
    display_unit, display_value.
  destruct (dm s =? VOLTS); [| destruct (dm s =? AMPS)].
  all: match goal with
       | |- context [split ?u (replicate 3 0) 3] =>
           generalize (split u (replicate 3 0) 3); intros t
       end.
  all: match goal with
       | |- context [split ?m ?b 3] => generalize (split m b 3); intros t'
       end.
  all: cbn [seq fold_left Nat.eqb]; rewrite !orb_true_r.
  all: destruct (nth 0 t 0 =? 0), (nth 1 t 0 =? 0); cbn [negb orb].
  all: reflexivity.
Qed.

(** X22: the layout of the display.  For 16 bit measurements
    [updatedisplay] always lights the four positions once each, from left
    to right, with one decimal point and the unit last: a value of
    10000 or more shows its ten thousands, its thousands with the point
    and its hundreds; a smaller value its thousands with the point, its
    hundreds and its tens.  The units digit of the value is never
    shown. *)
Theorem display_format (s : state) :
  is_u16 (volts s) -> is_u16 (amps s) ->
  let v := display_value s in
  updatedisplay_calls s
  = if 10000 <=? v
    then [(0, v / 10000, false); (1, v / 1000 mod 10, true);
          (2, v / 100 mod 10, false); (3, display_unit s, false)]
    else [(0, v / 1000, true); (1, v / 100 mod 10, false);
          (2, v / 10 mod 10, false); (3, display_unit s, false)].
Proof.
  intros Hv Ha. apply updatedisplay_calls_digits.
  unfold display_value.
  destruct (dm s =? VOLTS); [exact Hv |].
  destruct (dm s =? AMPS); [exact Ha |].
  unfold is_u16. lia.
Qed.

Lemma display_format_witness :
  is_u16 12345 /\ is_u16 678
  /\ updatedisplay_calls (set_measurement 678 12345 0 false initial_state)
     = [(0, 1, false); (1, 2, true); (2, 3, false); (3, CHAR_V, false)]
  /\ updatedisplay_calls (set_dm AMPS (set_measurement 678 12345 0 false initial_state))
     = [(0, 0, true); (1, 6, false); (2, 7, false); (3, CHAR_A, false)].
Proof.
  assert (Hv : is_u16 12345) by (unfold is_u16; lia).
  assert (Ha : is_u16 678) by (unfold is_u16; lia).
  split; [exact Hv |]. split; [exact Ha |]. split.
  - exact (display_format (set_measurement 678 12345 0 false initial_state) Hv Ha).
  - exact (display_format
             (set_dm AMPS (set_measurement 678 12345 0 false initial_state)) Hv Ha).
Defined.

Lemma cbits_pbbits_agree (c : character) :
  nth (Z.to_nat c) cbits_pbbits 0 = pbbits (character_bits c).
Proof.
  unfold character_bits, cbits_pbbits, cbits.
  generalize (Z.to_nat c). intros k.
  do 14 (destruct k as [| k]; [reflexivity |]).
  destruct k; reflexivity.
Qed.

Lemma pb_odr_and_odr (x : port) (mask : Z) (p : ports) :
  pb_odr (and_odr x mask p)
  = if port_eqb x PORT_B then u8 (Z.land (pb_odr p) mask) else pb_odr p.
Proof. destruct x; reflexivity. Qed.

Lemma pb_odr_or_odr (x : port) (bits : Z) (p : ports) :
  pb_odr (or_odr x bits p)
  = if port_eqb x PORT_B then u8 (Z.lor (pb_odr p) bits) else pb_odr p.
Proof. destruct x; reflexivity. Qed.

Lemma select_line_not_b (which : Z) : port_eqb (digit_odr (digit_of which)) PORT_B = false.
Proof.
  unfold digit_of, digits. generalize (Z.to_nat which). intros k.
  do 4 (destruct k as [| k]; [reflexivity |]).
  destruct k; reflexivity.
Qed.

(** On port B [setdigit] of the loop's state and [setdigit] on the four
    ports agree. *)
Lemma setdigit_port_b (which : Z) (c : character) (dot : bool) (p : ports) (s : state) :
  pb_odr p = PB_ODR s ->
  pb_odr (setdigit_ports which c dot p) = PB_ODR (setdigit which c dot s).
Proof.
  intros E. unfold setdigit_ports, setdigit_lit, setdigit. cbv zeta.
  cbn [PB_ODR set_PB_ODR].
  rewrite !cbits_pbbits_agree.
  destruct dot;
    repeat first [ rewrite pb_odr_or_odr | rewrite pb_odr_and_odr
                 | rewrite select_line_not_b | progress cbn [port_eqb] ];
    rewrite E; reflexivity.
Qed.

Lemma setdigit_calls_port_b (calls : list (Z * character * bool)) :
  forall (p : ports) (s : state),
    pb_odr p = PB_ODR s ->
    pb_odr (fold_left (fun p call => let '(which, c, dot) := call in
                                     setdigit_ports which c dot p) calls p)
    = PB_ODR (setdigit_calls calls s).
Proof.
  induction calls as [| [[which c] dot] calls IH]; intros p s E.
  - exact E.
  - unfold setdigit_calls. cbn [fold_left]. apply IH.
    apply setdigit_port_b. exact E.
Qed.

(** X23: the loop's [updatedisplay], which holds port B alone, and
    [updatedisplay] on the four ports leave the same value in the output
    register of port B, whatever the other three registers hold. *)
Theorem updatedisplay_port_b (s : state) (pc pd pe : Z) :
  pb_odr (updatedisplay_ports s (mkPorts (PB_ODR s) pc pd pe))
  = PB_ODR (updatedisplay s).
Proof.
  rewrite updatedisplay_replays. unfold updatedisplay_ports.
  apply setdigit_calls_port_b. reflexivity.
Qed.

Lemma display_unit_range (s : state) : 0 <= display_unit s < 14.
Proof.
  unfold display_unit, CHAR_LITTLEV, CHAR_V, CHAR_A, CHAR_SPACE.
  destruct (dm s =? VOLTS); [destruct (highgain s); lia |].
  destruct (dm s =? AMPS); lia.
Qed.

(** X24: the pins after [updatedisplay], for 16 bit measurements.  All
    four select lines are high, the decimal point is low, the segments
    are those of the unit character (the last position lit), and every
    other pin of the four ports, among them the LED and the fan on port
    B, has the level it had before the call. *)
Theorem updatedisplay_pins (s : state) (p : ports) (x : port) (n : Z) :
  is_u16 (volts s) -> is_u16 (amps s) -> 0 <= n < 8 ->
  Z.testbit (odr (updatedisplay_ports s p) x) n
  = (if segment_pin x n
     then Z.testbit (bits_of (character_bits (display_unit s)) x) n
     else if dot_pin x n then false
     else if any_select_pin x n then true
     else Z.testbit (odr p x) n).
Proof.
  intros Hv Ha Hn.
  assert (Hd : is_u16 (display_value s)).
  { unfold display_value.
    destruct (dm s =? VOLTS); [exact Hv |].
    destruct (dm s =? AMPS); [exact Ha |].
    unfold is_u16. lia. }
  unfold updatedisplay_ports.
  rewrite (updatedisplay_calls_digits s Hd). cbv zeta.
  pose proof (display_unit_range s) as Hu.
  unfold is_u16 in Hd.
  generalize dependent (display_value s). intros v Hd.
  generalize dependent (display_unit s). intros unit Hu.
  unfold any_select_pin.
  destruct (Z.leb_spec 10000 v) as [Hb | Hs]; cbn [fold_left];
    rewrite !setdigit_ports_pin
      by (try exact Hn; try exact Hu; Z.div_mod_to_equations; lia);
    destruct (segment_pin x n), (dot_pin x n), (select_pin 0 x n),
      (select_pin 1 x n), (select_pin 2 x n), (select_pin 3 x n);
    reflexivity.
Qed.

Lemma updatedisplay_pins_witness :
  Z.testbit (odr (updatedisplay_ports boot_state (mkPorts (PB_ODR boot_state) 0 0 0))
                 PORT_B) 2 = true
  /\ Z.testbit (odr (updatedisplay_ports boot_state (mkPorts (PB_ODR boot_state) 0 0 0))
                    PORT_C) 5 = true.
Proof.
  assert (H0 : is_u16 0) by (unfold is_u16; lia).
  split.
  - apply (updatedisplay_pins boot_state (mkPorts (PB_ODR boot_state) 0 0 0)
             PORT_B 2 H0 H0). lia.
  - apply (updatedisplay_pins boot_state (mkPorts (PB_ODR boot_state) 0 0 0)
             PORT_C 5 H0 H0). lia.
Defined.

(** ** The pin configuration *)

(** X25: the pin configuration [main] leaves, from any reset values of
    the direction and control registers.  Every pin the firmware drives
    (segments, decimal point, select lines, LED, fan, load) is an output
    in push-pull mode, the two button pins are inputs with pull-up, the
    load pin is driven low, and every other bit of the three registers
    keeps its value.  No button pin is a driven pin. *)
Theorem pins_configured (g : gpio) (x : port) (n : Z) :
  0 <= n < 8 ->
  Z.testbit (odr (ddr (init_pins g)) x) n
  = (if driven_pin x n then true
     else if button_pin x n then false
     else Z.testbit (odr (ddr g) x) n)
  /\ Z.testbit (odr (cr1 (init_pins g)) x) n
     = (if driven_pin x n || button_pin x n then true
        else Z.testbit (odr (cr1 g) x) n)
  /\ Z.testbit (odr (out (init_pins g)) x) n
     = (if pin_is PORT_C 1 x n then false else Z.testbit (odr (out g) x) n)
  /\ driven_pin x n && button_pin x n = false.
Proof.
  intros Hn.
  unfold init_pins, initfan, initbuttons, initdisplay, initload_pins, setuppins.
  cbv zeta. cbn [ddr cr1 out].
  unfold driven_pin, button_pin, any_select_pin, select_pin, dot_pin, pin_is.
  repeat match goal with
         | |- context [digit_of ?w] =>
             let d := eval vm_compute in (digit_of w) in
             change (digit_of w) with d
         end.
  cbn [digit_odr digit_bit].
  repeat first [ rewrite testbit_or_odr by exact Hn
               | rewrite testbit_and_odr by exact Hn ].
  rewrite ?Z.lnot_spec by lia.
  rewrite ?u8_testbit_low by exact Hn.
  rewrite ?Z.lor_spec.
  change (Z.shiftl 1 ?k) with (bit k). change (Z.testbit 1 n) with (Z.testbit (bit 0) n).
  rewrite ?testbit_bit by lia.
  destruct x; cbn [port_eqb andb orb];
    change (Z.testbit (pbbits (character_bits EIGHT)) n)
      with (segment_pin PORT_B n);
    change (Z.testbit (pcbits (character_bits EIGHT)) n)
      with (segment_pin PORT_C n);
    change (Z.testbit (pdbits (character_bits EIGHT)) n)
      with (segment_pin PORT_D n);
    change (Z.testbit (pebits (character_bits EIGHT)) n)
      with (segment_pin PORT_E n).
  all: repeat match goal with
              | |- context [?k =? ?n] =>
                  destruct (Z.eqb_spec k n); try subst
              end;
    try lia.
  all: repeat match goal with
              | |- context [segment_pin ?x ?n] =>
                  let b := eval vm_compute in (segment_pin x n) in
                  lazymatch b with true => idtac | false => idtac end;
                  change (segment_pin x n) with b
              end.
  all: repeat match goal with
              | |- context [segment_pin ?x ?n] => destruct (segment_pin x n)
              end.
  all: repeat match goal with
              | |- context [Z.testbit ?a ?n] => destruct (Z.testbit a n)
              end.
  all: repeat split.
Qed.

Lemma pins_configured_witness :
  Z.testbit (odr (ddr (init_pins (mkGpio (mkPorts 0 0 255 0) (mkPorts 0 0 0 0)
                                         (mkPorts 0 255 0 0)))) PORT_D) 3 = false
  /\ Z.testbit (odr (cr1 (init_pins (mkGpio (mkPorts 0 0 255 0) (mkPorts 0 0 0 0)
                                            (mkPorts 0 255 0 0)))) PORT_D) 3 = true
  /\ Z.testbit (odr (out (init_pins (mkGpio (mkPorts 0 0 255 0) (mkPorts 0 0 0 0)
                                            (mkPorts 0 255 0 0)))) PORT_D) 3 = false
  /\ driven_pin PORT_D 3 && button_pin PORT_D 3 = false.
Proof.
  apply (pins_configured (mkGpio (mkPorts 0 0 255 0) (mkPorts 0 0 0 0)
                                 (mkPorts 0 255 0 0)) PORT_D 3).
  lia.
Defined.
